(** * Quantized-mesh terrain tiles: a shallow embedding of [terrain.py]

    The development follows [quantized_mesh_tile/terrain.py]:

    - Python exceptions and the values that cross the [struct] boundary;
    - the byte-level codecs imported from [utils] (word packing, zigzag,
      high-water-mark indices);
    - the [TerrainTile] class: constructor, reader ([fromBytesIO]), writer
      ([_writeTo], [toFile], [toOurFile]), quantization helpers, the edge
      detection of [fromTerrainTopology] and [getVerticesCoordinates];
    - the properties of the codec. *)

From Stdlib Require Import ZArith Floats Lia Bool.
From Stdlib.Strings Require Import Byte.
From stdpp Require Import base option list strings gmap.

Local Open Scope string_scope.
Local Open Scope Z_scope.
Local Open Scope list_scope.

(** ** Python exceptions and results *)

(** The exceptions that the modelled code can raise.  [StructError] is
    [struct.error]; [Exception] is a bare [raise Exception(msg)]. *)
Inductive exn : Type :=
| StructError
| OverflowError
| KeyError (key : string)
| IndexError
| ZeroDivisionError
| ValueError
| TypeError
| IOError
| Exception (msg : string).

Inductive result (A : Type) : Type :=
| Ok (a : A)
| Raise (e : exn).
Arguments Ok {A} a.
Arguments Raise {A} e.

Definition is_ok {A} (r : result A) : bool :=
  match r with Ok _ => true | Raise _ => false end.

(** ** Python sequences *)

(** [l[i]] for a Python list: negative indices count from the end, anything
    outside [-len, len) raises [IndexError]. *)
Definition getitem {A} (l : list A) (i : Z) : result A :=
  let n := Z.of_nat (length l) in
  let j := if i <? 0 then i + n else i in
  if (0 <=? j) && (j <? n)
  then match l !! Z.to_nat j with Some x => Ok x | None => Raise IndexError end
  else Raise IndexError.

(** [x in l] for a list of integers. *)
Definition contains (l : list Z) (x : Z) : bool := existsb (Z.eqb x) l.

(** ** The [struct] formats used by the tile layout *)

(** The layout tables of [TerrainTile] give a [struct] format character to
    every entry: ['B'], ['H'], ['I'] for unsigned integers of 1, 2 and 4
    bytes, ['f'] and ['d'] for IEEE binary32 and binary64. *)
Inductive ifmt : Type := fmt_B | fmt_H | fmt_I.
Inductive ffmt : Type := fmt_f | fmt_d.

Definition isize (t : ifmt) : nat :=
  match t with fmt_B => 1 | fmt_H => 2 | fmt_I => 4 end%nat.

Definition fsize (t : ffmt) : nat :=
  match t with fmt_f => 4 | fmt_d => 8 end%nat.

Definition byte_of_Z (z : Z) : byte :=
  match Byte.of_N (Z.to_N (z mod 256)) with Some b => b | None => x00 end.

Definition Z_of_byte (b : byte) : Z := Z.of_N (Byte.to_N b).

(** Little-endian image of [z] on [n] bytes, and its inverse. *)
Fixpoint le_bytes (n : nat) (z : Z) : list byte :=
  match n with
  | O => []
  | S n' => byte_of_Z z :: le_bytes n' (z / 256)
  end.

Fixpoint le_value (bs : list byte) : Z :=
  match bs with
  | [] => 0
  | b :: bs' => Z_of_byte b + 256 * le_value bs'
  end.

(** *** IEEE 754 images of floats *)

Section IEEE.
(** [prec] and [emax] as in [SpecFloat]; [ew] is the width of the exponent
    field, so that a value occupies [ew + prec] bits. *)
Variables (prec emax ew : Z).

Definition sign_bit (s : bool) : Z := if s then 2 ^ (ew + prec - 1) else 0.

Definition bits_of_SF (x : spec_float) : Z :=
  match x with
  | S754_zero s => sign_bit s
  | S754_infinity s => sign_bit s + (2 ^ ew - 1) * 2 ^ (prec - 1)
  | S754_nan => (2 ^ ew - 1) * 2 ^ (prec - 1) + 2 ^ (prec - 2)
  | S754_finite s m e =>
      sign_bit s +
      (if Z.pos m <? 2 ^ (prec - 1)
       then Z.pos m
       else (e - SpecFloat.emin prec emax + 1) * 2 ^ (prec - 1)
            + (Z.pos m - 2 ^ (prec - 1)))
  end.

Definition SF_of_bits (b : Z) : spec_float :=
  let mant := b mod 2 ^ (prec - 1) in
  let bexp := (b / 2 ^ (prec - 1)) mod 2 ^ ew in
  let s := Z.testbit b (ew + prec - 1) in
  if bexp =? 0 then
    match mant with
    | Z.pos m => S754_finite s m (SpecFloat.emin prec emax)
    | _ => S754_zero s
    end
  else if bexp =? 2 ^ ew - 1 then
    (if mant =? 0 then S754_infinity s else S754_nan)
  else
    match mant + 2 ^ (prec - 1) with
    | Z.pos m => S754_finite s m (bexp + SpecFloat.emin prec emax - 1)
    | _ => S754_nan
    end.
End IEEE.

(** Conversion of a C [double] to a C [float]: round to nearest even. *)
Definition round_binary32 (x : spec_float) : spec_float :=
  match x with
  | S754_finite s m e => binary_normalize 24 128 (cond_Zopp s (Z.pos m)) e s
  | _ => x
  end.

Definition is_SF_infinity (x : spec_float) : bool :=
  match x with S754_infinity _ => true | _ => false end.

(** *** [utils.packEntry] and [utils.unpackEntry] *)

(** Modelled from the spec: [utils.py] is not part of the sources at hand.
    [packEntry(type, value)] is [struct.pack('<' + type, value)]: the
    fixed-width little-endian image of §4.7, and [struct.error] when an
    integer does not fit its word. *)
Definition packEntry (t : ifmt) (z : Z) : result (list byte) :=
  if (0 <=? z) && (z <? 256 ^ Z.of_nat (isize t))
  then Ok (le_bytes (isize t) z)
  else Raise StructError.

(** Modelled from the spec: [packEntry] at the float formats of the header
    (§3: float64 and float32 fields).  Packing a finite double that does
    not fit binary32 raises [OverflowError]. *)
Definition packEntry_float (t : ffmt) (x : float) : result (list byte) :=
  match t with
  | fmt_d => Ok (le_bytes 8 (bits_of_SF 53 1024 11 (Prim2SF x)))
  | fmt_f =>
      let y := round_binary32 (Prim2SF x) in
      if is_SF_infinity y && negb (is_infinity x)
      then Raise OverflowError
      else Ok (le_bytes 4 (bits_of_SF 24 128 8 y))
  end.

(** [f.read(n)]: the next [n] bytes, or all that is left. *)
Definition read_bytes (n : nat) (s : list byte) : list byte * list byte :=
  (take n s, drop n s).

(** Modelled from the spec: [unpackEntry(f, type)] is
    [struct.unpack('<' + type, f.read(calcsize(type)))[0]]; a short read
    raises [struct.error]. *)
Definition unpackEntry (t : ifmt) (s : list byte) : result Z * list byte :=
  let '(bs, rest) := read_bytes (isize t) s in
  if (length bs =? isize t)%nat then (Ok (le_value bs), rest)
  else (Raise StructError, rest).

Definition unpackEntry_float (t : ffmt) (s : list byte)
  : result float * list byte :=
  let '(bs, rest) := read_bytes (fsize t) s in
  if (length bs =? fsize t)%nat then
    match t with
    | fmt_d => (Ok (SF2Prim (SF_of_bits 53 1024 11 (le_value bs))), rest)
    | fmt_f => (Ok (SF2Prim (SF_of_bits 24 128 8 (le_value bs))), rest)
    end
  else (Raise StructError, rest).

(** *** Zigzag and high-water-mark codecs *)

(** Modelled from the spec (§4.2): [zigzag(n) = (n << 1) XOR (n >> 31)]. *)
Definition zigZagEncode (n : Z) : Z := Z.lxor (Z.shiftl n 1) (Z.shiftr n 31).

(** Modelled from the spec (§4.2): [unzigzag(z) = (z >> 1) XOR -(z & 1)]. *)
Definition zigZagDecode (z : Z) : Z :=
  Z.lxor (Z.shiftr z 1) (- Z.land z 1).

(** Modelled from the spec (§4.3): emitted code is [highest - i]; a code of
    0 increments [highest]. *)
Fixpoint encodeIndices_from (highest : Z) (l : list Z) : list Z :=
  match l with
  | [] => []
  | i :: l' =>
      let code := highest - i in
      code :: encodeIndices_from (if code =? 0 then highest + 1 else highest) l'
  end.

Definition encodeIndices (l : list Z) : list Z := encodeIndices_from 0 l.

(** Modelled from the spec (§4.3): recovered index is [highest - code]; a
    code of 0 increments [highest]. *)
Fixpoint decodeIndices_from (highest : Z) (l : list Z) : list Z :=
  match l with
  | [] => []
  | code :: l' =>
      (highest - code)
        :: decodeIndices_from (if code =? 0 then highest + 1 else highest) l'
  end.

Definition decodeIndices (l : list Z) : list Z := decodeIndices_from 0 l.


(** ** The layout tables of [TerrainTile] *)

Definition table (A : Type) : Type := list (string * A).

(** [meta[key]] on an [OrderedDict]: [KeyError] when the key is absent. *)
Fixpoint table_get {A} (meta : table A) (key : string) : result A :=
  match meta with
  | [] => Raise (KeyError key)
  | (k, x) :: meta' => if String.eqb k key then Ok x else table_get meta' key
  end.

Definition quantizedMeshHeader : table ffmt :=
  [ ("centerX", fmt_d); ("centerY", fmt_d); ("centerZ", fmt_d);
    ("minimumHeight", fmt_f); ("maximumHeight", fmt_f);
    ("boundingSphereCenterX", fmt_d); ("boundingSphereCenterY", fmt_d);
    ("boundingSphereCenterZ", fmt_d); ("boundingSphereRadius", fmt_d);
    ("horizonOcclusionPointX", fmt_d); ("horizonOcclusionPointY", fmt_d);
    ("horizonOcclusionPointZ", fmt_d) ].

Definition vertexData : table ifmt :=
  [ ("vertexCount", fmt_I); ("uVertexCount", fmt_H);
    ("vVertexCount", fmt_H); ("heightVertexCount", fmt_H) ].

Definition indexData16 : table ifmt :=
  [ ("triangleCount", fmt_I); ("indices", fmt_H) ].

Definition indexData32 : table ifmt :=
  [ ("triangleCount", fmt_I); ("indices", fmt_I) ].

Definition EdgeIndices16 : table ifmt :=
  [ ("westVertexCount", fmt_I); ("westIndices", fmt_H);
    ("southVertexCount", fmt_I); ("southIndices", fmt_H);
    ("eastVertexCount", fmt_I); ("eastIndices", fmt_H);
    ("northVertexCount", fmt_I); ("northIndices", fmt_H) ].

Definition EdgeIndices32 : table ifmt :=
  [ ("westVertexCount", fmt_I); ("westIndices", fmt_I);
    ("southVertexCount", fmt_I); ("southIndices", fmt_I);
    ("eastVertexCount", fmt_I); ("eastIndices", fmt_I);
    ("northVertexCount", fmt_I); ("northIndices", fmt_I) ].

Definition ExtensionHeader : table ifmt :=
  [ ("extensionId", fmt_B); ("extensionLength", fmt_I) ].

Definition OctEncodedVertexNormals : table ifmt := [ ("xy", fmt_B) ].

Definition WaterMask : table ifmt := [ ("xy", fmt_B) ].

Definition BYTESPLIT : Z := 65636.

(** For a tile of 256px * 256px. *)
Definition TILEPXS : Z := 65536.

(** Min and max quantized values; Python compares the integer coordinates
    with these floats by value. *)
Definition MIN : float := 0%float.
Definition MAX : float := 32767%float.

(** ** The state of a [TerrainTile] *)

Definition vec3 : Type := float * float * float.

(** [self.header]: a dictionary with the twelve keys of
    [quantizedMeshHeader], all present from the constructor on. *)
Record Header : Type := mkHeader {
  centerX : float; centerY : float; centerZ : float;
  minimumHeight : float; maximumHeight : float;
  boundingSphereCenterX : float; boundingSphereCenterY : float;
  boundingSphereCenterZ : float; boundingSphereRadius : float;
  horizonOcclusionPointX : float; horizonOcclusionPointY : float;
  horizonOcclusionPointZ : float
}.
(** [self.header[key]]. *)
Definition header_get (hd : Header) (key : string) : result float :=
  if String.eqb key "centerX" then Ok (centerX hd)
  else if String.eqb key "centerY" then Ok (centerY hd)
  else if String.eqb key "centerZ" then Ok (centerZ hd)
  else if String.eqb key "minimumHeight" then Ok (minimumHeight hd)
  else if String.eqb key "maximumHeight" then Ok (maximumHeight hd)
  else if String.eqb key "boundingSphereCenterX" then Ok (boundingSphereCenterX hd)
  else if String.eqb key "boundingSphereCenterY" then Ok (boundingSphereCenterY hd)
  else if String.eqb key "boundingSphereCenterZ" then Ok (boundingSphereCenterZ hd)
  else if String.eqb key "boundingSphereRadius" then Ok (boundingSphereRadius hd)
  else if String.eqb key "horizonOcclusionPointX" then Ok (horizonOcclusionPointX hd)
  else if String.eqb key "horizonOcclusionPointY" then Ok (horizonOcclusionPointY hd)
  else if String.eqb key "horizonOcclusionPointZ" then Ok (horizonOcclusionPointZ hd)
  else Raise (KeyError key).

(** [self.header[key] = x]; the tables only ever name the twelve keys. *)
Definition header_set (hd : Header) (key : string) (x : float) : Header :=
  if String.eqb key "centerX" then
    mkHeader x (centerY hd) (centerZ hd) (minimumHeight hd) (maximumHeight hd) (boundingSphereCenterX hd) (boundingSphereCenterY hd) (boundingSphereCenterZ hd) (boundingSphereRadius hd) (horizonOcclusionPointX hd) (horizonOcclusionPointY hd) (horizonOcclusionPointZ hd)
  else if String.eqb key "centerY" then
    mkHeader (centerX hd) x (centerZ hd) (minimumHeight hd) (maximumHeight hd) (boundingSphereCenterX hd) (boundingSphereCenterY hd) (boundingSphereCenterZ hd) (boundingSphereRadius hd) (horizonOcclusionPointX hd) (horizonOcclusionPointY hd) (horizonOcclusionPointZ hd)
  else if String.eqb key "centerZ" then
    mkHeader (centerX hd) (centerY hd) x (minimumHeight hd) (maximumHeight hd) (boundingSphereCenterX hd) (boundingSphereCenterY hd) (boundingSphereCenterZ hd) (boundingSphereRadius hd) (horizonOcclusionPointX hd) (horizonOcclusionPointY hd) (horizonOcclusionPointZ hd)
  else if String.eqb key "minimumHeight" then
    mkHeader (centerX hd) (centerY hd) (centerZ hd) x (maximumHeight hd) (boundingSphereCenterX hd) (boundingSphereCenterY hd) (boundingSphereCenterZ hd) (boundingSphereRadius hd) (horizonOcclusionPointX hd) (horizonOcclusionPointY hd) (horizonOcclusionPointZ hd)
  else if String.eqb key "maximumHeight" then
    mkHeader (centerX hd) (centerY hd) (centerZ hd) (minimumHeight hd) x (boundingSphereCenterX hd) (boundingSphereCenterY hd) (boundingSphereCenterZ hd) (boundingSphereRadius hd) (horizonOcclusionPointX hd) (horizonOcclusionPointY hd) (horizonOcclusionPointZ hd)
  else if String.eqb key "boundingSphereCenterX" then
    mkHeader (centerX hd) (centerY hd) (centerZ hd) (minimumHeight hd) (maximumHeight hd) x (boundingSphereCenterY hd) (boundingSphereCenterZ hd) (boundingSphereRadius hd) (horizonOcclusionPointX hd) (horizonOcclusionPointY hd) (horizonOcclusionPointZ hd)
  else if String.eqb key "boundingSphereCenterY" then
    mkHeader (centerX hd) (centerY hd) (centerZ hd) (minimumHeight hd) (maximumHeight hd) (boundingSphereCenterX hd) x (boundingSphereCenterZ hd) (boundingSphereRadius hd) (horizonOcclusionPointX hd) (horizonOcclusionPointY hd) (horizonOcclusionPointZ hd)
  else if String.eqb key "boundingSphereCenterZ" then
    mkHeader (centerX hd) (centerY hd) (centerZ hd) (minimumHeight hd) (maximumHeight hd) (boundingSphereCenterX hd) (boundingSphereCenterY hd) x (boundingSphereRadius hd) (horizonOcclusionPointX hd) (horizonOcclusionPointY hd) (horizonOcclusionPointZ hd)
  else if String.eqb key "boundingSphereRadius" then
    mkHeader (centerX hd) (centerY hd) (centerZ hd) (minimumHeight hd) (maximumHeight hd) (boundingSphereCenterX hd) (boundingSphereCenterY hd) (boundingSphereCenterZ hd) x (horizonOcclusionPointX hd) (horizonOcclusionPointY hd) (horizonOcclusionPointZ hd)
  else if String.eqb key "horizonOcclusionPointX" then
    mkHeader (centerX hd) (centerY hd) (centerZ hd) (minimumHeight hd) (maximumHeight hd) (boundingSphereCenterX hd) (boundingSphereCenterY hd) (boundingSphereCenterZ hd) (boundingSphereRadius hd) x (horizonOcclusionPointY hd) (horizonOcclusionPointZ hd)
  else if String.eqb key "horizonOcclusionPointY" then
    mkHeader (centerX hd) (centerY hd) (centerZ hd) (minimumHeight hd) (maximumHeight hd) (boundingSphereCenterX hd) (boundingSphereCenterY hd) (boundingSphereCenterZ hd) (boundingSphereRadius hd) (horizonOcclusionPointX hd) x (horizonOcclusionPointZ hd)
  else if String.eqb key "horizonOcclusionPointZ" then
    mkHeader (centerX hd) (centerY hd) (centerZ hd) (minimumHeight hd) (maximumHeight hd) (boundingSphereCenterX hd) (boundingSphereCenterY hd) (boundingSphereCenterZ hd) (boundingSphereRadius hd) (horizonOcclusionPointX hd) (horizonOcclusionPointY hd) x
  else hd.

(** The attributes of a tile.  [hasLighting] is not assigned by the
    constructor: [None] stands for the missing attribute. *)
Record TerrainTile : Type := mkTerrainTile {
  _west : float;
  _east : float;
  _south : float;
  _north : float;
  _longs : list float;
  _lats : list float;
  _heights : list float;
  _workingUnitLongitude : option float;
  _workingUnitLatitude : option float;
  _deltaHeight : option float;
  vLight : list vec3;
  watermask : list (list (option Z));
  hasWatermask : bool;
  hasLighting : option bool;
  header : Header;
  u : list Z;
  v : list Z;
  h : list Z;
  indices : list Z;
  westI : list Z;
  southI : list Z;
  eastI : list Z;
  northI : list Z
}.

(** Attribute assignment, [self.x = value]. *)
Definition set_west (x : float) (t : TerrainTile) : TerrainTile :=
  mkTerrainTile x (_east t) (_south t) (_north t) (_longs t) (_lats t) (_heights t) (_workingUnitLongitude t) (_workingUnitLatitude t) (_deltaHeight t) (vLight t) (watermask t) (hasWatermask t) (hasLighting t) (header t) (u t) (v t) (h t) (indices t) (westI t) (southI t) (eastI t) (northI t).
Definition set_east (x : float) (t : TerrainTile) : TerrainTile :=
  mkTerrainTile (_west t) x (_south t) (_north t) (_longs t) (_lats t) (_heights t) (_workingUnitLongitude t) (_workingUnitLatitude t) (_deltaHeight t) (vLight t) (watermask t) (hasWatermask t) (hasLighting t) (header t) (u t) (v t) (h t) (indices t) (westI t) (southI t) (eastI t) (northI t).
Definition set_south (x : float) (t : TerrainTile) : TerrainTile :=
  mkTerrainTile (_west t) (_east t) x (_north t) (_longs t) (_lats t) (_heights t) (_workingUnitLongitude t) (_workingUnitLatitude t) (_deltaHeight t) (vLight t) (watermask t) (hasWatermask t) (hasLighting t) (header t) (u t) (v t) (h t) (indices t) (westI t) (southI t) (eastI t) (northI t).
Definition set_north (x : float) (t : TerrainTile) : TerrainTile :=
  mkTerrainTile (_west t) (_east t) (_south t) x (_longs t) (_lats t) (_heights t) (_workingUnitLongitude t) (_workingUnitLatitude t) (_deltaHeight t) (vLight t) (watermask t) (hasWatermask t) (hasLighting t) (header t) (u t) (v t) (h t) (indices t) (westI t) (southI t) (eastI t) (northI t).
Definition set_longs (x : list float) (t : TerrainTile) : TerrainTile :=
  mkTerrainTile (_west t) (_east t) (_south t) (_north t) x (_lats t) (_heights t) (_workingUnitLongitude t) (_workingUnitLatitude t) (_deltaHeight t) (vLight t) (watermask t) (hasWatermask t) (hasLighting t) (header t) (u t) (v t) (h t) (indices t) (westI t) (southI t) (eastI t) (northI t).
Definition set_lats (x : list float) (t : TerrainTile) : TerrainTile :=
  mkTerrainTile (_west t) (_east t) (_south t) (_north t) (_longs t) x (_heights t) (_workingUnitLongitude t) (_workingUnitLatitude t) (_deltaHeight t) (vLight t) (watermask t) (hasWatermask t) (hasLighting t) (header t) (u t) (v t) (h t) (indices t) (westI t) (southI t) (eastI t) (northI t).
Definition set_heights (x : list float) (t : TerrainTile) : TerrainTile :=
  mkTerrainTile (_west t) (_east t) (_south t) (_north t) (_longs t) (_lats t) x (_workingUnitLongitude t) (_workingUnitLatitude t) (_deltaHeight t) (vLight t) (watermask t) (hasWatermask t) (hasLighting t) (header t) (u t) (v t) (h t) (indices t) (westI t) (southI t) (eastI t) (northI t).
Definition set_workingUnitLongitude (x : option float) (t : TerrainTile) : TerrainTile :=
  mkTerrainTile (_west t) (_east t) (_south t) (_north t) (_longs t) (_lats t) (_heights t) x (_workingUnitLatitude t) (_deltaHeight t) (vLight t) (watermask t) (hasWatermask t) (hasLighting t) (header t) (u t) (v t) (h t) (indices t) (westI t) (southI t) (eastI t) (northI t).
Definition set_workingUnitLatitude (x : option float) (t : TerrainTile) : TerrainTile :=
  mkTerrainTile (_west t) (_east t) (_south t) (_north t) (_longs t) (_lats t) (_heights t) (_workingUnitLongitude t) x (_deltaHeight t) (vLight t) (watermask t) (hasWatermask t) (hasLighting t) (header t) (u t) (v t) (h t) (indices t) (westI t) (southI t) (eastI t) (northI t).
Definition set_deltaHeight (x : option float) (t : TerrainTile) : TerrainTile :=
  mkTerrainTile (_west t) (_east t) (_south t) (_north t) (_longs t) (_lats t) (_heights t) (_workingUnitLongitude t) (_workingUnitLatitude t) x (vLight t) (watermask t) (hasWatermask t) (hasLighting t) (header t) (u t) (v t) (h t) (indices t) (westI t) (southI t) (eastI t) (northI t).
Definition set_vLight (x : list vec3) (t : TerrainTile) : TerrainTile :=
  mkTerrainTile (_west t) (_east t) (_south t) (_north t) (_longs t) (_lats t) (_heights t) (_workingUnitLongitude t) (_workingUnitLatitude t) (_deltaHeight t) x (watermask t) (hasWatermask t) (hasLighting t) (header t) (u t) (v t) (h t) (indices t) (westI t) (southI t) (eastI t) (northI t).
Definition set_watermask (x : list (list (option Z))) (t : TerrainTile) : TerrainTile :=
  mkTerrainTile (_west t) (_east t) (_south t) (_north t) (_longs t) (_lats t) (_heights t) (_workingUnitLongitude t) (_workingUnitLatitude t) (_deltaHeight t) (vLight t) x (hasWatermask t) (hasLighting t) (header t) (u t) (v t) (h t) (indices t) (westI t) (southI t) (eastI t) (northI t).
Definition set_hasWatermask (x : bool) (t : TerrainTile) : TerrainTile :=
  mkTerrainTile (_west t) (_east t) (_south t) (_north t) (_longs t) (_lats t) (_heights t) (_workingUnitLongitude t) (_workingUnitLatitude t) (_deltaHeight t) (vLight t) (watermask t) x (hasLighting t) (header t) (u t) (v t) (h t) (indices t) (westI t) (southI t) (eastI t) (northI t).
Definition set_hasLighting (x : option bool) (t : TerrainTile) : TerrainTile :=
  mkTerrainTile (_west t) (_east t) (_south t) (_north t) (_longs t) (_lats t) (_heights t) (_workingUnitLongitude t) (_workingUnitLatitude t) (_deltaHeight t) (vLight t) (watermask t) (hasWatermask t) x (header t) (u t) (v t) (h t) (indices t) (westI t) (southI t) (eastI t) (northI t).
Definition set_header (x : Header) (t : TerrainTile) : TerrainTile :=
  mkTerrainTile (_west t) (_east t) (_south t) (_north t) (_longs t) (_lats t) (_heights t) (_workingUnitLongitude t) (_workingUnitLatitude t) (_deltaHeight t) (vLight t) (watermask t) (hasWatermask t) (hasLighting t) x (u t) (v t) (h t) (indices t) (westI t) (southI t) (eastI t) (northI t).
Definition set_u (x : list Z) (t : TerrainTile) : TerrainTile :=
  mkTerrainTile (_west t) (_east t) (_south t) (_north t) (_longs t) (_lats t) (_heights t) (_workingUnitLongitude t) (_workingUnitLatitude t) (_deltaHeight t) (vLight t) (watermask t) (hasWatermask t) (hasLighting t) (header t) x (v t) (h t) (indices t) (westI t) (southI t) (eastI t) (northI t).
Definition set_v (x : list Z) (t : TerrainTile) : TerrainTile :=
  mkTerrainTile (_west t) (_east t) (_south t) (_north t) (_longs t) (_lats t) (_heights t) (_workingUnitLongitude t) (_workingUnitLatitude t) (_deltaHeight t) (vLight t) (watermask t) (hasWatermask t) (hasLighting t) (header t) (u t) x (h t) (indices t) (westI t) (southI t) (eastI t) (northI t).
Definition set_h (x : list Z) (t : TerrainTile) : TerrainTile :=
  mkTerrainTile (_west t) (_east t) (_south t) (_north t) (_longs t) (_lats t) (_heights t) (_workingUnitLongitude t) (_workingUnitLatitude t) (_deltaHeight t) (vLight t) (watermask t) (hasWatermask t) (hasLighting t) (header t) (u t) (v t) x (indices t) (westI t) (southI t) (eastI t) (northI t).
Definition set_indices (x : list Z) (t : TerrainTile) : TerrainTile :=
  mkTerrainTile (_west t) (_east t) (_south t) (_north t) (_longs t) (_lats t) (_heights t) (_workingUnitLongitude t) (_workingUnitLatitude t) (_deltaHeight t) (vLight t) (watermask t) (hasWatermask t) (hasLighting t) (header t) (u t) (v t) (h t) x (westI t) (southI t) (eastI t) (northI t).
Definition set_westI (x : list Z) (t : TerrainTile) : TerrainTile :=
  mkTerrainTile (_west t) (_east t) (_south t) (_north t) (_longs t) (_lats t) (_heights t) (_workingUnitLongitude t) (_workingUnitLatitude t) (_deltaHeight t) (vLight t) (watermask t) (hasWatermask t) (hasLighting t) (header t) (u t) (v t) (h t) (indices t) x (southI t) (eastI t) (northI t).
Definition set_southI (x : list Z) (t : TerrainTile) : TerrainTile :=
  mkTerrainTile (_west t) (_east t) (_south t) (_north t) (_longs t) (_lats t) (_heights t) (_workingUnitLongitude t) (_workingUnitLatitude t) (_deltaHeight t) (vLight t) (watermask t) (hasWatermask t) (hasLighting t) (header t) (u t) (v t) (h t) (indices t) (westI t) x (eastI t) (northI t).
Definition set_eastI (x : list Z) (t : TerrainTile) : TerrainTile :=
  mkTerrainTile (_west t) (_east t) (_south t) (_north t) (_longs t) (_lats t) (_heights t) (_workingUnitLongitude t) (_workingUnitLatitude t) (_deltaHeight t) (vLight t) (watermask t) (hasWatermask t) (hasLighting t) (header t) (u t) (v t) (h t) (indices t) (westI t) (southI t) x (northI t).
Definition set_northI (x : list Z) (t : TerrainTile) : TerrainTile :=
  mkTerrainTile (_west t) (_east t) (_south t) (_north t) (_longs t) (_lats t) (_heights t) (_workingUnitLongitude t) (_workingUnitLatitude t) (_deltaHeight t) (vLight t) (watermask t) (hasWatermask t) (hasLighting t) (header t) (u t) (v t) (h t) (indices t) (westI t) (southI t) (eastI t) x.

(** ** Python arithmetic on floats *)

(** [x / y] on floats: Python raises on a zero divisor. *)
Definition truediv (x y : float) : result float :=
  if (y =? 0)%float then Raise ZeroDivisionError else Ok (x / y)%float.

(** [float(z)], as used when an [int] meets a [float] in an arithmetic
    operation: correctly rounded, [OverflowError] beyond the doubles. *)
Definition int_to_float (z : Z) : result float :=
  let x := binary_normalize 53 1024 z 0 false in
  if is_SF_infinity x then Raise OverflowError else Ok (SF2Prim x).

(** [round(x)] in Python 3: the nearest integer, ties to even. *)
Definition round_half_even (m d : Z) : Z :=
  let q := m / d in
  match 2 * (m mod d) ?= d with
  | Lt => q
  | Gt => q + 1
  | Eq => if Z.even q then q else q + 1
  end.

Definition py_round (x : float) : result Z :=
  match Prim2SF x with
  | S754_nan => Raise ValueError
  | S754_infinity _ => Raise OverflowError
  | S754_zero _ => Ok 0
  | S754_finite s m e =>
      let a := if 0 <=? e then Z.pos m * 2 ^ e
               else round_half_even (Z.pos m) (2 ^ (- e)) in
      Ok (if s then - a else a)
  end.

(** Truth value of an optional float attribute: [None], [0.0] and [-0.0]
    are false. *)
Definition truthy (o : option float) : bool :=
  match o with
  | None => false
  | Some x => negb (x =? 0)%float
  end.

Definition lerp (p q time : float) : float :=
  ((1 - time) * p + time * q)%float.

(** ** Collaborators outside [terrain.py] *)

(** The functions that [terrain.py] imports and that the properties below
    do not depend on: octahedral normals of [utils], the bounding sphere of
    [bbsphere], the occlusion point of [horizon_occlusion_point] and the
    gzip envelope. *)
Class Collaborators : Type := {
  octEncode : vec3 -> result (Z * Z);
  octDecode : Z -> Z -> result vec3;
  BoundingSphere_fromPoints : list vec3 -> result (vec3 * float);
  occ_fromPoints : list vec3 -> vec3 * float -> result vec3;
  gzip_compress : list byte -> list byte
}.

(** The attributes of a [TerrainTopology] that [fromTerrainTopology] reads. *)
Record TerrainTopology : Type := mkTerrainTopology {
  minLon : float; maxLon : float; minLat : float; maxLat : float;
  ecefMinX : float; ecefMinY : float; ecefMinZ : float;
  ecefMaxX : float; ecefMaxY : float; ecefMaxZ : float;
  minHeight : float; maxHeight : float;
  uVertex : list float; vVertex : list float; hVertex : list float;
  indexData : list Z;
  cartesianVertices : list vec3;
  topo_hasLighting : bool;
  verticesUnitVectors : list vec3
}.

(** What a caller may pass as [topology]. *)
Inductive pyobject : Type :=
| TopologyObject (topology : TerrainTopology)
| OtherObject.

(** ** The writer monad of [_writeTo] *)

(** A computation of [_writeTo] runs on [self], may assign attributes of
    [self], appends bytes to the file and may raise.  The bytes are those
    written up to the point of return or raise. *)
Definition W (A : Type) : Type :=
  TerrainTile -> result A * TerrainTile * list byte.

Definition W_ret {A} (a : A) : W A := fun t => (Ok a, t, []).

Definition W_bind {A B} (m : W A) (k : A -> W B) : W B :=
  fun t =>
    match m t with
    | (Ok a, t1, o1) =>
        let '(r, t2, o2) := k a t1 in (r, t2, o1 ++ o2)
    | (Raise e, t1, o1) => (Raise e, t1, o1)
    end.

Definition W_lift {A} (r : result A) : W A := fun t => (r, t, []).

Definition W_self : W TerrainTile := fun t => (Ok t, t, []).

Definition W_assign (f : TerrainTile -> TerrainTile) : W unit :=
  fun t => (Ok tt, f t, []).

(** [f.write(bs)]. *)
Definition W_write (bs : list byte) : W unit := fun t => (Ok tt, t, bs).

Declare Scope W_scope.
Delimit Scope W_scope with W.
Notation "'let*' x ':=' m 'in' k" := (W_bind m (fun x => k))
  (at level 10, x name, m at level 100, k at level 200) : W_scope.
Notation "m ;; k" := (W_bind m (fun _ => k))
  (at level 100, k at level 200, right associativity) : W_scope.

(** [f.write(packEntry(meta[key], value))]: the key is looked up, the value
    packed, the bytes written. *)
Definition write_entry (meta : table ifmt) (key : string) (z : Z) : W unit :=
  (let* t := W_lift (table_get meta key) in
   let* bs := W_lift (packEntry t z) in
   W_write bs)%W.

(** [for x in xs: f.write(packEntry(meta[key], x))]. *)
Fixpoint write_entries (meta : table ifmt) (key : string) (xs : list Z)
  : W unit :=
  match xs with
  | [] => W_ret tt
  | x :: xs' => (write_entry meta key x ;; write_entries meta key xs')%W
  end.

(** Modelled from the spec: [utils.packIndices(f, type, indices)] writes
    every index of the block with the word format of the block (§4.7). *)
Fixpoint packIndices (t : ifmt) (ind : list Z) : W unit :=
  match ind with
  | [] => W_ret tt
  | i :: ind' =>
      (let* bs := W_lift (packEntry t i) in
       W_write bs ;; packIndices t ind')%W
  end.

(** ** [TerrainTile._writeTo] *)

Section Writer.
Context `{Collaborators}.

Local Open Scope W_scope.

(** [for k, v in quantizedMeshHeader.items():
       f.write(packEntry(v, self.header[k]))]. *)
Fixpoint write_header (meta : table ffmt) : W unit :=
  match meta with
  | [] => W_ret tt
  | (k, v) :: meta' =>
      let* self := W_self in
      let* x := W_lift (header_get (header self) k) in
      let* bs := W_lift (packEntry_float v x) in
      W_write bs ;; write_header meta'
  end.

(** [f.write(packEntry(vertexData[key], zigZagEncode(l[0])))]. *)
Definition write_first (key : string) (l : list Z) : W unit :=
  let* t := W_lift (table_get vertexData key) in
  let* x0 := W_lift (getitem l 0) in
  let* bs := W_lift (packEntry t (zigZagEncode x0)) in
  W_write bs.

(** The loop [for i in range(0, vertexCount - 1)] over the deltas
    [l[i + 1] - l[i]]; [n] counts the iterations left and [s] is [l[i:]],
    so that a list shorter than [vertexCount] raises [IndexError] at the
    iteration where Python does. *)
Fixpoint write_deltas (key : string) (n : nat) (s : list Z) : W unit :=
  match n with
  | O => W_ret tt
  | S n' =>
      match s with
      | x0 :: ((x1 :: _) as s') =>
          write_entry vertexData key (zigZagEncode (x1 - x0)) ;;
          write_deltas key n' s'
      | _ => W_lift (Raise IndexError)
      end
  end.

(** The loop [for i in range(0, vertexCount)] over [self.vLight[i]]. *)
Fixpoint write_normals (n : nat) (s : list vec3) : W unit :=
  match n with
  | O => W_ret tt
  | S n' =>
      match s with
      | [] => W_lift (Raise IndexError)
      | normal :: s' =>
          let* xy := W_lift (octEncode normal) in
          write_entry OctEncodedVertexNormals "xy" (fst xy) ;;
          write_entry OctEncodedVertexNormals "xy" (snd xy) ;;
          write_normals n' s'
      end
  end.

(** [int(y)] on a watermask cell; [None] is not a number. *)
Definition int_of_cell (y : option Z) : result Z :=
  match y with Some z => Ok z | None => Raise TypeError end.

(** [for y in x: f.write(packEntry(WaterMask['xy'], int(y)))]. *)
Fixpoint write_cells (x : list (option Z)) : W unit :=
  match x with
  | [] => W_ret tt
  | y :: x' =>
      let* t := W_lift (table_get WaterMask "xy") in
      let* z := W_lift (int_of_cell y) in
      let* bs := W_lift (packEntry t z) in
      W_write bs ;; write_cells x'
  end.

(** [for i in range(0, nbRows): x = self.watermask[i] ...], from north to
    south. *)
Fixpoint write_rows (rows : list (list (option Z))) : W unit :=
  match rows with
  | [] => W_ret tt
  | x :: rows' =>
      if negb (length x =? 256)%nat
      then W_lift (Raise (Exception
               "Unexpected number of columns for the watermask"))
      else write_cells x ;; write_rows rows'
  end.

(** The lighting extension. *)
Definition write_lighting (vertexCount : Z) : W unit :=
  let* self := W_self in
  if 0 <? Z.of_nat (length (vLight self)) then
    W_assign (set_hasLighting (Some true)) ;;
    write_entry ExtensionHeader "extensionId" 1 ;;
    write_entry ExtensionHeader "extensionLength" (2 * vertexCount) ;;
    write_normals (Z.to_nat vertexCount) (vLight self)
  else W_ret tt.

(** The watermask extension. *)
Definition write_watermask : W unit :=
  let* self := W_self in
  match watermask self with
  | [] => W_ret tt
  | row0 :: others =>
      W_assign (set_hasWatermask true) ;;
      write_entry ExtensionHeader "extensionId" 2 ;;
      let nbRows := Z.of_nat (length (watermask self)) in
      if 1 <? nbRows then
        write_entry ExtensionHeader "extensionLength" TILEPXS ;;
        if negb (nbRows =? 256)
        then W_lift (Raise (Exception
                 "Unexpected number of rows for the watermask"))
        else write_rows (watermask self)
      else
        write_entry ExtensionHeader "extensionLength" 1 ;;
        let* c := W_lift (getitem row0 0) in
        (match c with
         | None =>
             W_assign (set_watermask ((Some 0 :: tail row0) :: others))
         | Some _ => W_ret tt
         end) ;;
        let* self := W_self in
        let* row := W_lift (getitem (watermask self) 0) in
        let* c := W_lift (getitem row 0) in
        let* t := W_lift (table_get WaterMask "xy") in
        let* z := W_lift (int_of_cell c) in
        let* bs := W_lift (packEntry t z) in
        W_write bs
  end.

Definition index_meta_w (vertexCount : Z) : table ifmt :=
  if BYTESPLIT <? vertexCount then indexData32 else indexData16.

Definition edge_meta_w (vertexCount : Z) : table ifmt :=
  if BYTESPLIT <? vertexCount then EdgeIndices32 else EdgeIndices16.

Definition write_vertices (vertexCount : Z) : W unit :=
  let* self := W_self in
  write_entry vertexData "vertexCount" vertexCount ;;
  write_first "uVertexCount" (u self) ;;
  write_deltas "uVertexCount" (Z.to_nat (vertexCount - 1)) (u self) ;;
  write_first "uVertexCount" (v self) ;;
  write_deltas "vVertexCount" (Z.to_nat (vertexCount - 1)) (v self) ;;
  write_first "uVertexCount" (h self) ;;
  write_deltas "heightVertexCount" (Z.to_nat (vertexCount - 1)) (h self).

Definition write_indices (vertexCount : Z) : W unit :=
  let* self := W_self in
  let meta := index_meta_w vertexCount in
  write_entry meta "triangleCount" (Z.of_nat (length (indices self)) / 3) ;;
  let ind := encodeIndices (indices self) in
  let* t := W_lift (table_get meta "indices") in
  packIndices t ind.

Definition write_edges (vertexCount : Z) : W unit :=
  let* self := W_self in
  let meta := edge_meta_w vertexCount in
  write_entry meta "westVertexCount" (Z.of_nat (length (westI self))) ;;
  write_entries meta "westIndices" (westI self) ;;
  write_entry meta "southVertexCount" (Z.of_nat (length (southI self))) ;;
  write_entries meta "southIndices" (southI self) ;;
  write_entry meta "eastVertexCount" (Z.of_nat (length (eastI self))) ;;
  write_entries meta "eastIndices" (eastI self) ;;
  write_entry meta "northVertexCount" (Z.of_nat (length (northI self))) ;;
  write_entries meta "northIndices" (northI self).

Definition _writeTo : W unit :=
  write_header quantizedMeshHeader ;;
  let* self := W_self in
  let vertexCount := Z.of_nat (length (u self)) in
  write_vertices vertexCount ;;
  write_indices vertexCount ;;
  write_edges vertexCount ;;
  write_lighting vertexCount ;;
  write_watermask.
End Writer.

(** ** The reader monad of [fromBytesIO] *)

(** A computation of [fromBytesIO] runs on [self] and on the unread part of
    the stream [f]; it may assign attributes, consume bytes and raise. *)
Definition R (A : Type) : Type :=
  TerrainTile * list byte -> result A * (TerrainTile * list byte).

Definition R_ret {A} (a : A) : R A := fun st => (Ok a, st).

Definition R_bind {A B} (m : R A) (k : A -> R B) : R B :=
  fun st =>
    match m st with
    | (Ok a, st1) => k a st1
    | (Raise e, st1) => (Raise e, st1)
    end.

Definition R_lift {A} (r : result A) : R A := fun st => (r, st).

Definition R_self : R TerrainTile := fun st => (Ok (fst st), st).

Definition R_assign (f : TerrainTile -> TerrainTile) : R unit :=
  fun st => (Ok tt, (f (fst st), snd st)).

(** [unpackEntry(f, structType)]. *)
Definition R_unpack (structType : ifmt) : R Z :=
  fun st => let '(r, rest) := unpackEntry structType (snd st) in
            (r, (fst st, rest)).

Definition R_unpack_float (structType : ffmt) : R float :=
  fun st => let '(r, rest) := unpackEntry_float structType (snd st) in
            (r, (fst st, rest)).

Declare Scope R_scope.
Delimit Scope R_scope with R.
Notation "'let*' x ':=' m 'in' k" := (R_bind m (fun x => k))
  (at level 10, x name, m at level 100, k at level 200) : R_scope.
Notation "m ;; k" := (R_bind m (fun _ => k))
  (at level 100, k at level 200, right associativity) : R_scope.

(** [unpackEntry(f, meta[key])]: the key is looked up before any byte is
    read. *)
Definition read_entry (meta : table ifmt) (key : string) : R Z :=
  (let* t := R_lift (table_get meta key) in R_unpack t)%R.

(** ** [TerrainTile.fromBytesIO] *)

Section Reader.
Context `{Collaborators}.

Local Open Scope R_scope.

(** [for k, v in quantizedMeshHeader.items():
       self.header[k] = unpackEntry(f, v)]. *)
Fixpoint read_header (meta : table ffmt) : R unit :=
  match meta with
  | [] => R_ret tt
  | (k, v) :: meta' =>
      let* x := R_unpack_float v in
      R_assign (fun t => set_header (header_set (header t) k x) t) ;;
      read_header meta'
  end.

(** The generator [_iterUnpackAndDecodeVertices]; [yield] is the body of
    the [for] loop that consumes it and [n] counts the iterations left. *)
Fixpoint _iterUnpackAndDecodeVertices (n : nat) (structType : ifmt)
    (delta : Z) (yield : Z -> R unit) : R unit :=
  match n with
  | O => R_ret tt
  | S n' =>
      let* x := R_unpack structType in
      let delta' := delta + zigZagDecode x in
      yield delta' ;;
      _iterUnpackAndDecodeVertices n' structType delta' yield
  end.

(** The generator [_iterUnpackIndices] under a [for] loop. *)
Fixpoint _iterUnpackIndices (n : nat) (structType : ifmt)
    (yield : Z -> R unit) : R unit :=
  match n with
  | O => R_ret tt
  | S n' =>
      let* x := R_unpack structType in
      yield x ;;
      _iterUnpackIndices n' structType yield
  end.

(** The same generator under a list comprehension:
    [[index for index in self._iterUnpackIndices(...)]]. *)
Fixpoint _iterUnpackIndices_list (n : nat) (structType : ifmt)
  : R (list Z) :=
  match n with
  | O => R_ret []
  | S n' =>
      let* x := R_unpack structType in
      let* xs := _iterUnpackIndices_list n' structType in
      R_ret (x :: xs)
  end.

Fixpoint light_loop (n : nat) (structType : ifmt)
    (yield : vec3 -> R unit) : R unit :=
  match n with
  | O => R_ret tt
  | S n' =>
      let* x := R_unpack structType in
      let* y := R_unpack structType in
      let* xy := R_lift (octDecode x y) in
      yield xy ;;
      light_loop n' structType yield
  end.

(** The generator [_iterUnpackAndDecodeLight].  [xyCount] is the float
    [extensionLength / 2]: for an odd length the test [i != xyCount] never
    fails, and the loop runs until a read raises; one more iteration than
    there are bytes left is enough for that. *)
Definition _iterUnpackAndDecodeLight (extensionLength : Z)
    (structType : ifmt) (yield : vec3 -> R unit) : R unit :=
  if Z.even extensionLength
  then light_loop (Z.to_nat (extensionLength / 2)) structType yield
  else fun st =>
         (light_loop (S (length (snd st))) structType yield ;;
          R_lift (Raise StructError)) st.

(** The generator [_iterUnpackWatermaskRow]: [n] cells are left to read,
    [i] is the column and [row] the row under construction. *)
Fixpoint _iterUnpackWatermaskRow (n : nat) (structType : ifmt)
    (i : Z) (row : list Z) (yield : list Z -> R unit) : R unit :=
  match n with
  | O => match row with [] => R_ret tt | _ => yield row end
  | S n' =>
      let* x := R_unpack structType in
      let row' := row ++ [x] in
      if i =? 255
      then yield row' ;;
           _iterUnpackWatermaskRow n' structType 0 [] yield
      else _iterUnpackWatermaskRow n' structType (i + 1) row' yield
  end.

Definition index_meta_r (vertexCount : Z) : table ifmt :=
  if BYTESPLIT <? vertexCount then indexData32 else indexData16.

(** The table used for the edge blocks, as the source selects it. *)
Definition edge_meta_r (vertexCount : Z) : table ifmt :=
  if BYTESPLIT <? vertexCount then indexData32 else EdgeIndices16.

Definition read_vertices : R Z :=
  let* vertexCount := read_entry vertexData "vertexCount" in
  let* t := R_lift (table_get vertexData "uVertexCount") in
  _iterUnpackAndDecodeVertices (Z.to_nat vertexCount) t 0
    (fun ud => R_assign (fun t => set_u (u t ++ [ud]) t)) ;;
  let* t := R_lift (table_get vertexData "vVertexCount") in
  _iterUnpackAndDecodeVertices (Z.to_nat vertexCount) t 0
    (fun vd => R_assign (fun t => set_v (v t ++ [vd]) t)) ;;
  let* t := R_lift (table_get vertexData "heightVertexCount") in
  _iterUnpackAndDecodeVertices (Z.to_nat vertexCount) t 0
    (fun hd => R_assign (fun t => set_h (h t ++ [hd]) t)) ;;
  R_ret vertexCount.

Definition read_indices (vertexCount : Z) : R unit :=
  let meta := index_meta_r vertexCount in
  let* triangleCount := read_entry meta "triangleCount" in
  let* t := R_lift (table_get meta "indices") in
  let* ind := _iterUnpackIndices_list (Z.to_nat (triangleCount * 3)) t in
  R_assign (set_indices (decodeIndices ind)).

(** [count = unpackEntry(f, meta[countKey])] followed by the loop that
    appends the [count] entries of format [meta[key]]. *)
Definition read_edge (meta : table ifmt) (countKey key : string)
    (append : Z -> TerrainTile -> TerrainTile) : R unit :=
  let* count := read_entry meta countKey in
  let* t := R_lift (table_get meta key) in
  _iterUnpackIndices (Z.to_nat count) t (fun i => R_assign (append i)).

Definition read_edges (vertexCount : Z) : R unit :=
  let meta := edge_meta_r vertexCount in
  read_edge meta "westVertexCount" "westIndices"
    (fun i t => set_westI (westI t ++ [i]) t) ;;
  read_edge meta "southVertexCount" "southIndices"
    (fun i t => set_southI (southI t ++ [i]) t) ;;
  read_edge meta "eastVertexCount" "eastIndices"
    (fun i t => set_eastI (eastI t ++ [i]) t) ;;
  read_edge meta "northVertexCount" "northIndices"
    (fun i t => set_northI (northI t ++ [i]) t).

Definition read_lighting : R unit :=
  let* self := R_self in
  if bool_decide (hasLighting self = Some true) then
    let* extensionId := read_entry ExtensionHeader "extensionId" in
    if extensionId =? 1 then
      let* extensionLength := read_entry ExtensionHeader "extensionLength" in
      let* t := R_lift (table_get OctEncodedVertexNormals "xy") in
      _iterUnpackAndDecodeLight extensionLength t
        (fun xy => R_assign (fun t => set_vLight (vLight t ++ [xy]) t))
    else R_ret tt
  else R_ret tt.

Definition read_watermask : R unit :=
  let* self := R_self in
  if hasWatermask self then
    let* extensionId := read_entry ExtensionHeader "extensionId" in
    if extensionId =? 2 then
      let* extensionLength := read_entry ExtensionHeader "extensionLength" in
      let* t := R_lift (table_get WaterMask "xy") in
      _iterUnpackWatermaskRow (Z.to_nat extensionLength) t 0 []
        (fun row => R_assign (fun t =>
           set_watermask (watermask t ++ [map Some row]) t))
    else R_ret tt
  else R_ret tt.

(** The flags, the header and the vertex, index and edge sections: all of
    [fromBytesIO] before the extensions. *)
Definition read_mesh (hasLighting hasWatermask : bool) : R unit :=
  R_assign (set_hasLighting (Some hasLighting)) ;;
  R_assign (set_hasWatermask hasWatermask) ;;
  read_header quantizedMeshHeader ;;
  let* vertexCount := read_vertices in
  read_indices vertexCount ;;
  read_edges vertexCount.

Definition fromBytesIO (hasLighting hasWatermask : bool) : R unit :=
  read_mesh hasLighting hasWatermask ;;
  read_lighting ;;
  read_watermask.
End Reader.

(** ** Methods that only touch [self] *)

(** A method that reads and assigns attributes of [self] and may raise. *)
Definition T (A : Type) : Type := TerrainTile -> result A * TerrainTile.

Definition T_ret {A} (a : A) : T A := fun t => (Ok a, t).

Definition T_bind {A B} (m : T A) (k : A -> T B) : T B :=
  fun t =>
    match m t with
    | (Ok a, t1) => k a t1
    | (Raise e, t1) => (Raise e, t1)
    end.

Definition T_lift {A} (r : result A) : T A := fun t => (r, t).

Definition T_self : T TerrainTile := fun t => (Ok t, t).

Definition T_assign (f : TerrainTile -> TerrainTile) : T unit :=
  fun t => (Ok tt, f t).

Declare Scope T_scope.
Delimit Scope T_scope with T.
Notation "'let*' x ':=' m 'in' k" := (T_bind m (fun x => k))
  (at level 10, x name, m at level 100, k at level 200) : T_scope.
Notation "m ;; k" := (T_bind m (fun _ => k))
  (at level 100, k at level 200, right associativity) : T_scope.

(** A list comprehension [[f(x) for x in xs]] whose body is a method call. *)
Fixpoint T_map {A B} (f : A -> T B) (xs : list A) : T (list B) :=
  match xs with
  | [] => T_ret []
  | x :: xs' =>
      (let* y := f x in let* ys := T_map f xs' in T_ret (y :: ys))%T
  end.

(** A loop [for x in xs: body(x)]. *)
Fixpoint T_for {A} (xs : list A) (body : A -> T unit) : T unit :=
  match xs with
  | [] => T_ret tt
  | x :: xs' => (body x ;; T_for xs' body)%T
  end.

Section Quantization.
Local Open Scope T_scope.

Definition _getWorkingUnitLatitude : T float :=
  let* self := T_self in
  (if negb (truthy (_workingUnitLatitude self)) then
     let* w := T_lift (truediv MAX (_north self - _south self)%float) in
     T_assign (set_workingUnitLatitude (Some w))
   else T_ret tt) ;;
  let* self := T_self in
  match _workingUnitLatitude self with
  | Some w => T_ret w
  | None => T_lift (Raise TypeError)
  end.

Definition _getWorkingUnitLongitude : T float :=
  let* self := T_self in
  (if negb (truthy (_workingUnitLongitude self)) then
     let* w := T_lift (truediv MAX (_east self - _west self)%float) in
     T_assign (set_workingUnitLongitude (Some w))
   else T_ret tt) ;;
  let* self := T_self in
  match _workingUnitLongitude self with
  | Some w => T_ret w
  | None => T_lift (Raise TypeError)
  end.

Definition _getDeltaHeight : T float :=
  let* self := T_self in
  (if negb (truthy (_deltaHeight self)) then
     let maxHeight := maximumHeight (header self) in
     let minHeight := minimumHeight (header self) in
     T_assign (set_deltaHeight (Some (maxHeight - minHeight)%float))
   else T_ret tt) ;;
  let* self := T_self in
  match _deltaHeight self with
  | Some d => T_ret d
  | None => T_lift (Raise TypeError)
  end.

Definition _quantizeLatitude (latitude : float) : T Z :=
  let* self := T_self in
  let d := (latitude - _south self)%float in
  let* w := _getWorkingUnitLatitude in
  T_lift (py_round (d * w)%float).

Definition _quantizeLongitude (longitude : float) : T Z :=
  let* self := T_self in
  let d := (longitude - _west self)%float in
  let* w := _getWorkingUnitLongitude in
  T_lift (py_round (d * w)%float).

Definition _quantizeHeight (height : float) : T Z :=
  let* deniv := _getDeltaHeight in
  (* In case a tile is completely flat *)
  if (deniv =? 0)%float then T_ret 0
  else
    let* workingUnitHeight := T_lift (truediv MAX deniv) in
    let* self := T_self in
    T_lift (py_round
              ((height - minimumHeight (header self)) * workingUnitHeight)%float).

(** [q / self.MAX] for a quantized integer [q]. *)
Definition over_MAX (q : Z) : result float :=
  match int_to_float q with
  | Ok x => truediv x MAX
  | Raise e => Raise e
  end.

Definition _dequantizeHeight (q : Z) : T float :=
  let* self := T_self in
  let* time := T_lift (over_MAX q) in
  T_ret (lerp (minimumHeight (header self)) (maximumHeight (header self)) time).

Definition _computeVerticesCoordinates : T unit :=
  let* self := T_self in
  match _longs self with
  | [] =>
      T_for (u self) (fun q =>
        let* self := T_self in
        let* time := T_lift (over_MAX q) in
        T_assign (set_longs
          (_longs self ++ [lerp (_west self) (_east self) time]))) ;;
      T_for (v self) (fun q =>
        let* self := T_self in
        let* time := T_lift (over_MAX q) in
        T_assign (set_lats
          (_lats self ++ [lerp (_south self) (_north self) time]))) ;;
      T_for (h self) (fun q =>
        let* self := T_self in
        let* time := T_lift (over_MAX q) in
        T_assign (set_heights
          (_heights self ++
           [lerp (minimumHeight (header self))
                 (maximumHeight (header self)) time])))
  | _ :: _ => T_ret tt
  end.

(** [for i, lon in enumerate(self._longs):
       coordinates.append((lon, self._lats[i], self._heights[i]))]. *)
Fixpoint enumerate_coordinates (self : TerrainTile) (i : Z)
    (longs : list float) : result (list vec3) :=
  match longs with
  | [] => Ok []
  | lon :: longs' =>
      match getitem (_lats self) i with
      | Raise e => Raise e
      | Ok lat =>
          match getitem (_heights self) i with
          | Raise e => Raise e
          | Ok height =>
              match enumerate_coordinates self (i + 1) longs' with
              | Raise e => Raise e
              | Ok coordinates => Ok ((lon, lat, height) :: coordinates)
              end
          end
      end
  end.

Definition getVerticesCoordinates : T (list vec3) :=
  _computeVerticesCoordinates ;;
  let* self := T_self in
  T_lift (enumerate_coordinates self 0 (_longs self)).
End Quantization.

(** ** [TerrainTile.fromTerrainTopology] and the constructor *)

Section Topology.
Context `{Collaborators}.

Local Open Scope T_scope.

(** The value that the loop over [quantizedMeshHeader.keys()] assigns to
    [self.header[k]]. *)
Definition topology_header_value (k : string) (centerCoords : vec3)
    (topology : TerrainTopology) (bSphere : vec3 * float)
    (occlusionPCoords : vec3) : option float :=
  let '(c0, c1, c2) := centerCoords in
  let '((b0, b1, b2), radius) := bSphere in
  let '(o0, o1, o2) := occlusionPCoords in
  if String.eqb k "centerX" then Some c0
  else if String.eqb k "centerY" then Some c1
  else if String.eqb k "centerZ" then Some c2
  else if String.eqb k "minimumHeight" then Some (minHeight topology)
  else if String.eqb k "maximumHeight" then Some (maxHeight topology)
  else if String.eqb k "boundingSphereCenterX" then Some b0
  else if String.eqb k "boundingSphereCenterY" then Some b1
  else if String.eqb k "boundingSphereCenterZ" then Some b2
  else if String.eqb k "boundingSphereRadius" then Some radius
  else if String.eqb k "horizonOcclusionPointX" then Some o0
  else if String.eqb k "horizonOcclusionPointY" then Some o1
  else if String.eqb k "horizonOcclusionPointZ" then Some o2
  else None.

(** The test [set([west, south, east, north]).difference(set([-1.0, 1.0]))]:
    some bound differs from both defaults. *)
Definition bounds_defined (self : TerrainTile) : bool :=
  existsb (fun x => negb ((x =? -1)%float || (x =? 1)%float))
          [_west self; _south self; _east self; _north self].

(** The body of [for indice in self.indices], which lists the vertices on
    the edges of the tile from their quantized coordinates. *)
Definition detect_edges (indice : Z) : T unit :=
  let* self := T_self in
  let* x := T_lift (getitem (u self) indice) in
  let* y := T_lift (getitem (v self) indice) in
  (if (x =? 0) && negb (contains (westI self) indice)
   then T_assign (fun t => set_westI (westI t ++ [indice]) t)
   else if (x =? 32767) && negb (contains (eastI self) indice)
   then T_assign (fun t => set_eastI (eastI t ++ [indice]) t)
   else T_ret tt) ;;
  let* self := T_self in
  if (y =? 0) && negb (contains (southI self) indice)
  then T_assign (fun t => set_southI (southI t ++ [indice]) t)
  else if (y =? 32767) && negb (contains (northI self) indice)
  then T_assign (fun t => set_northI (northI t ++ [indice]) t)
  else T_ret tt.

(** The part of [fromTerrainTopology] that comes before the edge detection:
    bounds, header, quantized vertices and triangle indices. *)
Definition load_topology (topology : TerrainTopology)
    (bounds : option (float * float * float * float)) : T unit :=
  let* self := T_self in
  (match bounds with
   | Some (b0, b1, b2, b3) =>
       T_assign (set_west b0) ;; T_assign (set_east b2) ;;
       T_assign (set_south b1) ;; T_assign (set_north b3)
   | None =>
       if bounds_defined self then T_ret tt
       else
         T_assign (set_west (minLon topology)) ;;
         T_assign (set_east (maxLon topology)) ;;
         T_assign (set_south (minLat topology)) ;;
         T_assign (set_north (maxLat topology))
   end) ;;
  let* bSphere :=
    T_lift (BoundingSphere_fromPoints (cartesianVertices topology)) in
  let centerCoords :=
    ((ecefMinX topology + (ecefMaxX topology - ecefMinX topology) * 0.5)%float,
     (ecefMinY topology + (ecefMaxY topology - ecefMinY topology) * 0.5)%float,
     (ecefMinZ topology + (ecefMaxZ topology - ecefMinZ topology) * 0.5)%float) in
  let* occlusionPCoords :=
    T_lift (occ_fromPoints (cartesianVertices topology) bSphere) in
  T_for (map fst quantizedMeshHeader) (fun k =>
    match topology_header_value k centerCoords topology bSphere
            occlusionPCoords with
    | Some x => T_assign (fun t => set_header (header_set (header t) k x) t)
    | None => T_ret tt
    end) ;;
  let* us := T_map _quantizeLongitude (uVertex topology) in
  T_assign (set_u us) ;;
  let* vs := T_map _quantizeLatitude (vVertex topology) in
  T_assign (set_v vs) ;;
  let* hs := T_map _quantizeHeight (hVertex topology) in
  T_assign (set_h hs) ;;
  T_assign (set_indices (indexData topology)).

Definition fromTerrainTopology (topology : pyobject)
    (bounds : option (float * float * float * float)) : T unit :=
  match topology with
  | OtherObject =>
      T_lift (Raise (Exception
        "topology object must be an instance of TerrainTopology"))
  | TopologyObject topology =>
      load_topology topology bounds ;;
      let* self := T_self in
      T_for (indices self) detect_edges ;;
      T_assign (set_hasLighting (Some (topo_hasLighting topology))) ;;
      if topo_hasLighting topology
      then T_assign (set_vLight (verticesUnitVectors topology))
      else T_ret tt
  end.

(** The keyword arguments of the constructor; [None] is an absent
    keyword. *)
Record Kwargs : Type := mkKwargs {
  kw_west : option float; kw_east : option float;
  kw_south : option float; kw_north : option float;
  kw_watermask : option (list (list (option Z)));
  kw_hasWatermask : option bool;
  kw_topology : option pyobject
}.

Definition no_kwargs : Kwargs :=
  mkKwargs None None None None None None None.

Definition zero_header : Header :=
  mkHeader 0 0 0 0 0 0 0 0 0 0 0 0.

(** The state that [__init__] builds before it looks at [topology]. *)
Definition init_attributes (kw : Kwargs) : TerrainTile :=
  let wm := default [] (kw_watermask kw) in
  {| _west := default (-1)%float (kw_west kw);
     _east := default 1%float (kw_east kw);
     _south := default (-1)%float (kw_south kw);
     _north := default 1%float (kw_north kw);
     _longs := []; _lats := []; _heights := [];
     _workingUnitLongitude := None; _workingUnitLatitude := None;
     _deltaHeight := None;
     vLight := [];
     watermask := wm;
     hasWatermask :=
       default (match wm with [] => false | _ => true end)
               (kw_hasWatermask kw);
     hasLighting := None;
     header := zero_header;
     u := []; v := []; h := []; indices := [];
     westI := []; southI := []; eastI := []; northI := [] |}.

(** The call [TerrainTile(...)]: the new tile, or the exception raised while
    the topology is loaded. *)
Definition TerrainTile_init (kw : Kwargs) : result TerrainTile :=
  let t0 := init_attributes kw in
  match kw_topology kw with
  | None => Ok t0
  | Some topology =>
      match fromTerrainTopology topology None t0 with
      | (Ok _, t1) => Ok t1
      | (Raise e, _) => Raise e
      end
  end.
End Topology.

(** ** Writing to files *)

(** The regular files of the file system, by path.  [os.path.isfile(p)] is
    [is_Some (fs !! p)]; every path is taken to be writable. *)
Section Files.
Context `{Collaborators}.

(** [with open(filePath, 'wb') as f: self._writeTo(f)], or the same under
    [gzip.open]: the file is created or truncated and receives what was
    written, also when [_writeTo] raises. *)
Definition write_file (filePath : string) (gzipped : bool)
    (self : TerrainTile) (fs : gmap string (list byte))
  : result unit * TerrainTile * gmap string (list byte) :=
  let '(r, self', out) := _writeTo self in
  (r, self', <[filePath := if gzipped then gzip_compress out else out]> fs).

Definition toFile (filePath : string) (gzipped : bool)
    (self : TerrainTile) (fs : gmap string (list byte))
  : result unit * TerrainTile * gmap string (list byte) :=
  if bool_decide (is_Some (fs !! filePath))
  then (Raise IOError, self, fs)
  else write_file filePath gzipped self fs.

Definition toOurFile (filePath : string) (gzipped : bool)
    (self : TerrainTile) (fs : gmap string (list byte))
  : result unit * TerrainTile * gmap string (list byte) :=
  write_file filePath gzipped self fs.

(** [toBytesIO]: the content of the buffer that is returned. *)
Definition toBytesIO (gzipped : bool) (self : TerrainTile)
  : result (list byte) * TerrainTile :=
  let '(r, self', out) := _writeTo self in
  match r with
  | Ok _ => (Ok (if gzipped then gzip_compress out else out), self')
  | Raise e => (Raise e, self')
  end.
End Files.

(** ** Sample data *)

(** Stand-ins for the collaborators, to run the codec on concrete tiles:
    every normal is packed as the byte pair (128, 128) and unpacked as the
    vertical, the sphere and the occlusion point sit at the origin and the
    gzip envelope is the identity. *)
Definition sample_collaborators : Collaborators :=
  {| octEncode := fun _ => Ok (128, 128);
     octDecode := fun _ _ => Ok (0, 0, 1)%float;
     BoundingSphere_fromPoints := fun _ => Ok ((0, 0, 0)%float, 0%float);
     occ_fromPoints := fun _ _ => Ok (0, 0, 0)%float;
     gzip_compress := fun bs => bs |}.

(** A unit square with a fifth vertex inside, three triangles, heights
    between 0 and 10. *)
Definition square_topology : TerrainTopology :=
  {| minLon := 0; maxLon := 1; minLat := 0; maxLat := 1;
     ecefMinX := 0; ecefMinY := 0; ecefMinZ := 0;
     ecefMaxX := 1; ecefMaxY := 1; ecefMaxZ := 1;
     minHeight := 0; maxHeight := 10;
     uVertex := [0; 1; 1; 0; 0.5]%float;
     vVertex := [0; 0; 1; 1; 0.25]%float;
     hVertex := [0; 5; 10; 2.5; 1]%float;
     indexData := [0; 1; 2; 0; 2; 3; 0; 4; 1];
     cartesianVertices := [];
     topo_hasLighting := false;
     verticesUnitVectors := [] |}.

(** The same square, flat at height 3. *)
Definition flat_topology : TerrainTopology :=
  {| minLon := 0; maxLon := 1; minLat := 0; maxLat := 1;
     ecefMinX := 0; ecefMinY := 0; ecefMinZ := 0;
     ecefMaxX := 1; ecefMaxY := 1; ecefMaxZ := 1;
     minHeight := 3; maxHeight := 3;
     uVertex := [0; 1; 1; 0]%float;
     vVertex := [0; 0; 1; 1]%float;
     hVertex := [3; 3; 3; 3]%float;
     indexData := [0; 1; 2; 0; 2; 3];
     cartesianVertices := [];
     topo_hasLighting := false;
     verticesUnitVectors := [] |}.

(** The tile that [TerrainTile(topology=square_topology)] builds, as the
    constructor computes it. *)
Definition square_tile : TerrainTile :=
  Eval vm_compute in
    match @TerrainTile_init sample_collaborators
            (mkKwargs None None None None None None
               (Some (TopologyObject square_topology))) with
    | Ok t => t
    | Raise _ => init_attributes no_kwargs
    end.

(** The tile that [TerrainTile()] builds. *)
Definition empty_tile : TerrainTile := init_attributes no_kwargs.

(** The tile that [TerrainTile(topology=square_topology, watermask=[[None]])]
    builds. *)
Definition none_watermask_tile : TerrainTile :=
  Eval vm_compute in
    match @TerrainTile_init sample_collaborators
            (mkKwargs None None None None (Some [[None]]) None
               (Some (TopologyObject square_topology))) with
    | Ok t => t
    | Raise _ => init_attributes no_kwargs
    end.

(** A file system with one file. *)
Definition sample_fs : gmap string (list byte) :=
  {[ "tile.terrain" := [x01; x02; x03] ]}.

(** The bytes of the square tile, which has no extension, followed by a
    byte 7 where an extension header would start. *)
Definition square_bytes_then_7 : list byte :=
  Eval vm_compute in
    snd (@_writeTo sample_collaborators square_tile) ++ [x07].

(** The square tile with 65632 more vertices inside the square, 65637 in
    all: one more than [BYTESPLIT].  The triangles and the edges are those
    of the square. *)
Definition wide_tile : TerrainTile :=
  let more := replicate (Z.to_nat 65632) 16384 in
  set_h (h square_tile ++ more)
    (set_v (v square_tile ++ more)
       (set_u (u square_tile ++ more) square_tile)).

(** The square tile with a uniform watermask of value 1. *)
Definition uniform_mask_tile : TerrainTile :=
  set_watermask [[Some 1]] square_tile.

(** A grid of 256 rows of 256 bytes in which no two neighbouring rows and
    no two neighbouring columns are alike. *)
Definition sample_rows : list (list Z) :=
  map (fun i => map (fun j => (7 * i + j) mod 256) (seqZ 0 256)) (seqZ 0 256).

(** The square tile with that grid as watermask. *)
Definition grid_mask_tile : TerrainTile :=
  set_watermask (map (map Some) sample_rows) square_tile.

(** The tile of 65637 vertices with a uniform watermask of value 1. *)
Definition wide_mask_tile : TerrainTile :=
  set_watermask [[Some 1]] wide_tile.

(** ** Predicates used in the statements *)

(** The result, final state and output of a run of the writer. *)
Definition W_result {A} (x : result A * TerrainTile * list byte) : result A :=
  fst (fst x).
Definition W_state {A} (x : result A * TerrainTile * list byte) : TerrainTile :=
  snd (fst x).
Definition W_output {A} (x : result A * TerrainTile * list byte) : list byte :=
  snd x.

(** A writer computation that never assigns an attribute of [self]. *)
Definition W_pure {A} (m : W A) : Prop := forall t, W_state (m t) = t.

(** [t'] is [t] up to the two extension flags and the watermask. *)
Definition same_mesh (t t' : TerrainTile) : Prop :=
  t' = set_hasLighting (hasLighting t')
         (set_hasWatermask (hasWatermask t')
            (set_watermask (watermask t') t)).

(** A header height that [struct] can pack as a binary32. *)
Definition float32_packable (x : float) : bool :=
  is_ok (packEntry_float fmt_f x).

Definition header_packable (hd : Header) : bool :=
  float32_packable (minimumHeight hd) && float32_packable (maximumHeight hd).

(** The watermask that [_writeTo] leaves behind when it reaches the end of
    the watermask block: a [None] in the only cell that the single-row
    branch reads has become 0. *)
Definition watermask_after (wm : list (list (option Z)))
  : list (list (option Z)) :=
  match wm with
  | [None :: r] => [Some 0 :: r]
  | _ => wm
  end.

(** The result, tile and unread bytes after a run of the reader. *)
Definition R_result {A} (x : result A * (TerrainTile * list byte)) : result A :=
  fst x.
Definition R_tile {A} (x : result A * (TerrainTile * list byte)) : TerrainTile :=
  fst (snd x).
Definition R_rest {A} (x : result A * (TerrainTile * list byte)) : list byte :=
  snd (snd x).

(** A property of the tile that a reader computation maintains. *)
Definition R_keeps (P : TerrainTile -> Prop) {A} (m : R A) : Prop :=
  forall st, P (fst st) -> P (R_tile (m st)).

(** The extension flags as [fromBytesIO] sets them. *)
Definition flags_are (hl hw : bool) (t : TerrainTile) : Prop :=
  hasLighting t = Some hl /\ hasWatermask t = hw.

(** The cached height range is unset or is the range of the header: what
    [_getDeltaHeight], the only method that assigns it, establishes. *)
Definition deltaHeight_coherent (t : TerrainTile) : Prop :=
  match _deltaHeight t with
  | None => True
  | Some d =>
      d = (maximumHeight (header t) - minimumHeight (header t))%float
  end.

(** A quantized coordinate (§3: values in [0, 32767]). *)
Definition quantized (q : Z) : Prop := 0 <= q <= 32767.

(** No vertex coordinate has been computed yet: the three caches of
    [_computeVerticesCoordinates] are empty, as the constructor leaves
    them. *)
Definition coordinates_not_computed (t : TerrainTile) : Prop :=
  _longs t = [] /\ _lats t = [] /\ _heights t = [].

(** [p] holds of the [n] integers from [q] on. *)
Fixpoint holds_from (p : Z -> bool) (n : nat) (q : Z) : bool :=
  match n with
  | O => true
  | S n' => p q && holds_from p n' (q + 1)
  end.


(** The elements of [l], each at the place of its first occurrence. *)
Fixpoint first_occurrences (l : list Z) : list Z :=
  match l with
  | [] => []
  | x :: l' => x :: filter (fun y => y <> x) (first_occurrences l')
  end.

(** Vertex [i] has the quantized coordinate [q] in the list [coords]. *)
Definition has_coordinate (coords : list Z) (q i : Z) : bool :=
  match getitem coords i with
  | Ok x => x =? q
  | Raise _ => false
  end.

(** The vertices referenced by [indices] whose coordinate is [q], in the
    order in which the triangles first mention them. *)
Definition edge_list (coords : list Z) (q : Z) (indices : list Z) : list Z :=
  first_occurrences (filter (fun i => has_coordinate coords q i = true) indices).

(** The four edge lists are empty, as the constructor leaves them. *)
Definition no_edges (t : TerrainTile) : Prop :=
  westI t = [] /\ southI t = [] /\ eastI t = [] /\ northI t = [].

(** One step of the edge detection on one list: [i] is appended when it is
    on the edge and not yet listed. *)
Definition scan_step (p : Z -> bool) (acc : list Z) (i : Z) : list Z :=
  if p i && negb (contains acc i) then acc ++ [i] else acc.

Definition scan (p : Z -> bool) (acc l : list Z) : list Z :=
  fold_left (scan_step p) l acc.

(** [t] with its four edge lists replaced. *)
Definition with_edges (w s e n : list Z) (t : TerrainTile) : TerrainTile :=
  set_northI n (set_eastI e (set_southI s (set_westI w t))).

(** A property of the tile that a method maintains. *)
Definition T_keeps (P : TerrainTile -> Prop) {A} (m : T A) : Prop :=
  forall t, P t -> P (snd (m t)).

(** The edge lists, untouched by everything that precedes the detection
    loop. *)
Definition edges_are (w s e n : list Z) (t : TerrainTile) : Prop :=
  westI t = w /\ southI t = s /\ eastI t = e /\ northI t = n.


(** [l] lists the vertices of [indices] whose coordinate in [coords] is
    [q]: in first-encountered order, each once, and, when the triangles
    mention every vertex, exactly the vertices with that coordinate. *)
Definition lists_edge (coords : list Z) (q : Z) (indices l : list Z) : Prop :=
  l = edge_list coords q indices /\
  NoDup l /\
  (forall i, i ∈ l <-> i ∈ indices /\ getitem coords i = Ok q) /\
  ((forall k, (k < length coords)%nat -> Z.of_nat k ∈ indices) ->
   forall k, Z.of_nat k ∈ l <-> coords !! k = Some q).

(** *** The byte images of the mesh sections *)

(** [z] fits an unsigned word of format [t]. *)
Definition fits (t : ifmt) (z : Z) : Prop := 0 <= z < 256 ^ Z.of_nat (isize t).

(** The bytes of a sequence of words of format [t]. *)
Definition words (t : ifmt) (zs : list Z) : list byte :=
  concat (map (le_bytes (isize t)) zs).

(** The codes of a vertex stream (§4.2): the zigzag of the first value, then
    the zigzag of every difference with the previous value. *)
Fixpoint zigzag_deltas (prev : Z) (l : list Z) : list Z :=
  match l with
  | [] => []
  | x :: l' => zigZagEncode (x - prev) :: zigzag_deltas x l'
  end.

(** The word format of the index and edge blocks of a tile with [n]
    vertices, as the writer selects it. *)
Definition index_width (n : Z) : ifmt :=
  if BYTESPLIT <? n then fmt_I else fmt_H.

Definition vertex_bytes (t : TerrainTile) : list byte :=
  le_bytes 4 (Z.of_nat (length (u t)))
  ++ words fmt_H (zigzag_deltas 0 (u t))
  ++ words fmt_H (zigzag_deltas 0 (v t))
  ++ words fmt_H (zigzag_deltas 0 (h t)).

Definition index_bytes (t : TerrainTile) : list byte :=
  let w := index_width (Z.of_nat (length (u t))) in
  le_bytes 4 (Z.of_nat (length (indices t)) / 3)
  ++ words w (encodeIndices (indices t)).

Definition edge_block (w : ifmt) (l : list Z) : list byte :=
  le_bytes 4 (Z.of_nat (length l)) ++ words w l.

Definition edge_bytes (t : TerrainTile) : list byte :=
  let w := index_width (Z.of_nat (length (u t))) in
  edge_block w (westI t) ++ edge_block w (southI t)
  ++ edge_block w (eastI t) ++ edge_block w (northI t).

(** A tile whose mesh can be written: the header heights can be packed,
    there is at least one vertex, the three vertex lists have the same
    length and hold quantized values, the triangles come in threes, and
    every count, index code and edge index fits its word. *)
Record valid_mesh (t : TerrainTile) : Prop := {
  vm_header : header_packable (header t) = true;
  vm_nonempty : u t <> [];
  vm_count : fits fmt_I (Z.of_nat (length (u t)));
  vm_v_length : length (v t) = length (u t);
  vm_h_length : length (h t) = length (u t);
  vm_u : Forall quantized (u t);
  vm_v : Forall quantized (v t);
  vm_h : Forall quantized (h t);
  vm_triangles : (Z.of_nat (length (indices t)) mod 3 = 0);
  vm_triangle_count : fits fmt_I (Z.of_nat (length (indices t)) / 3);
  vm_codes :
    Forall (fits (index_width (Z.of_nat (length (u t)))))
           (encodeIndices (indices t));
  vm_west :
    fits fmt_I (Z.of_nat (length (westI t))) /\
    Forall (fits (index_width (Z.of_nat (length (u t))))) (westI t);
  vm_south :
    fits fmt_I (Z.of_nat (length (southI t))) /\
    Forall (fits (index_width (Z.of_nat (length (u t))))) (southI t);
  vm_east :
    fits fmt_I (Z.of_nat (length (eastI t))) /\
    Forall (fits (index_width (Z.of_nat (length (u t))))) (eastI t);
  vm_north :
    fits fmt_I (Z.of_nat (length (northI t))) /\
    Forall (fits (index_width (Z.of_nat (length (u t))))) (northI t)
}.

(** The vertex, index and edge lists are empty, as the constructor leaves
    them. *)
Definition no_mesh (t : TerrainTile) : Prop :=
  u t = [] /\ v t = [] /\ h t = [] /\ no_edges t.

(** The bytes of the header, vertex, index and edge sections of [t], given
    those of its header. *)
Definition mesh_bytes (hb : list byte) (t : TerrainTile) : list byte :=
  hb ++ vertex_bytes t ++ index_bytes t ++ edge_bytes t.

(** The tile that the reader builds from the mesh sections of [t], when it
    starts from [t0]: the flags as declared, the header as read, the
    vertices, triangles and edges of [t] appended to those of [t0]. *)
Definition mesh_read (hl hw : bool) (hd : Header) (t t0 : TerrainTile)
  : TerrainTile :=
  set_northI (northI t0 ++ northI t)
    (set_eastI (eastI t0 ++ eastI t)
       (set_southI (southI t0 ++ southI t)
          (set_westI (westI t0 ++ westI t)
             (set_indices (indices t)
                (set_h (h t0 ++ h t)
                   (set_v (v t0 ++ v t)
                      (set_u (u t0 ++ u t)
                         (set_header hd
                            (set_hasWatermask hw
                               (set_hasLighting (Some hl) t0)))))))))).

(** *** The watermask *)

(** A uniform watermask: one row of one byte. *)
Definition uniform_mask (rows : list (list Z)) : Prop :=
  exists b, rows = [[b]] /\ fits fmt_B b.

(** A full grid: 256 rows, from north to south, of 256 bytes, from west to
    east. *)
Definition grid_mask (rows : list (list Z)) : Prop :=
  length rows = 256%nat /\
  Forall (fun r => length r = 256%nat /\ Forall (fits fmt_B) r) rows.

(** The watermask extension of a mask of bytes: the id 2, the number of
    cells, the cells row after row. *)
Definition watermask_bytes (rows : list (list Z)) : list byte :=
  le_bytes 1 2
  ++ le_bytes 4 (if 1 <? Z.of_nat (length rows) then TILEPXS else 1)
  ++ words fmt_B (concat rows).

(** The test [len(self.vLight) > 0] of the writer: the declaration of the
    lighting extension that matches the bytes of [t]. *)
Definition has_normals (t : TerrainTile) : bool :=
  0 <? Z.of_nat (length (vLight t)).

(** [octDecode] returns on every pair of bytes. *)
Definition octDecode_total `{Collaborators} : Prop :=
  forall x y, fits fmt_B x -> fits fmt_B y -> is_ok (octDecode x y) = true.

(** ** More methods of [TerrainTile] *)

(** [AttributeError]: an attribute is read before any method assigned
    it. *)
Inductive attribute_error : Type := AttributeError (name : string).

(** [getContentType].  The constructor does not assign [hasLighting]; the
    first test reads it, and raises when [fromBytesIO],
    [fromTerrainTopology] or [_writeTo] have not assigned it. *)
Definition getContentType (self : TerrainTile) : attribute_error + string :=
  let baseContent := "application/vnd.quantized-mesh" in
  match hasLighting self with
  | None => inl (AttributeError "hasLighting")
  | Some lighting =>
      if lighting && hasWatermask self
      then inr (String.append baseContent
                  ";extensions=octvertexnormals-watermask")
      else if lighting
      then inr (String.append baseContent ";extensions=octvertexnormals")
      else if hasWatermask self
      then inr (String.append baseContent ";extensions=watermask")
      else inr baseContent
  end.

(** [(self._longs[vi], self._lats[vi], self._heights[vi])]. *)
Definition vertex_at (self : TerrainTile) (vi : Z) : result vec3 :=
  match getitem (_longs self) vi with
  | Raise e => Raise e
  | Ok lon =>
      match getitem (_lats self) vi with
      | Raise e => Raise e
      | Ok lat =>
          match getitem (_heights self) vi with
          | Raise e => Raise e
          | Ok height => Ok (lon, lat, height)
          end
      end
  end.

Definition triangle : Type := vec3 * vec3 * vec3.

(** The loop [for i in range(0, nbTriangles - 1, 3)] of
    [getTrianglesCoordinates], which runs when [nbTriangles] is a multiple
    of 3: [ind] is [self.indices[i:]]. *)
Fixpoint triangles_loop (self : TerrainTile) (ind : list Z)
  : result (list triangle) :=
  match ind with
  | vi1 :: vi2 :: vi3 :: ind' =>
      match vertex_at self vi1 with
      | Raise e => Raise e
      | Ok p1 =>
          match vertex_at self vi2 with
          | Raise e => Raise e
          | Ok p2 =>
              match vertex_at self vi3 with
              | Raise e => Raise e
              | Ok p3 =>
                  match triangles_loop self ind' with
                  | Raise e => Raise e
                  | Ok triangles => Ok ((p1, p2, p3) :: triangles)
                  end
              end
          end
      end
  | _ => Ok []
  end.

Definition getTrianglesCoordinates : T (list triangle) :=
  (_computeVerticesCoordinates ;;
   let* self := T_self in
   let nbTriangles := Z.of_nat (length (indices self)) in
   if negb (nbTriangles mod 3 =? 0)
   then T_lift (Raise (Exception "Corrupted tile"))
   else T_lift (triangles_loop self (indices self)))%T.

(** [bounds]. *)
Definition bounds (self : TerrainTile) : list float :=
  [_west self; _south self; _east self; _north self].

Section FromFile.
Context `{Collaborators}.
(** [utils.ungzipFileObject], on the content of the file. *)
Variable ungzipFileObject : list byte -> result (list byte).

(** [fromFile]: [open] raises [IOError] when there is no such file. *)
Definition fromFile (filePath : string) (hasLighting hasWatermask : bool)
    (gzipped : bool) (self : TerrainTile) (fs : gmap string (list byte))
  : result unit * TerrainTile :=
  match fs !! filePath with
  | None => (Raise IOError, self)
  | Some content =>
      match (if gzipped then ungzipFileObject content else Ok content) with
      | Raise e => (Raise e, self)
      | Ok f =>
          let '(r, (self', _)) := fromBytesIO hasLighting hasWatermask (self, f) in
          (r, self')
      end
  end.
End FromFile.

(** ** Predicates of the further properties *)

(** A reader computation that, when it returns, has looked at nothing
    beyond the bytes it consumed: the same run on a longer stream returns
    the same value and tile and leaves the additional bytes unread. *)
Definition R_local {A} (m : R A) : Prop :=
  forall t bs a t' r s,
    m (t, bs) = (Ok a, (t', r)) -> m (t, bs ++ s) = (Ok a, (t', r ++ s)).

(** ** More sample data *)

(** The bytes that [_writeTo] writes for the square tile. *)
Definition square_bytes : list byte :=
  Eval vm_compute in snd (@_writeTo sample_collaborators square_tile).

(** The tile that [fromBytesIO] builds from them in a new tile. *)
Definition square_decoded : TerrainTile :=
  Eval vm_compute in
    fst (snd (@fromBytesIO sample_collaborators false false
                (empty_tile, square_bytes))).

(** The square tile with a watermask of one row of three cells. *)
Definition row_mask_tile : TerrainTile :=
  set_watermask [[Some 5; Some 6; Some 7]] square_tile.

(** The square tile with a watermask of three rows. *)
Definition three_rows_tile : TerrainTile :=
  set_watermask [[Some 1]; [Some 2]; [Some 3]] square_tile.

(** The square tile with a watermask of 256 rows of one cell. *)
Definition thin_mask_tile : TerrainTile :=
  set_watermask (replicate 256 [Some 1]) square_tile.

(** The square tile, of five vertices, with a single normal. *)
Definition one_normal_tile : TerrainTile :=
  set_vLight [(0, 0, 1)%float] square_tile.

(** The square tile with a normal for each vertex and a uniform
    watermask. *)
Definition lit_mask_tile : TerrainTile :=
  set_watermask [[Some 1]]
    (set_vLight (replicate 5 (0, 0, 1)%float) square_tile).

(** The tile of [TerrainTile(west=2.0, east=2.0)]: no width. *)
Definition degenerate_tile : TerrainTile :=
  init_attributes
    (mkKwargs (Some 2%float) (Some 2%float) None None None None None).

(** The bounds after the first step of [fromTerrainTopology]. *)
Definition bounds_after (topology : TerrainTopology)
    (given : option (float * float * float * float)) (t : TerrainTile)
  : list float :=
  match given with
  | Some (b0, b1, b2, b3) => [b0; b1; b2; b3]
  | None =>
      if bounds_defined t then bounds t
      else [minLon topology; minLat topology;
            maxLon topology; maxLat topology]
  end.


(** The coordinates of the vertices of the square tile, and the tile once
    they are computed. *)
Definition square_coordinates : list vec3 :=
  Eval vm_compute in
    match fst (getVerticesCoordinates square_tile) with
    | Ok coordinates => coordinates
    | Raise _ => []
    end.

Definition square_computed : TerrainTile :=
  Eval vm_compute in snd (getVerticesCoordinates square_tile).

(** The square tile with one index removed from its last triangle. *)
Definition corrupted_tile : TerrainTile :=
  set_indices [0; 1; 2; 0; 2; 3; 0; 4] square_tile.

(** ** A tile loaded twice *)

(** The square with its longitudes mirrored: the vertices of the west edge
    are on the east edge and conversely. *)
Definition mirrored_topology : TerrainTopology :=
  {| minLon := 0; maxLon := 1; minLat := 0; maxLat := 1;
     ecefMinX := 0; ecefMinY := 0; ecefMinZ := 0;
     ecefMaxX := 1; ecefMaxY := 1; ecefMaxZ := 1;
     minHeight := 0; maxHeight := 10;
     uVertex := [1; 0; 0; 1; 0.5]%float;
     vVertex := [0; 0; 1; 1; 0.25]%float;
     hVertex := [0; 5; 10; 2.5; 1]%float;
     indexData := [0; 1; 2; 0; 2; 3; 0; 4; 1];
     cartesianVertices := [];
     topo_hasLighting := false;
     verticesUnitVectors := [] |}.

(** The square with a sixth vertex in the middle of its west edge, which no
    triangle mentions. *)
Definition loose_topology : TerrainTopology :=
  {| minLon := 0; maxLon := 1; minLat := 0; maxLat := 1;
     ecefMinX := 0; ecefMinY := 0; ecefMinZ := 0;
     ecefMaxX := 1; ecefMaxY := 1; ecefMaxZ := 1;
     minHeight := 0; maxHeight := 10;
     uVertex := [0; 1; 1; 0; 0.5; 0]%float;
     vVertex := [0; 0; 1; 1; 0.25; 0.5]%float;
     hVertex := [0; 5; 10; 2.5; 1; 1]%float;
     indexData := [0; 1; 2; 0; 2; 3; 0; 4; 1];
     cartesianVertices := [];
     topo_hasLighting := false;
     verticesUnitVectors := [] |}.

(** [tile = TerrainTile(topology=square_topology)] followed by
    [tile.fromTerrainTopology(flat_topology)]. *)
Definition repopulated_tile : TerrainTile :=
  Eval vm_compute in
    snd (@fromTerrainTopology sample_collaborators
           (TopologyObject flat_topology) None square_tile).

(** The same, with [tile.getVerticesCoordinates()] called between the
    two. *)
Definition repopulated_computed : TerrainTile :=
  Eval vm_compute in
    snd (@fromTerrainTopology sample_collaborators
           (TopologyObject flat_topology) None square_computed).

(** [tile = TerrainTile(topology=square_topology)] followed by
    [tile.fromTerrainTopology(mirrored_topology)]. *)
Definition mirrored_tile : TerrainTile :=
  Eval vm_compute in
    snd (@fromTerrainTopology sample_collaborators
           (TopologyObject mirrored_topology) None square_tile).

(** [TerrainTile(topology=loose_topology)]. *)
Definition loose_tile : TerrainTile :=
  Eval vm_compute in
    snd (@fromTerrainTopology sample_collaborators
           (TopologyObject loose_topology) None empty_tile).

(** ** The factors of the quantization *)

(** What [_getWorkingUnitLongitude] and [_getWorkingUnitLatitude] return on
    a tile with the given cached value and bounds: the cached value when it
    is set and not zero, [MAX / (hi - lo)] otherwise. *)
Definition working_unit (cached : option float) (lo hi : float) : float :=
  match cached with
  | Some w => if (w =? 0)%float then (32767 / (hi - lo))%float else w
  | None => (32767 / (hi - lo))%float
  end.

(** What [_getDeltaHeight] returns: the cached range when it is set and not
    zero, [hi - lo] otherwise. *)
Definition height_range (cached : option float) (lo hi : float) : float :=
  match cached with
  | Some d => if (d =? 0)%float then (hi - lo)%float else d
  | None => (hi - lo)%float
  end.

(** The value of [_quantizeLongitude], [_quantizeLatitude] and
    [_quantizeHeight] on a tile, as a function of what the tile holds. *)
Definition longitude_value (t : TerrainTile) (longitude : float) : result Z :=
  py_round ((longitude - _west t)
            * working_unit (_workingUnitLongitude t) (_west t) (_east t))%float.

Definition latitude_value (t : TerrainTile) (latitude : float) : result Z :=
  py_round ((latitude - _south t)
            * working_unit (_workingUnitLatitude t) (_south t) (_north t))%float.

Definition height_value (t : TerrainTile) (height : float) : result Z :=
  let deniv := height_range (_deltaHeight t) (minimumHeight (header t))
                 (maximumHeight (header t)) in
  if (deniv =? 0)%float then Ok 0
  else py_round ((height - minimumHeight (header t)) * (32767 / deniv))%float.

(** A tile whose header says infinity for both heights, as [fromBytesIO]
    leaves it when the stream holds these two floats. *)
Definition unbounded_tile : TerrainTile :=
  set_header (header_set (header_set zero_header "minimumHeight" infinity)
                "maximumHeight" infinity) empty_tile.

(** The square tile with [v] cut to one value, and a tile with one vertex
    whose quantized longitude is beyond the doubles. *)
Definition ragged_tile : TerrainTile := set_v [0] square_tile.

Definition huge_tile : TerrainTile :=
  set_h [0] (set_v [0] (set_u [2 ^ 1024] square_tile)).

(** * Properties *)

(** ** Bytes and words *)

Lemma Z_of_byte_range (b : byte) : 0 <= Z_of_byte b < 256.
Proof.
  unfold Z_of_byte. pose proof (Byte.to_N_bounded b). lia.
Qed.

Lemma byte_of_Z_of_byte (b : byte) : byte_of_Z (Z_of_byte b) = b.
Proof.
  unfold byte_of_Z. pose proof (Z_of_byte_range b) as Hb.
  rewrite Z.mod_small by lia. unfold Z_of_byte.
  rewrite N2Z.id, Byte.of_to_N. reflexivity.
Qed.

Lemma Z_of_byte_of_Z (z : Z) : Z_of_byte (byte_of_Z z) = z mod 256.
Proof.
  unfold byte_of_Z, Z_of_byte.
  pose proof (Z.mod_pos_bound z 256 ltac:(lia)) as Hm.
  destruct (Byte.of_N (Z.to_N (z mod 256))) as [b|] eqn:E.
  - apply Byte.to_of_N in E. rewrite E. lia.
  - apply Byte.of_N_None_iff in E. lia.
Qed.

Lemma length_le_bytes (n : nat) (z : Z) : length (le_bytes n z) = n.
Proof.
  revert z. induction n as [|n IH]; intros z; simpl; [reflexivity|].
  now rewrite IH.
Qed.

Lemma le_value_le_bytes (n : nat) (z : Z) :
  0 <= z < 256 ^ Z.of_nat n -> le_value (le_bytes n z) = z.
Proof.
  revert z. induction n as [|n IH]; intros z Hz.
  - simpl in *. lia.
  - cbn [le_bytes le_value]. rewrite Z_of_byte_of_Z.
    rewrite Nat2Z.inj_succ, Z.pow_succ_r in Hz by lia.
    rewrite IH.
    + pose proof (Z.div_mod z 256 ltac:(lia)). lia.
    + split; [apply Z.div_pos; lia|].
      apply Z.div_lt_upper_bound; lia.
Qed.

Lemma le_value_range (bs : list byte) :
  0 <= le_value bs < 256 ^ Z.of_nat (length bs).
Proof.
  induction bs as [|b bs IH].
  - simpl. lia.
  - cbn [le_value length]. rewrite Nat2Z.inj_succ, Z.pow_succ_r by lia.
    pose proof (Z_of_byte_range b). lia.
Qed.

(** What is unpacked is what was packed. *)
Lemma unpackEntry_packEntry (t : ifmt) (z : Z) (bs rest : list byte) :
  packEntry t z = Ok bs -> unpackEntry t (bs ++ rest) = (Ok z, rest).
Proof.
  unfold packEntry, unpackEntry, read_bytes.
  destruct (_ && _) eqn:E; [|discriminate]. intros [= <-].
  apply andb_true_iff in E as [H1 H2].
  apply Z.leb_le in H1. apply Z.ltb_lt in H2.
  pose proof (length_le_bytes (isize t) z) as Hl.
  rewrite take_app_length' by (symmetry; exact Hl).
  rewrite drop_app_length' by (symmetry; exact Hl).
  rewrite Hl, Nat.eqb_refl, le_value_le_bytes by lia. reflexivity.
Qed.

Lemma packEntry_length (t : ifmt) (z : Z) (bs : list byte) :
  packEntry t z = Ok bs -> length bs = isize t.
Proof.
  unfold packEntry. destruct (_ && _); [|discriminate].
  intros [= <-]. apply length_le_bytes.
Qed.

Lemma packEntry_Ok (t : ifmt) (z : Z) :
  0 <= z < 256 ^ Z.of_nat (isize t) ->
  packEntry t z = Ok (le_bytes (isize t) z).
Proof.
  intros [H1 H2]. unfold packEntry.
  apply Z.leb_le in H1. apply Z.ltb_lt in H2. now rewrite H1, H2.
Qed.

(** A value that was unpacked fits its word. *)
Lemma unpackEntry_range (t : ifmt) (s rest : list byte) (z : Z) :
  unpackEntry t s = (Ok z, rest) -> 0 <= z < 256 ^ Z.of_nat (isize t).
Proof.
  unfold unpackEntry, read_bytes.
  destruct (length (take (isize t) s) =? isize t)%nat eqn:E; [|discriminate].
  intros [= <- _]. apply Nat.eqb_eq in E.
  pose proof (le_value_range (take (isize t) s)) as Hr.
  rewrite E in Hr. exact Hr.
Qed.

(** ** Zigzag and high-water-mark codecs *)

Lemma zigZagEncode_nonneg (n : Z) : 0 <= n -> zigZagEncode n = 2 * n \/ 2 ^ 31 <= n.
Proof.
  intros Hn. destruct (Z_lt_le_dec n (2 ^ 31)) as [Hlt|Hge]; [left|right; exact Hge].
  unfold zigZagEncode. rewrite Z.shiftl_mul_pow2, Z.shiftr_div_pow2 by lia.
  rewrite Z.div_small by lia. rewrite Z.lxor_0_r. lia.
Qed.

Lemma zigZagEncode_neg (n : Z) :
  - 2 ^ 31 <= n < 0 -> zigZagEncode n = - 2 * n - 1.
Proof.
  intros Hn. unfold zigZagEncode.
  rewrite Z.shiftl_mul_pow2, Z.shiftr_div_pow2 by lia.
  replace (n / 2 ^ 31) with (-1).
  - rewrite Z.lxor_m1_r. unfold Z.lnot. lia.
  - apply Z.div_unique with (r := n + 2 ^ 31); lia.
Qed.

Lemma land_1_mod (a : Z) : Z.land a 1 = a mod 2.
Proof.
  pose proof (Z.land_ones a 1 ltac:(lia)) as Hl.
  change (Z.ones 1) with 1 in Hl. exact Hl.
Qed.

(** §8, zigzag: [unzigzag(zigzag(n)) == n] for every 32-bit signed [n]. *)
Lemma zigZag_roundtrip (n : Z) :
  - 2 ^ 31 <= n < 2 ^ 31 -> zigZagDecode (zigZagEncode n) = n.
Proof.
  intros Hn. unfold zigZagDecode.
  destruct (Z_lt_le_dec n 0) as [Hneg|Hpos].
  - rewrite zigZagEncode_neg by lia.
    replace (- 2 * n - 1) with (1 + 2 * (- n - 1)) by lia.
    rewrite Z.shiftr_div_pow2 by lia.
    replace ((1 + 2 * (- n - 1)) / 2 ^ 1) with (- n - 1)
      by (apply Z.div_unique with (r := 1); lia).
    replace (Z.land (1 + 2 * (- n - 1)) 1) with 1.
    + rewrite Z.lxor_m1_r. unfold Z.lnot. lia.
    + rewrite land_1_mod.
      apply Z.mod_unique with (q := - n - 1); lia.
  - destruct (zigZagEncode_nonneg n Hpos) as [-> | ?]; [|lia].
    rewrite Z.shiftr_div_pow2 by lia.
    replace (2 * n / 2 ^ 1) with n
      by (apply Z.div_unique with (r := 0); lia).
    replace (Z.land (2 * n) 1) with 0.
    + simpl. apply Z.lxor_0_r.
    + rewrite land_1_mod.
      apply Z.mod_unique with (q := n); lia.
Qed.

(** The zigzag image of a 16-bit signed value fits an unsigned 16-bit word. *)
Lemma zigZagEncode_range16 (n : Z) :
  - 32768 <= n <= 32767 -> 0 <= zigZagEncode n < 65536.
Proof.
  intros Hn. destruct (Z_lt_le_dec n 0) as [Hneg|Hpos].
  - rewrite zigZagEncode_neg by lia. lia.
  - destruct (zigZagEncode_nonneg n Hpos) as [-> | ?]; lia.
Qed.

(** §8, high-water-mark codec: [decode(encode(seq)) == seq]. *)
Lemma decodeIndices_encodeIndices_from (highest : Z) (l : list Z) :
  decodeIndices_from highest (encodeIndices_from highest l) = l.
Proof.
  revert highest. induction l as [|i l IH]; intros highest; simpl.
  - reflexivity.
  - rewrite IH. f_equal. lia.
Qed.

Lemma decodeIndices_encodeIndices (l : list Z) :
  decodeIndices (encodeIndices l) = l.
Proof. apply decodeIndices_encodeIndices_from. Qed.

Lemma length_encodeIndices_from (highest : Z) (l : list Z) :
  length (encodeIndices_from highest l) = length l.
Proof.
  revert highest. induction l as [|i l IH]; intros highest; simpl; auto.
Qed.

(** ** The writer: which computations leave [self] alone *)

Create HintDb wpure discriminated.

Lemma W_pure_ret {A} (a : A) : W_pure (W_ret a).
Proof. intros t. reflexivity. Qed.

Lemma W_pure_lift {A} (r : result A) : W_pure (W_lift r).
Proof. intros t. reflexivity. Qed.

Lemma W_pure_self : W_pure W_self.
Proof. intros t. reflexivity. Qed.

Lemma W_pure_write (bs : list byte) : W_pure (W_write bs).
Proof. intros t. reflexivity. Qed.

Lemma W_pure_bind {A B} (m : W A) (k : A -> W B) :
  W_pure m -> (forall a, W_pure (k a)) -> W_pure (W_bind m k).
Proof.
  intros Hm Hk t. unfold W_bind. specialize (Hm t).
  destruct (m t) as [[[a|e] t1] o1]; cbn in Hm; subst t1.
  - specialize (Hk a t). destruct (k a t) as [[r t2] o2]. exact Hk.
  - reflexivity.
Qed.

#[local] Hint Resolve W_pure_ret W_pure_lift W_pure_self W_pure_write : wpure.
#[local] Hint Extern 2 (W_pure (W_bind _ _)) =>
  apply W_pure_bind; [|intros ?] : wpure.

Lemma W_pure_write_entry meta key z : W_pure (write_entry meta key z).
Proof. unfold write_entry. auto with wpure. Qed.
#[local] Hint Resolve W_pure_write_entry : wpure.

Lemma W_pure_write_entries meta key xs : W_pure (write_entries meta key xs).
Proof. induction xs; simpl; auto with wpure. Qed.

Lemma W_pure_packIndices t ind : W_pure (packIndices t ind).
Proof. induction ind; simpl; auto with wpure. Qed.
#[local] Hint Resolve W_pure_write_entries W_pure_packIndices : wpure.

Lemma W_pure_write_header meta : W_pure (write_header meta).
Proof. induction meta as [|[k v] meta IH]; simpl; auto 6 with wpure. Qed.

Lemma W_pure_write_first key l : W_pure (write_first key l).
Proof. unfold write_first. auto 6 with wpure. Qed.

Lemma W_pure_write_deltas key n s : W_pure (write_deltas key n s).
Proof.
  revert s. induction n as [|n IH]; intros s; simpl; auto with wpure.
  destruct s as [|x0 [|x1 s]]; auto with wpure.
Qed.
#[local] Hint Resolve W_pure_write_header W_pure_write_first
  W_pure_write_deltas : wpure.

Section WriterFrame.
Context `{Collaborators}.

Lemma W_pure_write_normals n s : W_pure (write_normals n s).
Proof.
  revert s. induction n as [|n IH]; intros s; simpl; auto with wpure.
  destruct s as [|x s]; auto 6 with wpure.
Qed.

Lemma W_pure_write_cells x : W_pure (write_cells x).
Proof. induction x; simpl; auto 7 with wpure. Qed.

Lemma W_pure_write_rows rows : W_pure (write_rows rows).
Proof.
  pose proof W_pure_write_cells.
  induction rows as [|x rows IH]; simpl; auto with wpure.
  destruct (negb _); auto with wpure.
Qed.

Lemma W_pure_write_vertices n : W_pure (write_vertices n).
Proof. unfold write_vertices. auto 12 with wpure. Qed.

Lemma W_pure_write_indices n : W_pure (write_indices n).
Proof. unfold write_indices. auto 8 with wpure. Qed.

Lemma W_pure_write_edges n : W_pure (write_edges n).
Proof. unfold write_edges. auto 12 with wpure. Qed.
End WriterFrame.

(** ** The effect of [_writeTo] on [self] *)

Lemma W_bind_Ok_inv {A B} (m : W A) (k : A -> W B) t b t2 o :
  W_bind m k t = (Ok b, t2, o) ->
  exists a t1 o1 o2,
    m t = (Ok a, t1, o1) /\ k a t1 = (Ok b, t2, o2) /\ o = o1 ++ o2.
Proof.
  unfold W_bind. destruct (m t) as [[[a|e] t1] o1]; [|discriminate].
  destruct (k a t1) as [[r t2'] o2] eqn:Ek. intros [= -> -> <-].
  exists a, t1, o1, o2. auto.
Qed.

Lemma W_bind_Ok {A B} (m : W A) (k : A -> W B) t a t1 o1 :
  m t = (Ok a, t1, o1) ->
  W_bind m k t = (W_result (k a t1), W_state (k a t1), o1 ++ W_output (k a t1)).
Proof.
  intros Hm. unfold W_bind. rewrite Hm.
  destruct (k a t1) as [[r t2] o2]. reflexivity.
Qed.

Lemma W_bind_Raise {A B} (m : W A) (k : A -> W B) t e t1 o1 :
  m t = (Raise e, t1, o1) -> W_bind m k t = (Raise e, t1, o1).
Proof. intros Hm. unfold W_bind. now rewrite Hm. Qed.

(** A relation between the states before and after that holds of both
    halves of a sequence holds of the sequence. *)
Lemma W_state_bind_rel (Q : TerrainTile -> TerrainTile -> Prop) {A B}
    (m : W A) (k : A -> W B) :
  (forall t1 t2 t3, Q t1 t2 -> Q t2 t3 -> Q t1 t3) ->
  (forall t, Q t (W_state (m t))) ->
  (forall a t, Q t (W_state (k a t))) ->
  forall t, Q t (W_state (W_bind m k t)).
Proof.
  intros Htrans Hm Hk t. specialize (Hm t). unfold W_bind.
  destruct (m t) as [[[a|e] t1] o1]; cbn in Hm.
  - specialize (Hk a t1). destruct (k a t1) as [[r t2] o2]. cbn in *.
    eapply Htrans; eassumption.
  - exact Hm.
Qed.

Lemma W_pure_rel (Q : TerrainTile -> TerrainTile -> Prop) {A} (m : W A) :
  (forall t, Q t t) -> W_pure m -> forall t, Q t (W_state (m t)).
Proof. intros Hrefl Hm t. rewrite Hm. apply Hrefl. Qed.

Lemma W_state_assign_pure {B} (f : TerrainTile -> TerrainTile) (k : W B) t :
  W_pure k -> W_state (W_bind (W_assign f) (fun _ => k) t) = f t.
Proof.
  intros Hk. unfold W_bind, W_assign. specialize (Hk (f t)).
  destruct (k (f t)) as [[r t2] o2]. exact Hk.
Qed.

Lemma W_state_bind {A B} (m : W A) (k : A -> W B) t :
  W_state (W_bind m k t) =
  match W_result (m t) with
  | Ok a => W_state (k a (W_state (m t)))
  | Raise _ => W_state (m t)
  end.
Proof.
  unfold W_bind. destruct (m t) as [[[a|e] t1] o1]; cbn; [|reflexivity].
  destruct (k a t1) as [[r t2] o2]. reflexivity.
Qed.

Lemma W_result_bind {A B} (m : W A) (k : A -> W B) t :
  W_result (W_bind m k t) =
  match W_result (m t) with
  | Ok a => W_result (k a (W_state (m t)))
  | Raise e => Raise e
  end.
Proof.
  unfold W_bind. destruct (m t) as [[[a|e] t1] o1]; cbn; [|reflexivity].
  destruct (k a t1) as [[r t2] o2]. reflexivity.
Qed.

Lemma write_entry_Ok meta key fmt z t :
  table_get meta key = Ok fmt ->
  0 <= z < 256 ^ Z.of_nat (isize fmt) ->
  write_entry meta key z t = (Ok tt, t, le_bytes (isize fmt) z).
Proof.
  intros Hk Hz. unfold write_entry, W_bind, W_lift, W_write.
  rewrite Hk, (packEntry_Ok _ _ Hz). reflexivity.
Qed.

#[local] Arguments write_entry : simpl never.

Lemma getitem_0_cons {A} (x : A) (l : list A) : getitem (x :: l) 0 = Ok x.
Proof.
  unfold getitem. cbn [length Z.ltb Z.compare].
  replace (0 <? Z.of_nat (S (length l))) with true
    by (symmetry; apply Z.ltb_lt; lia).
  reflexivity.
Qed.

Lemma getitem_0_nil {A} : getitem (@nil A) 0 = Raise IndexError.
Proof. reflexivity. Qed.

Section WriterEffect.
Context `{Collaborators}.

Lemma write_lighting_state (n : Z) (t : TerrainTile) :
  W_state (write_lighting n t) =
  match vLight t with
  | [] => t
  | _ :: _ => set_hasLighting (Some true) t
  end.
Proof.
  unfold write_lighting. rewrite W_state_bind. cbn [W_self W_result W_state fst snd].
  destruct (vLight t) as [|x l] eqn:E; [reflexivity|].
  replace (0 <? Z.of_nat (length (x :: l))) with true
    by (symmetry; apply Z.ltb_lt; simpl; lia).
  apply W_state_assign_pure.
  pose proof (W_pure_write_normals (Z.to_nat n) (x :: l)).
  auto with wpure.
Qed.

Lemma write_watermask_state (t : TerrainTile) :
  W_state (write_watermask t) =
  match watermask t with
  | [] => t
  | _ :: _ =>
      set_watermask (watermask_after (watermask t)) (set_hasWatermask true t)
  end.
Proof.
  unfold write_watermask. rewrite W_state_bind.
  cbn [W_self W_result W_state fst snd].
  destruct (watermask t) as [|row0 others] eqn:E; [reflexivity|].
  assert (Hsame : set_watermask (row0 :: others) (set_hasWatermask true t)
                  = set_hasWatermask true t).
  { rewrite <- E. now destruct t. }
  destruct others as [|row1 others].
  - (* a single row *)
    replace (1 <? Z.of_nat (length [row0])) with false by reflexivity.
    rewrite W_state_bind. cbn [W_assign W_result W_state fst snd].
    rewrite W_state_bind.
    rewrite (write_entry_Ok _ _ fmt_B) by (reflexivity || (cbn; lia)).
    cbn [W_result W_state fst snd].
    rewrite W_state_bind.
    rewrite (write_entry_Ok _ _ fmt_I) by (reflexivity || (cbn; lia)).
    cbn [W_result W_state fst snd].
    rewrite W_state_bind. cbn [W_lift W_result W_state fst snd].
    destruct row0 as [|[c|] r].
    + rewrite getitem_0_nil. cbn [watermask_after]. now rewrite Hsame.
    + rewrite getitem_0_cons. cbn [watermask_after]. rewrite Hsame.
      assert (P : W_pure
                (W_bind (W_ret tt) (fun _ =>
                 W_bind W_self (fun self =>
                 W_bind (W_lift (getitem (watermask self) 0)) (fun row =>
                 W_bind (W_lift (getitem row 0)) (fun c =>
                 W_bind (W_lift (table_get WaterMask "xy")) (fun t =>
                 W_bind (W_lift (int_of_cell c)) (fun z =>
                 W_bind (W_lift (packEntry t z)) (fun bs =>
                 W_write bs)))))))))
        by auto 12 with wpure.
      apply P.
    + rewrite getitem_0_cons. cbn [watermask_after].
      rewrite W_state_bind. cbn [W_assign W_result W_state fst snd].
      assert (P : W_pure
                (W_bind W_self (fun self =>
                 W_bind (W_lift (getitem (watermask self) 0)) (fun row =>
                 W_bind (W_lift (getitem row 0)) (fun c =>
                 W_bind (W_lift (table_get WaterMask "xy")) (fun t =>
                 W_bind (W_lift (int_of_cell c)) (fun z =>
                 W_bind (W_lift (packEntry t z)) (fun bs =>
                 W_write bs))))))))
        by auto 12 with wpure.
      apply P.
  - (* several rows: nothing else is assigned *)
    replace (1 <? Z.of_nat (length (row0 :: row1 :: others))) with true
      by (symmetry; apply Z.ltb_lt; cbn [length]; lia).
    replace (watermask_after (row0 :: row1 :: others))
      with (row0 :: row1 :: others) by (now destruct row0 as [|[|]]).
    rewrite Hsame.
    apply W_state_assign_pure.
    pose proof (W_pure_write_rows (row0 :: row1 :: others)).
    apply W_pure_bind; [auto with wpure|intros _].
    apply W_pure_bind; [auto with wpure|intros _].
    destruct (negb _); auto with wpure.
Qed.

(** The state after [_writeTo] is the one after its two extension
    blocks, or the initial one when an earlier section raised. *)
Lemma writeTo_state (t : TerrainTile) :
  let n := Z.of_nat (length (u t)) in
  let tl := W_state (write_lighting n t) in
  (W_state (_writeTo t) = t \/ W_state (_writeTo t) = tl \/
   W_state (_writeTo t) = W_state (write_watermask tl)) /\
  (W_result (_writeTo t) = Ok tt ->
   W_state (_writeTo t) = W_state (write_watermask tl)).
Proof.
  intros n tl. unfold _writeTo.
  rewrite W_state_bind, W_result_bind, (W_pure_write_header _ t).
  destruct (W_result (write_header quantizedMeshHeader t)) as [[]|e];
    [|split; [left; reflexivity|discriminate]].
  rewrite W_state_bind, W_result_bind.
  cbn [W_self W_result W_state fst snd]. fold n.
  rewrite W_state_bind, W_result_bind, (W_pure_write_vertices n t).
  destruct (W_result (write_vertices n t)) as [[]|e];
    [|split; [left; reflexivity|discriminate]].
  rewrite W_state_bind, W_result_bind, (W_pure_write_indices n t).
  destruct (W_result (write_indices n t)) as [[]|e];
    [|split; [left; reflexivity|discriminate]].
  rewrite W_state_bind, W_result_bind, (W_pure_write_edges n t).
  destruct (W_result (write_edges n t)) as [[]|e];
    [|split; [left; reflexivity|discriminate]].
  rewrite W_state_bind, W_result_bind. fold tl.
  destruct (W_result (write_lighting n t)) as [[]|e];
    [|split; [right; left; reflexivity|discriminate]].
  split; [right; right; reflexivity|reflexivity].
Qed.

(** A tile without normals and without watermask is left as it is. *)
Lemma writeTo_no_extension_unchanged (t : TerrainTile) :
  vLight t = [] -> watermask t = [] -> W_state (_writeTo t) = t.
Proof.
  intros Hv Hw. destruct (writeTo_state t) as [Hcases _].
  cbv zeta in Hcases.
  assert (Hl := write_lighting_state (Z.of_nat (length (u t))) t).
  rewrite Hv in Hl. rewrite Hl in Hcases.
  assert (Hwm := write_watermask_state t). rewrite Hw in Hwm.
  rewrite Hwm in Hcases. tauto.
Qed.
End WriterEffect.

(** ** Writing the header and the vertex section *)

#[local] Arguments packEntry_float : simpl never.
#[local] Arguments packEntry : simpl never.

Lemma packEntry_float_length (v : ffmt) (x : float) (bs : list byte) :
  packEntry_float v x = Ok bs -> length bs = fsize v.
Proof.
  unfold packEntry_float. destruct v.
  - destruct (_ && _); [discriminate|]. intros [= <-]. reflexivity.
  - intros [= <-]. reflexivity.
Qed.

(** The header is written when every entry of the table names a field that
    can be packed. *)
Lemma write_header_Ok (meta : table ffmt) (t : TerrainTile) :
  Forall (fun kv => exists x,
            header_get (header t) (fst kv) = Ok x /\
            is_ok (packEntry_float (snd kv) x) = true) meta ->
  exists hb,
    write_header meta t = (Ok tt, t, hb) /\
    length hb = sum_list (map (fun kv => fsize (snd kv)) meta).
Proof.
  induction 1 as [|[k v] meta (x & Hx & Hp) _ (hb & IH & Hlen)].
  - exists []. split; reflexivity.
  - cbn [fst snd] in *.
    destruct (packEntry_float v x) as [bs|] eqn:Ebs; [|discriminate].
    exists (bs ++ hb). split.
    + cbn [write_header]. unfold W_bind at 1. cbn [W_self].
      unfold W_bind at 1. cbn [W_lift]. rewrite Hx.
      unfold W_bind at 1. cbn [W_lift]. rewrite Ebs.
      unfold W_bind at 1. cbn [W_write]. rewrite IH. reflexivity.
    + rewrite length_app, Hlen, (packEntry_float_length _ _ _ Ebs).
      reflexivity.
Qed.

Lemma write_header_packable (t : TerrainTile) :
  header_packable (header t) = true ->
  exists hb,
    write_header quantizedMeshHeader t = (Ok tt, t, hb) /\ length hb = 88%nat.
Proof.
  unfold header_packable, float32_packable. intros Hp.
  apply andb_true_iff in Hp as [Hmin Hmax].
  apply write_header_Ok. unfold quantizedMeshHeader.
  repeat (apply Forall_cons; split;
          [eexists; split; [reflexivity|first [exact Hmin|exact Hmax|reflexivity]]|]).
  apply Forall_nil. trivial.
Qed.

Lemma table_get_cases {A} (meta : table A) (key : string) :
  table_get meta key = Raise (KeyError key) \/
  exists f, table_get meta key = Ok f.
Proof.
  induction meta as [|[k x] meta IH]; cbn; [now left|].
  destruct (String.eqb k key); [right; eauto|exact IH].
Qed.

(** [write_entry] raises nothing but [KeyError] and [struct.error]. *)
Lemma write_entry_result meta key z t :
  W_result (write_entry meta key z t) = Ok tt \/
  W_result (write_entry meta key z t) = Raise (KeyError key) \/
  W_result (write_entry meta key z t) = Raise StructError.
Proof.
  unfold write_entry, W_bind, W_lift, W_write.
  destruct (table_get_cases meta key) as [-> | [f ->]];
    [right; left; reflexivity|].
  unfold packEntry. destruct (_ && _); cbn; auto.
Qed.

Lemma write_entry_not_IndexError meta key z t :
  W_result (write_entry meta key z t) <> Raise IndexError.
Proof.
  destruct (write_entry_result meta key z t) as [-> | [-> | ->]]; discriminate.
Qed.

Lemma W_result_bind_not {A B} (m : W A) (k : A -> W B) (e : exn) t :
  W_result (m t) <> Raise e ->
  (forall a, W_result (m t) = Ok a ->
             W_result (k a (W_state (m t))) <> Raise e) ->
  W_result (W_bind m k t) <> Raise e.
Proof.
  intros Hm Hk. rewrite W_result_bind.
  destruct (W_result (m t)) as [a|e']; [now apply Hk|].
  intros [= ->]. now apply Hm.
Qed.

Lemma write_first_not_IndexError key (l : list Z) t :
  l <> [] -> W_result (write_first key l t) <> Raise IndexError.
Proof.
  intros Hl. destruct l as [|x l]; [congruence|].
  unfold write_first.
  apply W_result_bind_not;
    [cbn [W_lift W_result fst];
     destruct (table_get_cases vertexData key) as [-> | [f ->]]; discriminate|].
  intros f _. apply W_result_bind_not;
    [cbn [W_lift W_result fst]; rewrite getitem_0_cons; discriminate|].
  intros x0 _. apply W_result_bind_not;
    [cbn [W_lift W_result fst]; unfold packEntry; destruct (_ && _); discriminate|].
  intros bs _. discriminate.
Qed.

Lemma write_first_nil key t :
  table_get vertexData key <> Raise IndexError ->
  is_ok (table_get vertexData key) = true ->
  W_result (write_first key [] t) = Raise IndexError.
Proof.
  intros _ Hk. unfold write_first. rewrite W_result_bind. cbn [W_lift W_result fst].
  destruct (table_get vertexData key); [|discriminate].
  rewrite W_result_bind. reflexivity.
Qed.

Lemma write_deltas_not_IndexError key (n : nat) (s : list Z) t :
  (n < length s)%nat -> W_result (write_deltas key n s t) <> Raise IndexError.
Proof.
  revert s t. induction n as [|n IH]; intros s t Hn; [discriminate|].
  destruct s as [|x0 [|x1 s]]; cbn [length] in Hn; try lia.
  cbn [write_deltas]. apply W_result_bind_not.
  - apply write_entry_not_IndexError.
  - intros _ _. apply IH. cbn [length]. lia.
Qed.

Section VertexSection.
Context `{Collaborators}.

Lemma write_vertices_empty (t : TerrainTile) :
  u t = [] ->
  W_result (write_vertices (Z.of_nat (length (u t))) t) = Raise IndexError.
Proof.
  intros Hu. unfold write_vertices. rewrite Hu.
  rewrite W_result_bind. cbn [W_self W_result W_state fst snd].
  rewrite W_result_bind.
  rewrite (write_entry_Ok _ _ fmt_I) by (reflexivity || (cbn; lia)).
  cbn [W_result W_state fst snd]. rewrite Hu.
  rewrite W_result_bind, write_first_nil by (discriminate || reflexivity).
  reflexivity.
Qed.

Lemma write_vertices_not_IndexError (t : TerrainTile) :
  u t <> [] ->
  length (v t) = length (u t) ->
  length (h t) = length (u t) ->
  W_result (write_vertices (Z.of_nat (length (u t))) t) <> Raise IndexError.
Proof.
  intros Hu Hv Hh.
  assert (Hn : (Z.to_nat (Z.of_nat (length (u t)) - 1) < length (u t))%nat).
  { destruct (u t); [congruence|cbn [length]; lia]. }
  assert (Hv' : v t <> []) by (destruct (v t), (u t); cbn in *; congruence).
  assert (Hh' : h t <> []) by (destruct (h t), (u t); cbn in *; congruence).
  unfold write_vertices.
  apply W_result_bind_not; [discriminate|intros self [= <-]].
  cbn [W_self W_state fst snd].
  apply W_result_bind_not; [apply write_entry_not_IndexError|intros _ _].
  rewrite (W_pure_write_entry _ _ _ t).
  apply W_result_bind_not; [now apply write_first_not_IndexError|intros _ _].
  rewrite (W_pure_write_first _ _ t).
  apply W_result_bind_not; [now apply write_deltas_not_IndexError|intros _ _].
  rewrite (W_pure_write_deltas _ _ _ t).
  apply W_result_bind_not; [now apply write_first_not_IndexError|intros _ _].
  rewrite (W_pure_write_first _ _ t).
  apply W_result_bind_not;
    [apply write_deltas_not_IndexError; now rewrite Hv|intros _ _].
  rewrite (W_pure_write_deltas _ _ _ t).
  apply W_result_bind_not; [now apply write_first_not_IndexError|intros _ _].
  rewrite (W_pure_write_first _ _ t).
  apply write_deltas_not_IndexError. now rewrite Hh.
Qed.
End VertexSection.

(** ** What the writer emits for a valid mesh *)

Lemma write_entries_words meta key fmt (xs : list Z) t :
  table_get meta key = Ok fmt ->
  Forall (fits fmt) xs ->
  write_entries meta key xs t = (Ok tt, t, words fmt xs).
Proof.
  intros Hk. induction 1 as [|x xs Hx _ IH]; [reflexivity|].
  cbn [write_entries].
  rewrite (W_bind_Ok _ _ _ _ _ _ (write_entry_Ok _ _ _ _ t Hk Hx)), IH.
  reflexivity.
Qed.

Lemma packIndices_words fmt (ind : list Z) t :
  Forall (fits fmt) ind -> packIndices fmt ind t = (Ok tt, t, words fmt ind).
Proof.
  induction 1 as [|x xs Hx _ IH]; [reflexivity|].
  cbn [packIndices]. unfold W_bind at 1. cbn [W_lift].
  rewrite (packEntry_Ok _ _ Hx). unfold W_bind at 1. cbn [W_write].
  rewrite IH. reflexivity.
Qed.

Lemma zigzag_deltas_fits (prev : Z) (l : list Z) :
  quantized prev -> Forall quantized l ->
  Forall (fits fmt_H) (zigzag_deltas prev l).
Proof.
  intros Hp Hl. revert prev Hp.
  induction Hl as [|x l Hx _ IH]; intros prev Hp; cbn [zigzag_deltas];
    constructor.
  - unfold quantized in *. apply zigZagEncode_range16. lia.
  - now apply IH.
Qed.

Lemma write_deltas_words key (x0 : Z) (rest : list Z) t :
  table_get vertexData key = Ok fmt_H ->
  Forall (fits fmt_H) (zigzag_deltas x0 rest) ->
  write_deltas key (length rest) (x0 :: rest) t
  = (Ok tt, t, words fmt_H (zigzag_deltas x0 rest)).
Proof.
  intros Hk. revert x0. induction rest as [|x1 rest IH]; intros x0 Hf.
  - reflexivity.
  - cbn [zigzag_deltas] in Hf. apply Forall_cons in Hf as [Hx Hf].
    cbn [length write_deltas].
    rewrite (W_bind_Ok _ _ _ _ _ _ (write_entry_Ok _ _ _ _ t Hk Hx)).
    rewrite (IH x1 Hf). reflexivity.
Qed.

(** One vertex stream: the first value, then the deltas. *)
Lemma write_stream_words key (l : list Z) (n : Z) t :
  table_get vertexData key = Ok fmt_H ->
  l <> [] -> n = Z.of_nat (length l) -> Forall quantized l ->
  W_bind (write_first "uVertexCount" l)
         (fun _ => write_deltas key (Z.to_nat (n - 1)) l) t
  = (Ok tt, t, words fmt_H (zigzag_deltas 0 l)).
Proof.
  intros Hk Hne -> Hq. destruct l as [|x0 rest]; [congruence|].
  pose proof (zigzag_deltas_fits 0 (x0 :: rest) ltac:(unfold quantized; lia) Hq)
    as Hf.
  cbn [zigzag_deltas] in Hf. apply Forall_cons in Hf as [Hx Hf].
  assert (Hfirst : write_first "uVertexCount" (x0 :: rest) t
                   = (Ok tt, t, le_bytes 2 (zigZagEncode (x0 - 0)))).
  { unfold write_first. unfold W_bind at 1. cbn [W_lift table_get vertexData].
    cbn [String.eqb Ascii.eqb Bool.eqb]. unfold W_bind at 1. cbn [W_lift].
    rewrite getitem_0_cons. unfold W_bind at 1. cbn [W_lift].
    replace (x0 - 0) with x0 in * by lia.
    rewrite (packEntry_Ok _ _ Hx). reflexivity. }
  rewrite (W_bind_Ok _ _ _ _ _ _ Hfirst).
  replace (Z.to_nat (Z.of_nat (length (x0 :: rest)) - 1)) with (length rest)
    by (cbn [length]; lia).
  rewrite (write_deltas_words key x0 rest t Hk Hf). reflexivity.
Qed.

Lemma index_meta_w_formats (n : Z) :
  table_get (index_meta_w n) "triangleCount" = Ok fmt_I /\
  table_get (index_meta_w n) "indices" = Ok (index_width n).
Proof. unfold index_meta_w, index_width. destruct (BYTESPLIT <? n); split; reflexivity. Qed.

Lemma edge_meta_w_formats (n : Z) :
  table_get (edge_meta_w n) "westVertexCount" = Ok fmt_I /\
  table_get (edge_meta_w n) "westIndices" = Ok (index_width n) /\
  table_get (edge_meta_w n) "southVertexCount" = Ok fmt_I /\
  table_get (edge_meta_w n) "southIndices" = Ok (index_width n) /\
  table_get (edge_meta_w n) "eastVertexCount" = Ok fmt_I /\
  table_get (edge_meta_w n) "eastIndices" = Ok (index_width n) /\
  table_get (edge_meta_w n) "northVertexCount" = Ok fmt_I /\
  table_get (edge_meta_w n) "northIndices" = Ok (index_width n).
Proof.
  unfold edge_meta_w, index_width.
  destruct (BYTESPLIT <? n); repeat split; reflexivity.
Qed.

Lemma W_bind_assoc_Ok {C} (m1 : W unit) (m2 : W unit) (k : W C)
    (t : TerrainTile) (o : list byte) :
  W_bind m1 (fun _ => m2) t = (Ok tt, t, o) ->
  W_bind m1 (fun _ => W_bind m2 (fun _ => k)) t
  = (W_result (k t), W_state (k t), o ++ W_output (k t)).
Proof.
  unfold W_bind. destruct (m1 t) as [[[[]|e] t1] o1]; [|discriminate].
  destruct (m2 t1) as [[[[]|e] t2] o2]; [|discriminate].
  intros [= -> <-]. destruct (k t) as [[r t3] o3]. cbn.
  now rewrite app_assoc.
Qed.

Lemma write_vertices_valid (t : TerrainTile) :
  valid_mesh t ->
  write_vertices (Z.of_nat (length (u t))) t = (Ok tt, t, vertex_bytes t).
Proof.
  intros V. unfold write_vertices, vertex_bytes.
  rewrite (W_bind_Ok _ _ t t t []) by reflexivity.
  rewrite (W_bind_Ok _ _ _ _ _ _
             (write_entry_Ok vertexData "vertexCount" fmt_I _ t eq_refl
                (vm_count t V))).
  cbn [W_result W_state W_output fst snd app].
  assert (Hu := write_stream_words "uVertexCount" (u t) _ t eq_refl
                  (vm_nonempty t V) eq_refl (vm_u t V)).
  assert (Hv := write_stream_words "vVertexCount" (v t)
                  (Z.of_nat (length (u t))) t eq_refl
                  ltac:(pose proof (vm_nonempty t V);
                        pose proof (vm_v_length t V);
                        destruct (v t), (u t); cbn in *; congruence)
                  ltac:(now rewrite (vm_v_length t V)) (vm_v t V)).
  assert (Hh := write_stream_words "heightVertexCount" (h t)
                  (Z.of_nat (length (u t))) t eq_refl
                  ltac:(pose proof (vm_nonempty t V);
                        pose proof (vm_h_length t V);
                        destruct (h t), (u t); cbn in *; congruence)
                  ltac:(now rewrite (vm_h_length t V)) (vm_h t V)).
  rewrite (W_bind_assoc_Ok (C := unit) _ _ _ t _ Hu).
  rewrite (W_bind_assoc_Ok (C := unit) _ _ _ t _ Hv).
  rewrite Hh. reflexivity.
Qed.

Lemma write_indices_valid (t : TerrainTile) :
  valid_mesh t ->
  write_indices (Z.of_nat (length (u t))) t = (Ok tt, t, index_bytes t).
Proof.
  intros V. unfold write_indices, index_bytes.
  destruct (index_meta_w_formats (Z.of_nat (length (u t)))) as [Hc Hi].
  rewrite (W_bind_Ok _ _ t t t []) by reflexivity.
  cbn [W_result W_state W_output fst snd app].
  rewrite (W_bind_Ok _ _ _ _ _ _
             (write_entry_Ok _ _ fmt_I _ t Hc (vm_triangle_count t V))).
  cbn [W_result W_state W_output fst snd].
  unfold W_bind. cbn [W_lift]. rewrite Hi.
  rewrite (packIndices_words _ _ t (vm_codes t V)). reflexivity.
Qed.

Lemma write_edge_block meta countKey key w (l : list Z) t :
  table_get meta countKey = Ok fmt_I ->
  table_get meta key = Ok w ->
  fits fmt_I (Z.of_nat (length l)) -> Forall (fits w) l ->
  W_bind (write_entry meta countKey (Z.of_nat (length l)))
         (fun _ => write_entries meta key l) t
  = (Ok tt, t, edge_block w l).
Proof.
  intros Hc Hk Hlen Hl.
  rewrite (W_bind_Ok _ _ _ _ _ _ (write_entry_Ok _ _ _ _ t Hc Hlen)).
  rewrite (write_entries_words _ _ _ _ t Hk Hl). reflexivity.
Qed.

Lemma write_edges_valid (t : TerrainTile) :
  valid_mesh t ->
  write_edges (Z.of_nat (length (u t))) t = (Ok tt, t, edge_bytes t).
Proof.
  intros V. unfold write_edges, edge_bytes.
  set (n := Z.of_nat (length (u t))).
  destruct (edge_meta_w_formats n)
    as (Hwc & Hw & Hsc & Hs & Hec & He & Hnc & Hn).
  destruct (vm_west t V) as [Lw Fw]. destruct (vm_south t V) as [Ls Fs].
  destruct (vm_east t V) as [Le Fe]. destruct (vm_north t V) as [Ln Fn].
  fold n in Fw, Fs, Fe, Fn.
  rewrite (W_bind_Ok _ _ t t t []) by reflexivity.
  cbn [W_result W_state W_output fst snd app].
  rewrite (W_bind_assoc_Ok (C := unit) _ _ _ t _
             (write_edge_block _ _ _ _ _ t Hwc Hw Lw Fw)).
  rewrite (W_bind_assoc_Ok (C := unit) _ _ _ t _
             (write_edge_block _ _ _ _ _ t Hsc Hs Ls Fs)).
  rewrite (W_bind_assoc_Ok (C := unit) _ _ _ t _
             (write_edge_block _ _ _ _ _ t Hec He Le Fe)).
  rewrite (write_edge_block _ _ _ _ _ t Hnc Hn Ln Fn).
  reflexivity.
Qed.

Section WriteMesh.
Context `{Collaborators}.

(** On a valid mesh, [_writeTo] writes the four mesh sections and goes on
    with the extensions. *)
Lemma writeTo_valid (t : TerrainTile) :
  valid_mesh t ->
  exists hb,
    length hb = 88%nat /\
    write_header quantizedMeshHeader t = (Ok tt, t, hb) /\
    _writeTo t =
      (let x := W_bind (write_lighting (Z.of_nat (length (u t))))
                       (fun _ => write_watermask) t in
       (W_result x, W_state x, mesh_bytes hb t ++ W_output x)).
Proof.
  intros V. destruct (write_header_packable t (vm_header t V)) as (hb & Hhb & Hlen).
  exists hb. split; [exact Hlen|split; [exact Hhb|]].
  unfold _writeTo, mesh_bytes.
  rewrite (W_bind_Ok _ _ _ _ _ _ Hhb).
  rewrite (W_bind_Ok _ _ t t t []) by reflexivity.
  cbn [W_result W_state W_output fst snd app].
  rewrite (W_bind_Ok _ _ _ _ _ _ (write_vertices_valid t V)).
  rewrite (W_bind_Ok _ _ _ _ _ _ (write_indices_valid t V)).
  rewrite (W_bind_Ok _ _ _ _ _ _ (write_edges_valid t V)).
  cbn [W_result W_state W_output fst snd].
  cbv zeta. rewrite <- !app_assoc. reflexivity.
Qed.
End WriteMesh.

(** ** The reader: what its computations maintain *)

Create HintDb rkeeps discriminated.

Section ReaderKeeps.
Variable P : TerrainTile -> Prop.

Lemma R_keeps_ret {A} (a : A) : R_keeps P (R_ret a).
Proof. intros st HP. exact HP. Qed.

Lemma R_keeps_lift {A} (r : result A) : R_keeps P (R_lift r).
Proof. intros st HP. exact HP. Qed.

Lemma R_keeps_self : R_keeps P R_self.
Proof. intros st HP. exact HP. Qed.

Lemma R_keeps_unpack (t : ifmt) : R_keeps P (R_unpack t).
Proof.
  intros st HP. unfold R_unpack.
  destruct (unpackEntry t (snd st)) as [r rest]. exact HP.
Qed.

Lemma R_keeps_unpack_float (t : ffmt) : R_keeps P (R_unpack_float t).
Proof.
  intros st HP. unfold R_unpack_float.
  destruct (unpackEntry_float t (snd st)) as [r rest]. exact HP.
Qed.

Lemma R_keeps_assign (f : TerrainTile -> TerrainTile) :
  (forall t, P t -> P (f t)) -> R_keeps P (R_assign f).
Proof. intros Hf st HP. apply Hf, HP. Qed.

Lemma R_keeps_bind {A B} (m : R A) (k : A -> R B) :
  R_keeps P m -> (forall a, R_keeps P (k a)) -> R_keeps P (R_bind m k).
Proof.
  intros Hm Hk st HP. unfold R_bind. specialize (Hm st HP).
  destruct (m st) as [[a|e] st1]; [|exact Hm].
  apply Hk. exact Hm.
Qed.

Lemma R_keeps_read_entry meta key : R_keeps P (read_entry meta key).
Proof.
  unfold read_entry. apply R_keeps_bind; [apply R_keeps_lift|].
  intros t. apply R_keeps_unpack.
Qed.
End ReaderKeeps.

#[local] Hint Resolve R_keeps_ret R_keeps_lift R_keeps_self R_keeps_unpack
  R_keeps_unpack_float R_keeps_read_entry : rkeeps.
#[local] Hint Extern 2 (R_keeps _ (R_bind _ _)) =>
  apply R_keeps_bind; [|intros ?] : rkeeps.

Section ReaderFlags.
Context `{Collaborators}.
Variable P : TerrainTile -> Prop.

Lemma R_keeps_iterVertices n t delta (yield : Z -> R unit) :
  (forall x, R_keeps P (yield x)) ->
  R_keeps P (_iterUnpackAndDecodeVertices n t delta yield).
Proof.
  intros Hy. revert delta.
  induction n as [|n IH]; intros delta; cbn; auto 6 with rkeeps.
Qed.

Lemma R_keeps_iterIndices n t (yield : Z -> R unit) :
  (forall x, R_keeps P (yield x)) ->
  R_keeps P (_iterUnpackIndices n t yield).
Proof.
  intros Hy. induction n as [|n IH]; cbn; auto 6 with rkeeps.
Qed.

Lemma R_keeps_iterIndices_list n t :
  R_keeps P (_iterUnpackIndices_list n t).
Proof. induction n as [|n IH]; cbn; auto 6 with rkeeps. Qed.

Lemma R_keeps_read_header meta :
  (forall k x t, P t -> P (set_header (header_set (header t) k x) t)) ->
  R_keeps P (read_header meta).
Proof.
  intros Hh. induction meta as [|[k v] meta IH]; cbn; auto with rkeeps.
  apply R_keeps_bind; [auto with rkeeps|intros x].
  apply R_keeps_bind; [|intros _; exact IH].
  apply R_keeps_assign. intros t. apply Hh.
Qed.
End ReaderFlags.

Section ReadMesh.
Context `{Collaborators}.

(** The mesh sections leave the flags as [fromBytesIO] set them. *)
Lemma read_mesh_flags (hl hw : bool) (st : TerrainTile * list byte) :
  flags_are hl hw (R_tile (read_mesh hl hw st)).
Proof.
  unfold read_mesh.
  set (P := flags_are hl hw).
  assert (Hassign : forall f : TerrainTile -> TerrainTile,
             (forall t, hasLighting (f t) = hasLighting t /\
                        hasWatermask (f t) = hasWatermask t) ->
             R_keeps P (R_assign f)).
  { intros f Hf. apply R_keeps_assign. intros t [H1 H2].
    destruct (Hf t) as [E1 E2]. split; congruence. }
  assert (Hrest : R_keeps P
            (R_bind (read_header quantizedMeshHeader) (fun _ =>
             R_bind read_vertices (fun vertexCount =>
             R_bind (read_indices vertexCount) (fun _ =>
             read_edges vertexCount))))).
  { apply R_keeps_bind; [|intros _].
    { apply R_keeps_read_header. intros k x t [H1 H2]. split; assumption. }
    apply R_keeps_bind; [|intros vertexCount].
    { unfold read_vertices.
      repeat (first
        [ apply R_keeps_bind; [|intros ?]
        | apply R_keeps_iterVertices; intros ?; apply Hassign; intros ?;
          split; reflexivity
        | solve [auto with rkeeps] ]). }
    apply R_keeps_bind; [|intros _].
    { unfold read_indices.
      repeat (first
        [ apply R_keeps_bind; [|intros ?]
        | apply R_keeps_iterIndices_list
        | apply Hassign; intros ?; split; reflexivity
        | solve [auto with rkeeps] ]). }
    unfold read_edges, read_edge.
    repeat (first
      [ apply R_keeps_bind; [|intros ?]
      | apply R_keeps_iterIndices; intros ?; apply Hassign; intros ?;
        split; reflexivity
      | solve [auto with rkeeps] ]). }
  unfold R_bind at 1. cbn [R_assign].
  unfold R_bind at 1. cbn [R_assign fst snd].
  apply Hrest. split; reflexivity.
Qed.

Lemma R_unpack_B_cons (t : TerrainTile) (b : byte) (rest : list byte) :
  R_unpack fmt_B (t, b :: rest) = (Ok (Z_of_byte b), (t, rest)).
Proof.
  unfold R_unpack, unpackEntry, read_bytes. cbn [isize snd fst].
  change (take 1 (b :: rest)) with (b :: take 0 rest).
  change (drop 1 (b :: rest)) with (drop 0 rest).
  rewrite take_0, drop_0. cbn [length Nat.eqb le_value].
  replace (Z_of_byte b + 256 * 0) with (Z_of_byte b) by lia. reflexivity.
Qed.

Lemma R_bind_Ok {A B} (m : R A) (k : A -> R B) st a st1 :
  m st = (Ok a, st1) -> R_bind m k st = k a st1.
Proof. intros Hm. unfold R_bind. now rewrite Hm. Qed.

Lemma R_bind_Raise {A B} (m : R A) (k : A -> R B) st e st1 :
  m st = (Raise e, st1) -> R_bind m k st = (Raise e, st1).
Proof. intros Hm. unfold R_bind. now rewrite Hm. Qed.

Lemma read_extensionId (t : TerrainTile) (b : byte) (rest : list byte) :
  read_entry ExtensionHeader "extensionId" (t, b :: rest)
  = (Ok (Z_of_byte b), (t, rest)).
Proof.
  unfold read_entry.
  rewrite (R_bind_Ok _ _ _ fmt_B (t, b :: rest)) by reflexivity.
  apply R_unpack_B_cons.
Qed.

(** An extension id other than 1 makes the reader skip the lighting block:
    one byte is consumed and nothing is raised. *)
Lemma read_lighting_mismatch (t : TerrainTile) (b : byte) (rest : list byte) :
  hasLighting t = Some true -> Z_of_byte b <> 1 ->
  read_lighting (t, b :: rest) = (Ok tt, (t, rest)).
Proof.
  intros Hl Hb. unfold read_lighting.
  rewrite (R_bind_Ok _ _ _ t (t, b :: rest)) by reflexivity.
  rewrite Hl, bool_decide_eq_true_2 by reflexivity.
  rewrite (R_bind_Ok _ _ _ _ _ (read_extensionId t b rest)).
  apply Z.eqb_neq in Hb. now rewrite Hb.
Qed.

(** An extension id other than 2 makes the reader skip the watermask
    block. *)
Lemma read_watermask_mismatch (t : TerrainTile) (b : byte) (rest : list byte) :
  hasWatermask t = true -> Z_of_byte b <> 2 ->
  read_watermask (t, b :: rest) = (Ok tt, (t, rest)).
Proof.
  intros Hw Hb. unfold read_watermask.
  rewrite (R_bind_Ok _ _ _ t (t, b :: rest)) by reflexivity.
  rewrite Hw.
  rewrite (R_bind_Ok _ _ _ _ _ (read_extensionId t b rest)).
  apply Z.eqb_neq in Hb. now rewrite Hb.
Qed.

Lemma read_lighting_undeclared (st : TerrainTile * list byte) :
  hasLighting (fst st) = Some false -> read_lighting st = (Ok tt, st).
Proof.
  intros Hl. unfold read_lighting, R_bind. cbn [R_self fst snd].
  rewrite Hl, bool_decide_eq_false_2 by discriminate. reflexivity.
Qed.

Lemma read_watermask_undeclared (st : TerrainTile * list byte) :
  hasWatermask (fst st) = false -> read_watermask st = (Ok tt, st).
Proof.
  intros Hw. unfold read_watermask, R_bind. cbn [R_self fst snd].
  rewrite Hw. reflexivity.
Qed.
End ReadMesh.

(** ** What the reader makes of the bytes of a valid mesh *)

Lemma R_unpack_word (fmt : ifmt) (z : Z) (t : TerrainTile) (rest : list byte) :
  fits fmt z ->
  R_unpack fmt (t, le_bytes (isize fmt) z ++ rest) = (Ok z, (t, rest)).
Proof.
  intros Hz. unfold R_unpack. cbn [fst snd].
  now rewrite (unpackEntry_packEntry fmt z _ rest (packEntry_Ok _ _ Hz)).
Qed.

Lemma read_entry_word meta key fmt (z : Z) (t : TerrainTile) (rest : list byte) :
  table_get meta key = Ok fmt -> fits fmt z ->
  read_entry meta key (t, le_bytes (isize fmt) z ++ rest) = (Ok z, (t, rest)).
Proof.
  intros Hk Hz. unfold read_entry, R_bind, R_lift. rewrite Hk.
  now apply R_unpack_word.
Qed.

Lemma words_cons fmt (x : Z) (xs : list Z) (rest : list byte) :
  words fmt (x :: xs) ++ rest = le_bytes (isize fmt) x ++ words fmt xs ++ rest.
Proof. unfold words. cbn [map concat]. now rewrite <- app_assoc. Qed.

Lemma iterIndices_words fmt (xs : list Z)
    (f : Z -> TerrainTile -> TerrainTile) (t : TerrainTile) (rest : list byte) :
  Forall (fits fmt) xs ->
  _iterUnpackIndices (length xs) fmt (fun x => R_assign (f x))
    (t, words fmt xs ++ rest)
  = (Ok tt, (fold_left (fun t x => f x t) xs t, rest)).
Proof.
  intros Hxs. revert t. induction Hxs as [|x xs Hx _ IH]; intros t.
  - reflexivity.
  - cbn [length _iterUnpackIndices fold_left]. rewrite words_cons.
    rewrite (R_bind_Ok _ _ _ _ _ (R_unpack_word fmt x t _ Hx)).
    unfold R_bind at 1. cbn [R_assign fst snd]. apply IH.
Qed.

Lemma iterIndices_list_words fmt (xs : list Z) (t : TerrainTile)
    (rest : list byte) :
  Forall (fits fmt) xs ->
  _iterUnpackIndices_list (length xs) fmt (t, words fmt xs ++ rest)
  = (Ok xs, (t, rest)).
Proof.
  induction 1 as [|x xs Hx _ IH]; [reflexivity|].
  cbn [length _iterUnpackIndices_list]. rewrite words_cons.
  rewrite (R_bind_Ok _ _ _ _ _ (R_unpack_word fmt x t _ Hx)).
  rewrite (R_bind_Ok _ _ _ _ _ IH). reflexivity.
Qed.

Lemma iterVertices_words (l : list Z) (prev : Z)
    (f : Z -> TerrainTile -> TerrainTile) (t : TerrainTile) (rest : list byte) :
  quantized prev -> Forall quantized l ->
  _iterUnpackAndDecodeVertices (length l) fmt_H prev (fun x => R_assign (f x))
    (t, words fmt_H (zigzag_deltas prev l) ++ rest)
  = (Ok tt, (fold_left (fun t x => f x t) l t, rest)).
Proof.
  intros Hp Hl. revert prev t Hp.
  induction Hl as [|x l Hx Hl IH]; intros prev t Hp.
  - reflexivity.
  - cbn [length _iterUnpackAndDecodeVertices fold_left zigzag_deltas].
    rewrite words_cons.
    assert (Hfit : fits fmt_H (zigZagEncode (x - prev))).
    { unfold quantized in *. apply zigZagEncode_range16. lia. }
    rewrite (R_bind_Ok _ _ _ _ _ (R_unpack_word fmt_H _ t _ Hfit)).
    assert (Hrange : - 2 ^ 31 <= x - prev < 2 ^ 31).
    { destruct Hp, Hx. change (2 ^ 31) with 2147483648. lia. }
    rewrite (zigZag_roundtrip _ Hrange).
    replace (prev + (x - prev)) with x by lia.
    unfold R_bind at 1. cbn [R_assign fst snd]. now apply IH.
Qed.

Section Append.
Context {X : Type}.
Variables (get : TerrainTile -> list X)
          (set : list X -> TerrainTile -> TerrainTile).
Hypothesis get_set : forall l t, get (set l t) = l.
Hypothesis set_set : forall l l' t, set l (set l' t) = set l t.
Hypothesis set_get : forall t, set (get t) t = t.

(** Appending the yielded values one by one appends the list. *)
Lemma fold_left_append (xs : list X) (t : TerrainTile) :
  fold_left (fun t x => set (get t ++ [x]) t) xs t = set (get t ++ xs) t.
Proof.
  revert t. induction xs as [|x xs IH]; intros t; cbn [fold_left].
  - now rewrite app_nil_r, set_get.
  - rewrite IH, get_set, set_set, <- app_assoc. reflexivity.
Qed.
End Append.

Lemma unpackEntry_float_enough (v : ffmt) (s : list byte) :
  (fsize v <= length s)%nat ->
  exists x, unpackEntry_float v s = (Ok x, drop (fsize v) s).
Proof.
  intros Hlen. unfold unpackEntry_float, read_bytes.
  rewrite length_take, Nat.min_l by exact Hlen. rewrite Nat.eqb_refl.
  destruct v; eauto.
Qed.

(** Reading the header consumes its bytes and assigns the header only. *)
Lemma read_header_enough (meta : table ffmt) (t : TerrainTile) (s : list byte) :
  (sum_list (map (fun kv => fsize (snd kv)) meta) <= length s)%nat ->
  exists hd,
    read_header meta (t, s)
    = (Ok tt, (set_header hd t,
               drop (sum_list (map (fun kv => fsize (snd kv)) meta)) s)).
Proof.
  revert t s. induction meta as [|[k v] meta IH]; intros t s Hlen.
  - exists (header t). cbn. now destruct t.
  - change (sum_list (map (fun kv => fsize (snd kv)) ((k, v) :: meta)))
      with (fsize v + sum_list (map (fun kv => fsize (snd kv)) meta))%nat in *.
    destruct (unpackEntry_float_enough v s ltac:(lia)) as [x Hx].
    cbn [read_header].
    assert (Hun : R_unpack_float v (t, s) = (Ok x, (t, drop (fsize v) s))).
    { unfold R_unpack_float. cbn [fst snd]. now rewrite Hx. }
    rewrite (R_bind_Ok _ _ _ _ _ Hun).
    unfold R_bind at 1. cbn [R_assign fst snd].
    destruct (IH (set_header (header_set (header t) k x) t)
                 (drop (fsize v) s)) as [hd Hhd].
    { rewrite length_drop. lia. }
    exists hd. rewrite Hhd, drop_drop. now destruct t.
Qed.

Lemma read_vertices_valid (tt0 t : TerrainTile) (rest : list byte) :
  valid_mesh tt0 ->
  read_vertices (t, vertex_bytes tt0 ++ rest)
  = (Ok (Z.of_nat (length (u tt0))),
     (set_h (h t ++ h tt0) (set_v (v t ++ v tt0) (set_u (u t ++ u tt0) t)),
      rest)).
Proof.
  intros V. unfold read_vertices, vertex_bytes. rewrite <- !app_assoc.
  rewrite (R_bind_Ok _ _ _ _ _
             (read_entry_word vertexData "vertexCount" fmt_I _ t _ eq_refl
                (vm_count tt0 V))).
  rewrite Nat2Z.id.
  assert (Q0 : quantized 0) by (unfold quantized; lia).
  rewrite (R_bind_Ok _ _ _ fmt_H (t, _)) by reflexivity.
  rewrite (R_bind_Ok _ _ _ _ _
             (iterVertices_words (u tt0) 0 _ t _ Q0 (vm_u tt0 V))).
  rewrite (fold_left_append u set_u ltac:(reflexivity) ltac:(reflexivity)
             ltac:(intros []; reflexivity)).
  rewrite (R_bind_Ok _ _ _ fmt_H (_, _)) by reflexivity.
  rewrite <- (vm_v_length tt0 V).
  rewrite (R_bind_Ok _ _ _ _ _
             (iterVertices_words (v tt0) 0 _ _ _ Q0 (vm_v tt0 V))).
  rewrite (fold_left_append v set_v ltac:(reflexivity) ltac:(reflexivity)
             ltac:(intros []; reflexivity)).
  rewrite (R_bind_Ok _ _ _ fmt_H (_, _)) by reflexivity.
  rewrite (vm_v_length tt0 V), <- (vm_h_length tt0 V).
  rewrite (R_bind_Ok _ _ _ _ _
             (iterVertices_words (h tt0) 0 _ _ _ Q0 (vm_h tt0 V))).
  rewrite (fold_left_append h set_h ltac:(reflexivity) ltac:(reflexivity)
             ltac:(intros []; reflexivity)).
  rewrite (vm_h_length tt0 V). reflexivity.
Qed.

Lemma index_meta_r_formats (n : Z) :
  table_get (index_meta_r n) "triangleCount" = Ok fmt_I /\
  table_get (index_meta_r n) "indices" = Ok (index_width n).
Proof.
  unfold index_meta_r, index_width.
  destruct (BYTESPLIT <? n); split; reflexivity.
Qed.

Lemma read_indices_valid (tt0 t : TerrainTile) (rest : list byte) :
  valid_mesh tt0 ->
  read_indices (Z.of_nat (length (u tt0))) (t, index_bytes tt0 ++ rest)
  = (Ok tt, (set_indices (indices tt0) t, rest)).
Proof.
  intros V. unfold read_indices, index_bytes. rewrite <- !app_assoc.
  destruct (index_meta_r_formats (Z.of_nat (length (u tt0)))) as [Hc Hi].
  rewrite (R_bind_Ok _ _ _ _ _
             (read_entry_word _ "triangleCount" fmt_I _ t _ Hc
                (vm_triangle_count tt0 V))).
  unfold R_bind at 1. cbn [R_lift]. rewrite Hi.
  replace (Z.to_nat (Z.of_nat (length (indices tt0)) / 3 * 3))
    with (length (encodeIndices (indices tt0))).
  - rewrite (R_bind_Ok _ _ _ _ _
               (iterIndices_list_words _ _ t rest (vm_codes tt0 V))).
    unfold R_assign. cbn [fst snd]. now rewrite decodeIndices_encodeIndices.
  - unfold encodeIndices. rewrite length_encodeIndices_from.
    pose proof (vm_triangles tt0 V) as Hm.
    pose proof (Z.div_mod (Z.of_nat (length (indices tt0))) 3 ltac:(lia)).
    lia.
Qed.

Lemma read_edge_block meta countKey key w (l : list Z)
    (get : TerrainTile -> list Z) (set : list Z -> TerrainTile -> TerrainTile)
    (t : TerrainTile) (rest : list byte) :
  (forall l t, get (set l t) = l) ->
  (forall l l' t, set l (set l' t) = set l t) ->
  (forall t, set (get t) t = t) ->
  table_get meta countKey = Ok fmt_I ->
  table_get meta key = Ok w ->
  fits fmt_I (Z.of_nat (length l)) -> Forall (fits w) l ->
  read_edge meta countKey key (fun i t => set (get t ++ [i]) t)
    (t, edge_block w l ++ rest)
  = (Ok tt, (set (get t ++ l) t, rest)).
Proof.
  intros G1 G2 G3 Hc Hk Hlen Hl. unfold read_edge, edge_block.
  rewrite <- app_assoc.
  rewrite (R_bind_Ok _ _ _ _ _ (read_entry_word _ _ fmt_I _ t _ Hc Hlen)).
  unfold R_bind at 1. cbn [R_lift]. rewrite Hk, Nat2Z.id.
  rewrite (iterIndices_words w l _ t rest Hl).
  now rewrite (fold_left_append get set G1 G2 G3).
Qed.

(** The edge blocks of a tile of at most [BYTESPLIT] vertices are read
    back. *)
Lemma read_edges_narrow (tt0 t : TerrainTile) (rest : list byte) :
  valid_mesh tt0 ->
  Z.of_nat (length (u tt0)) <= BYTESPLIT ->
  read_edges (Z.of_nat (length (u tt0))) (t, edge_bytes tt0 ++ rest)
  = (Ok tt,
     (set_northI (northI t ++ northI tt0)
        (set_eastI (eastI t ++ eastI tt0)
           (set_southI (southI t ++ southI tt0)
              (set_westI (westI t ++ westI tt0) t))),
      rest)).
Proof.
  intros V Hn. unfold read_edges, edge_bytes, edge_meta_r, index_width.
  destruct (vm_west tt0 V) as [Lw Fw]. destruct (vm_south tt0 V) as [Ls Fs].
  destruct (vm_east tt0 V) as [Le Fe]. destruct (vm_north tt0 V) as [Ln Fn].
  unfold index_width in Fw, Fs, Fe, Fn.
  replace (BYTESPLIT <? Z.of_nat (length (u tt0))) with false in *
    by (symmetry; apply Z.ltb_ge; lia).
  rewrite <- !app_assoc.
  rewrite (R_bind_Ok _ _ _ _ _
             (read_edge_block EdgeIndices16 "westVertexCount" "westIndices" fmt_H _ westI set_westI t _
                ltac:(reflexivity) ltac:(reflexivity)
                ltac:(intros []; reflexivity) eq_refl eq_refl Lw Fw)).
  rewrite (R_bind_Ok _ _ _ _ _
             (read_edge_block EdgeIndices16 "southVertexCount" "southIndices" fmt_H _ southI set_southI _ _
                ltac:(reflexivity) ltac:(reflexivity)
                ltac:(intros []; reflexivity) eq_refl eq_refl Ls Fs)).
  rewrite (R_bind_Ok _ _ _ _ _
             (read_edge_block EdgeIndices16 "eastVertexCount" "eastIndices" fmt_H _ eastI set_eastI _ _
                ltac:(reflexivity) ltac:(reflexivity)
                ltac:(intros []; reflexivity) eq_refl eq_refl Le Fe)).
  rewrite (read_edge_block EdgeIndices16 "northVertexCount" "northIndices" fmt_H _ northI set_northI _ _
             ltac:(reflexivity) ltac:(reflexivity)
             ltac:(intros []; reflexivity) eq_refl eq_refl Ln Fn).
  reflexivity.
Qed.

(** Beyond [BYTESPLIT] vertices the reader looks the edge keys up in
    [indexData32], which does not have them. *)
Lemma read_edges_wide (n : Z) (st : TerrainTile * list byte) :
  BYTESPLIT < n ->
  read_edges n st = (Raise (KeyError "westVertexCount"), st).
Proof.
  intros Hn. unfold read_edges, edge_meta_r.
  replace (BYTESPLIT <? n) with true by (symmetry; apply Z.ltb_lt; lia).
  reflexivity.
Qed.

(** ** The mesh sections, read back *)

Lemma read_mesh_header (hl hw : bool) (t0 : TerrainTile)
    (hb s : list byte) :
  length hb = 88%nat ->
  exists hd,
    (R_bind (R_assign (set_hasLighting (Some hl))) (fun _ =>
     R_bind (R_assign (set_hasWatermask hw)) (fun _ =>
     read_header quantizedMeshHeader))) (t0, hb ++ s)
    = (Ok tt,
       (set_header hd (set_hasWatermask hw (set_hasLighting (Some hl) t0)),
        s)).
Proof.
  intros Hlen.
  destruct (read_header_enough quantizedMeshHeader
              (set_hasWatermask hw (set_hasLighting (Some hl) t0)) (hb ++ s))
    as [hd Hhd].
  { rewrite length_app, Hlen. cbn. lia. }
  exists hd. unfold R_bind at 1 2, R_assign at 1 2. cbn [fst snd].
  rewrite Hhd. f_equal. f_equal.
  change (sum_list (map (fun kv => fsize (snd kv)) quantizedMeshHeader))
    with 88%nat.
  rewrite <- Hlen. now rewrite drop_app_length.
Qed.

Lemma R_bind_assoc {A B C} (m : R A) (k : A -> R B) (k' : B -> R C) st :
  R_bind (R_bind m k) k' st = R_bind m (fun a => R_bind (k a) k') st.
Proof.
  unfold R_bind. destruct (m st) as [[a|e] st1]; reflexivity.
Qed.

(** The vertices and the triangles of a valid mesh are read back, whatever
    the number of vertices; the reader is then at the edge blocks. *)
Lemma read_mesh_to_edges (hl hw : bool) (t t0 : TerrainTile)
    (hb rest : list byte) :
  valid_mesh t -> length hb = 88%nat ->
  exists hd,
    read_mesh hl hw (t0, mesh_bytes hb t ++ rest)
    = read_edges (Z.of_nat (length (u t)))
        (set_indices (indices t)
           (set_h (h t0 ++ h t)
              (set_v (v t0 ++ v t)
                 (set_u (u t0 ++ u t)
                    (set_header hd
                       (set_hasWatermask hw
                          (set_hasLighting (Some hl) t0)))))),
         edge_bytes t ++ rest).
Proof.
  intros V Hlen. unfold mesh_bytes. rewrite <- !app_assoc.
  destruct (read_mesh_header hl hw t0 hb
              (vertex_bytes t ++ index_bytes t ++ edge_bytes t ++ rest) Hlen)
    as [hd Hhd].
  exists hd. unfold read_mesh.
  rewrite <- !R_bind_assoc.
  rewrite !R_bind_assoc.
  unfold R_bind at 1 2, R_assign at 1 2. cbn [fst snd].
  unfold R_bind at 1 2, R_assign at 1 2 in Hhd. cbn [fst snd] in Hhd.
  rewrite (R_bind_Ok _ _ _ _ _ Hhd).
  rewrite (R_bind_Ok _ _ _ _ _ (read_vertices_valid t _ _ V)).
  rewrite (R_bind_Ok _ _ _ _ _ (read_indices_valid t _ _ V)).
  reflexivity.
Qed.

(** With at most [BYTESPLIT] vertices the whole mesh is read back. *)
Lemma read_mesh_narrow (hl hw : bool) (t t0 : TerrainTile)
    (hb rest : list byte) :
  valid_mesh t -> length hb = 88%nat ->
  Z.of_nat (length (u t)) <= BYTESPLIT ->
  exists hd,
    read_mesh hl hw (t0, mesh_bytes hb t ++ rest)
    = (Ok tt, (mesh_read hl hw hd t t0, rest)).
Proof.
  intros V Hlen Hn.
  destruct (read_mesh_to_edges hl hw t t0 hb rest V Hlen) as [hd Hhd].
  exists hd. rewrite Hhd, (read_edges_narrow t _ rest V Hn). reflexivity.
Qed.

(** With more vertices the reader stops at the first edge block. *)
Lemma read_mesh_wide (hl hw : bool) (t t0 : TerrainTile)
    (hb rest : list byte) :
  valid_mesh t -> length hb = 88%nat ->
  BYTESPLIT < Z.of_nat (length (u t)) ->
  exists t1,
    read_mesh hl hw (t0, mesh_bytes hb t ++ rest)
    = (Raise (KeyError "westVertexCount"), (t1, edge_bytes t ++ rest)) /\
    u t1 = u t0 ++ u t /\ v t1 = v t0 ++ v t /\ h t1 = h t0 ++ h t /\
    indices t1 = indices t /\ edges_are (westI t0) (southI t0) (eastI t0)
                                (northI t0) t1.
Proof.
  intros V Hlen Hn.
  destruct (read_mesh_to_edges hl hw t t0 hb rest V Hlen) as [hd Hhd].
  eexists. rewrite Hhd, (read_edges_wide _ _ Hn).
  split; [reflexivity|]. repeat split.
Qed.

(** What the mesh sections leave of the extensions of the tile being
    read. *)
Lemma mesh_read_extensions (hl hw : bool) (hd : Header) (t t0 : TerrainTile) :
  hasLighting (mesh_read hl hw hd t t0) = Some hl /\
  hasWatermask (mesh_read hl hw hd t t0) = hw /\
  vLight (mesh_read hl hw hd t t0) = vLight t0 /\
  watermask (mesh_read hl hw hd t t0) = watermask t0.
Proof. unfold mesh_read. repeat split; reflexivity. Qed.

(** The mesh of the tile being read. *)
Lemma mesh_read_mesh (hl hw : bool) (hd : Header) (t t0 : TerrainTile) :
  let t1 := mesh_read hl hw hd t t0 in
  u t1 = u t0 ++ u t /\ v t1 = v t0 ++ v t /\ h t1 = h t0 ++ h t /\
  indices t1 = indices t /\
  westI t1 = westI t0 ++ westI t /\ southI t1 = southI t0 ++ southI t /\
  eastI t1 = eastI t0 ++ eastI t /\ northI t1 = northI t0 ++ northI t.
Proof. unfold mesh_read. repeat split; reflexivity. Qed.

(** ** A tile of more than [BYTESPLIT] vertices *)

Lemma wide_tile_count : Z.of_nat (length (u wide_tile)) = 65637.
Proof.
  change (u wide_tile)
    with (u square_tile ++ replicate (Z.to_nat 65632) 16384).
  rewrite length_app, length_replicate, Nat2Z.inj_add, Z2Nat.id by lia.
  reflexivity.
Qed.

Lemma Forall_quantized_more (l : list Z) (n : nat) :
  Forall quantized l -> Forall quantized (l ++ replicate n 16384).
Proof.
  intros Hl. apply Forall_app. split; [exact Hl|].
  apply Forall_replicate. unfold quantized. lia.
Qed.

Lemma fits_I_check (z : Z) :
  (0 <=? z) && (z <? 4294967296) = true -> fits fmt_I z.
Proof.
  intros Hb. apply andb_true_iff in Hb as [H1 H2].
  apply Z.leb_le in H1. apply Z.ltb_lt in H2.
  unfold fits. change (256 ^ Z.of_nat (isize fmt_I)) with 4294967296. lia.
Qed.

Lemma Forall_fits_I (l : list Z) :
  forallb (fun z => (0 <=? z) && (z <? 4294967296)) l = true ->
  Forall (fits fmt_I) l.
Proof.
  intros Hl. apply Forall_forall. intros z Hz.
  apply list_elem_of_In in Hz.
  exact (fits_I_check z (proj1 (forallb_forall _ l) Hl z Hz)).
Qed.

Lemma wide_tile_valid : valid_mesh wide_tile.
Proof.
  assert (Hq : forall l, forallb (fun z => (0 <=? z) && (z <=? 32767)) l = true
                         -> Forall quantized l).
  { intros l Hl. apply Forall_forall. intros z Hz.
    apply list_elem_of_In in Hz.
    pose proof (proj1 (forallb_forall _ l) Hl z Hz) as Hb.
    apply andb_true_iff in Hb as [H1 H2].
    apply Z.leb_le in H1. apply Z.leb_le in H2. unfold quantized. lia. }
  assert (Hlen : forall l : list Z,
             length (l ++ replicate (Z.to_nat 65632) 16384)
             = (length l + Z.to_nat 65632)%nat).
  { intros l. now rewrite length_app, length_replicate. }
  constructor; rewrite ?wide_tile_count;
    change (index_width 65637) with fmt_I.
  - reflexivity.
  - change (u wide_tile)
      with (u square_tile ++ replicate (Z.to_nat 65632) 16384).
    intros E. apply (f_equal (@length Z)) in E. rewrite Hlen in E.
    cbn [length] in E. lia.
  - unfold fits. change (256 ^ Z.of_nat (isize fmt_I)) with 4294967296. lia.
  - change (length (v square_tile ++ replicate (Z.to_nat 65632) 16384)
            = length (u square_tile ++ replicate (Z.to_nat 65632) 16384)).
    now rewrite !Hlen.
  - change (length (h square_tile ++ replicate (Z.to_nat 65632) 16384)
            = length (u square_tile ++ replicate (Z.to_nat 65632) 16384)).
    now rewrite !Hlen.
  - apply (Forall_quantized_more (u square_tile)), Hq. reflexivity.
  - apply (Forall_quantized_more (v square_tile)), Hq. reflexivity.
  - apply (Forall_quantized_more (h square_tile)), Hq. reflexivity.
  - reflexivity.
  - apply fits_I_check. reflexivity.
  - apply Forall_fits_I. reflexivity.
  - split; [apply fits_I_check|apply Forall_fits_I]; reflexivity.
  - split; [apply fits_I_check|apply Forall_fits_I]; reflexivity.
  - split; [apply fits_I_check|apply Forall_fits_I]; reflexivity.
  - split; [apply fits_I_check|apply Forall_fits_I]; reflexivity.
Qed.

Section RoundTrip.
Context `{Collaborators}.

(** A tile without normals and without watermask writes no extension. *)
Lemma write_extensions_none (t : TerrainTile) (n : Z) :
  vLight t = [] -> watermask t = [] ->
  W_bind (write_lighting n) (fun _ => write_watermask) t = (Ok tt, t, []).
Proof.
  intros Hl Hw.
  assert (E1 : write_lighting n t = (Ok tt, t, [])).
  { unfold write_lighting. rewrite (W_bind_Ok _ _ t t t []) by reflexivity.
    rewrite Hl. reflexivity. }
  assert (E2 : write_watermask t = (Ok tt, t, [])).
  { unfold write_watermask. rewrite (W_bind_Ok _ _ t t t []) by reflexivity.
    rewrite Hw. reflexivity. }
  rewrite (W_bind_Ok _ _ _ _ _ _ E1), E2. reflexivity.
Qed.

(** A valid tile without extensions is written as its mesh sections and is
    left as it was. *)
Lemma writeTo_no_extension (t : TerrainTile) :
  valid_mesh t -> vLight t = [] -> watermask t = [] ->
  exists hb, length hb = 88%nat /\ _writeTo t = (Ok tt, t, mesh_bytes hb t).
Proof.
  intros V Hl Hw.
  destruct (writeTo_valid t V) as (hb & Hlen & _ & Hwr).
  cbv zeta in Hwr.
  rewrite (write_extensions_none t (Z.of_nat (length (u t))) Hl Hw) in Hwr.
  cbn [W_result W_state W_output fst snd] in Hwr.
  rewrite app_nil_r in Hwr. now exists hb.
Qed.

(** The bytes of a valid tile that has more than [BYTESPLIT] vertices are
    not read back: the reader raises at the first edge block, whatever
    follows the mesh sections. *)
Lemma fromBytesIO_wide (hl hw : bool) (t t0 : TerrainTile)
    (hb rest : list byte) :
  valid_mesh t -> length hb = 88%nat ->
  BYTESPLIT < Z.of_nat (length (u t)) ->
  R_result (fromBytesIO hl hw (t0, mesh_bytes hb t ++ rest))
  = Raise (KeyError "westVertexCount").
Proof.
  intros V Hlen Hn.
  destruct (read_mesh_wide hl hw t t0 hb rest V Hlen Hn) as (t1 & Hr & _).
  unfold fromBytesIO. now rewrite (R_bind_Raise _ _ _ _ _ Hr).
Qed.

(** The bytes of a valid tile of at most [BYTESPLIT] vertices that has no
    extension are read back: vertices, triangles and edges as they were. *)
Lemma fromBytesIO_narrow (t t0 : TerrainTile) :
  valid_mesh t -> vLight t = [] -> watermask t = [] ->
  Z.of_nat (length (u t)) <= BYTESPLIT ->
  exists bytes hd,
    _writeTo t = (Ok tt, t, bytes) /\
    fromBytesIO false false (t0, bytes)
    = (Ok tt, (mesh_read false false hd t t0, [])).
Proof.
  intros V Hl Hw Hn.
  destruct (writeTo_no_extension t V Hl Hw) as (hb & Hlen & Hwr).
  destruct (read_mesh_narrow false false t t0 hb [] V Hlen Hn) as [hd Hr].
  rewrite app_nil_r in Hr.
  exists (mesh_bytes hb t), hd. split; [exact Hwr|].
  unfold fromBytesIO. rewrite (R_bind_Ok _ _ _ _ _ Hr).
  destruct (mesh_read_extensions false false hd t t0) as (Fl & Fw & _).
  rewrite (R_bind_Ok _ _ _ _ _ (read_lighting_undeclared (_, []) Fl)).
  exact (read_watermask_undeclared (_, []) Fw).
Qed.
End RoundTrip.

(** ** Quantization *)

(** A float that [is_finite] is a zero or a finite number of [SpecFloat]. *)
Lemma is_finite_Prim2SF (x : float) :
  is_finite x = true ->
  (exists s, Prim2SF x = S754_zero s) \/
  (exists s m e, Prim2SF x = S754_finite s m e).
Proof.
  unfold is_finite, is_nan, is_infinity.
  rewrite !FloatAxioms.eqb_spec, FloatAxioms.abs_spec. intros Hf.
  destruct (Prim2SF x) as [s| s | |s m e] eqn:E; eauto.
  - exfalso. destruct s; cbn in Hf; discriminate.
  - exfalso. cbn in Hf. discriminate.
Qed.

Lemma Pos_compare_cont_Eq_eq (m1 m2 : positive) :
  Pos.compare_cont Eq m1 m2 = Eq -> m1 = m2.
Proof. apply Pos.compare_eq. Qed.

(** The difference of two equal finite floats is a zero. *)
Lemma sub_eq_zero (x y : float) :
  is_finite x = true -> (x =? y)%float = true -> (x - y =? 0)%float = true.
Proof.
  intros Hf Heq. rewrite FloatAxioms.eqb_spec in Heq.
  rewrite FloatAxioms.eqb_spec, FloatAxioms.sub_spec.
  change (Prim2SF 0) with (S754_zero false).
  unfold SF64sub, SFsub.
  destruct (is_finite_Prim2SF x Hf) as [[s Ex] | (s & m & e & Ex)];
    rewrite Ex in *.
  - destruct (Prim2SF y) as [s'| s' | |s' m' e'];
      try (destruct s'; cbn in Heq; discriminate); try (cbn in Heq; discriminate).
    destruct s, s'; reflexivity.
  - destruct (Prim2SF y) as [s'| s' | |s' m' e'];
      try (destruct s, s'; cbn in Heq; discriminate);
      try (destruct s; cbn in Heq; discriminate).
    unfold SFeqb, SFcompare in Heq.
    assert (Hs : s = s') by (destruct s, s'; congruence).
    subst s'.
    assert (He : e = e').
    { destruct s; destruct (Z.compare e e') eqn:Ec; try discriminate;
        now apply Z.compare_eq. }
    subst e'.
    assert (Hm : m = m').
    { rewrite Z.compare_refl in Heq. apply Pos_compare_cont_Eq_eq.
      destruct s; destruct (Pos.compare_cont Eq m m'); cbn in Heq;
        congruence. }
    subst m'.
    rewrite Z.min_id. unfold shl_align. rewrite Z.sub_diag. cbn [fst].
    reflexivity.
Qed.

Lemma truthy_zero (d : float) : (d =? 0)%float = true -> truthy (Some d) = false.
Proof. intros Hd. cbn. now rewrite Hd. Qed.

(** On a flat tile [_getDeltaHeight] returns the zero range and caches
    it. *)
Lemma getDeltaHeight_flat (t : TerrainTile) :
  is_finite (maximumHeight (header t)) = true ->
  (maximumHeight (header t) =? minimumHeight (header t))%float = true ->
  deltaHeight_coherent t ->
  _getDeltaHeight t =
    (Ok (maximumHeight (header t) - minimumHeight (header t))%float,
     set_deltaHeight
       (Some (maximumHeight (header t) - minimumHeight (header t))%float) t).
Proof.
  intros Hfin Heq Hcoh.
  pose proof (sub_eq_zero _ _ Hfin Heq) as Hz.
  assert (Hfalsy : truthy (_deltaHeight t) = false).
  { unfold deltaHeight_coherent in Hcoh.
    destruct (_deltaHeight t) as [d|]; [|reflexivity].
    subst d. now apply truthy_zero. }
  unfold _getDeltaHeight, T_bind at 1. cbn [T_self].
  rewrite Hfalsy. cbn. reflexivity.
Qed.

(** ** The lighting extension *)

Lemma write_entry_inv meta key (z : Z) (t t' : TerrainTile) (o : list byte) :
  write_entry meta key z t = (Ok tt, t', o) ->
  t' = t /\
  exists fmt, table_get meta key = Ok fmt /\ fits fmt z /\
              o = le_bytes (isize fmt) z.
Proof.
  unfold write_entry, W_bind, W_lift, W_write.
  destruct (table_get meta key) as [fmt|e]; [|discriminate].
  unfold packEntry.
  destruct ((0 <=? z) && (z <? 256 ^ Z.of_nat (isize fmt))) eqn:E;
    [|discriminate].
  intros [= <- <-]. split; [reflexivity|]. exists fmt.
  apply andb_true_iff in E as [E1 E2].
  apply Z.leb_le in E1. apply Z.ltb_lt in E2.
  repeat split; auto.
Qed.

Section Lighting.
Context `{Collaborators}.

(** When the normals are written, two bytes are written for each. *)
Lemma write_normals_inv (n : nat) (s : list vec3) (t t' : TerrainTile)
    (o : list byte) :
  write_normals n s t = (Ok tt, t', o) ->
  t' = t /\ length o = (2 * n)%nat.
Proof.
  revert s t' o. induction n as [|n IH]; intros s t' o.
  - cbn. intros [= <- <-]. auto.
  - destruct s as [|normal s]; [discriminate|]. cbn [write_normals].
    intros Hrun.
    apply W_bind_Ok_inv in Hrun as (xy & t1 & o1 & o2 & H1 & Hrun & ->).
    unfold W_lift in H1. injection H1 as _ <- <-.
    apply W_bind_Ok_inv in Hrun as ([] & t2 & o2' & o3 & H2 & Hrun & ->).
    apply write_entry_inv in H2 as (-> & fx & Hfx & _ & ->).
    apply W_bind_Ok_inv in Hrun as ([] & t3 & o3' & o4 & H3 & Hrun & ->).
    apply write_entry_inv in H3 as (-> & fy & Hfy & _ & ->).
    apply IH in Hrun as (-> & Hlen).
    injection Hfx as <-. injection Hfy as <-.
    split; [reflexivity|].
    rewrite !length_app, !length_le_bytes, Hlen. cbn [length isize]. lia.
Qed.

(** What [_writeTo] writes for the normals, when it returns. *)
Lemma write_lighting_inv (n : Z) (t t' : TerrainTile) (o : list byte) :
  write_lighting n t = (Ok tt, t', o) ->
  (has_normals t = false /\ t' = t /\ o = []) \/
  (has_normals t = true /\ t' = set_hasLighting (Some true) t /\
   fits fmt_I (2 * n) /\
   exists o', o = le_bytes 1 1 ++ le_bytes 4 (2 * n) ++ o' /\
              length o' = (2 * Z.to_nat n)%nat).
Proof.
  unfold write_lighting, has_normals. intros Hrun.
  apply W_bind_Ok_inv in Hrun as (self & t1 & o1 & o2 & H1 & Hrun & ->).
  unfold W_self in H1. injection H1 as <- <- <-.
  destruct (0 <? Z.of_nat (length (vLight t))).
  - right.
    apply W_bind_Ok_inv in Hrun as ([] & t2 & o2' & o3 & H2 & Hrun & ->).
    unfold W_assign in H2. injection H2 as <- <-.
    apply W_bind_Ok_inv in Hrun as ([] & t3 & o3' & o4 & H3 & Hrun & ->).
    apply write_entry_inv in H3 as (-> & f1 & Hf1 & _ & ->).
    apply W_bind_Ok_inv in Hrun as ([] & t4 & o4' & o5 & H4 & Hrun & ->).
    apply write_entry_inv in H4 as (-> & f2 & Hf2 & Hfit & ->).
    apply write_normals_inv in Hrun as (-> & Hlen).
    injection Hf1 as <-. injection Hf2 as <-.
    split; [reflexivity|]. split; [reflexivity|]. split; [exact Hfit|].
    exists o5. split; [reflexivity|exact Hlen].
  - left. unfold W_ret in Hrun. injection Hrun as <- <-. auto.
Qed.

Lemma set_vLight_twice (l l' : list vec3) (t : TerrainTile) :
  set_vLight l (set_vLight l' t) = set_vLight l t.
Proof. reflexivity. Qed.

(** Any [2 * n] bytes are read as [n] normals. *)
Lemma light_loop_bytes (n : nat) (o rest : list byte) (t : TerrainTile) :
  octDecode_total -> length o = (2 * n)%nat ->
  exists l,
    light_loop n fmt_B
      (fun xy => R_assign (fun t => set_vLight (vLight t ++ [xy]) t))
      (t, o ++ rest)
    = (Ok tt, (set_vLight (vLight t ++ l) t, rest)).
Proof.
  intros Htotal. revert o t. induction n as [|n IH]; intros o t Hlen.
  - destruct o; [|discriminate]. exists []. cbn.
    rewrite app_nil_r. now destruct t.
  - destruct o as [|b1 [|b2 o]]; try (cbn in Hlen; lia).
    cbn [light_loop app].
    rewrite (R_bind_Ok _ _ _ _ _ (R_unpack_B_cons t b1 _)).
    rewrite (R_bind_Ok _ _ _ _ _ (R_unpack_B_cons t b2 _)).
    pose proof (Htotal (Z_of_byte b1) (Z_of_byte b2)) as Hdec.
    destruct (octDecode (Z_of_byte b1) (Z_of_byte b2)) as [xy|e] eqn:E.
    2:{ exfalso. cbn in Hdec.
        assert (false = true); [|discriminate].
        apply Hdec; unfold fits; cbn [isize];
          change (256 ^ Z.of_nat 1) with 256; apply Z_of_byte_range. }
    rewrite (R_bind_Ok _ _ _ xy (t, o ++ rest)) by reflexivity.
    unfold R_bind at 1, R_assign at 1. cbn [fst snd].
    destruct (IH o (set_vLight (vLight t ++ [xy]) t)) as [l Hl].
    { cbn [length] in Hlen. lia. }
    exists (xy :: l). rewrite Hl. f_equal. f_equal.
    change (vLight (set_vLight (vLight t ++ [xy]) t)) with (vLight t ++ [xy]).
    rewrite set_vLight_twice, <- app_assoc. reflexivity.
Qed.

(** A declared lighting extension of [n] normals is read back. *)
Lemma read_lighting_bytes (n : Z) (o rest : list byte) (t : TerrainTile) :
  octDecode_total ->
  hasLighting t = Some true -> 0 <= n -> fits fmt_I (2 * n) ->
  length o = (2 * Z.to_nat n)%nat ->
  exists l,
    read_lighting (t, (le_bytes 1 1 ++ le_bytes 4 (2 * n) ++ o) ++ rest)
    = (Ok tt, (set_vLight (vLight t ++ l) t, rest)).
Proof.
  intros Htotal Hl Hn Hfit Hlen. unfold read_lighting.
  rewrite (R_bind_Ok _ _ _ t (t, _)) by reflexivity.
  rewrite Hl, bool_decide_eq_true_2 by reflexivity.
  rewrite <- !app_assoc.
  rewrite (R_bind_Ok _ _ _ _ _
             (read_entry_word ExtensionHeader "extensionId" fmt_B 1 t _
                eq_refl ltac:(unfold fits; cbn; lia))).
  change (1 =? 1) with true. cbv iota.
  rewrite (R_bind_Ok _ _ _ _ _
             (read_entry_word ExtensionHeader "extensionLength" fmt_I _ t _
                eq_refl Hfit)).
  rewrite (R_bind_Ok _ _ _ fmt_B (t, _)) by reflexivity.
  unfold _iterUnpackAndDecodeLight.
  replace (Z.even (2 * n)) with true
    by (symmetry; rewrite Z.even_mul; reflexivity).
  replace (2 * n / 2) with n by (rewrite Z.mul_comm, Z.div_mul; lia).
  exact (light_loop_bytes (Z.to_nat n) o rest t Htotal Hlen).
Qed.
End Lighting.

(** ** The watermask extension *)

Lemma W_bind_silent {A B} (m : W A) (k : A -> W B) t a t1 res :
  m t = (Ok a, t1, []) -> k a t1 = res -> W_bind m k t = res.
Proof.
  intros Hm Hk. unfold W_bind. rewrite Hm, Hk. now destruct res as [[r t2] o2].
Qed.

Lemma W_bind_out {A B} (m : W A) (k : A -> W B) t a t1 o1 r t2 o2 :
  m t = (Ok a, t1, o1) -> k a t1 = (r, t2, o2) ->
  W_bind m k t = (r, t2, o1 ++ o2).
Proof. intros Hm Hk. unfold W_bind. now rewrite Hm, Hk. Qed.

Lemma write_cells_words (zs : list Z) (t : TerrainTile) :
  Forall (fits fmt_B) zs ->
  write_cells (map Some zs) t = (Ok tt, t, words fmt_B zs).
Proof.
  induction 1 as [|z zs Hz _ IH]; [reflexivity|].
  cbn [map write_cells].
  apply (W_bind_silent _ _ t fmt_B t); [reflexivity|].
  apply (W_bind_silent _ _ t z t); [reflexivity|].
  apply (W_bind_silent _ _ t (le_bytes 1 z) t).
  { unfold W_lift. now rewrite (packEntry_Ok fmt_B z Hz). }
  change (words fmt_B (z :: zs)) with (le_bytes 1 z ++ words fmt_B zs).
  apply (W_bind_out _ _ t tt t); [reflexivity|exact IH].
Qed.

Lemma write_rows_words (rows : list (list Z)) (t : TerrainTile) :
  Forall (fun r => length r = 256%nat /\ Forall (fits fmt_B) r) rows ->
  write_rows (map (map Some) rows) t
  = (Ok tt, t, words fmt_B (concat rows)).
Proof.
  induction 1 as [|r rows [Hlen Hr] _ IH]; [reflexivity|].
  cbn [map write_rows]. rewrite length_map, Hlen.
  change (negb (256 =? 256)%nat) with false. cbv iota.
  replace (words fmt_B (concat (r :: rows)))
    with (words fmt_B r ++ words fmt_B (concat rows)).
  - apply (W_bind_out _ _ t tt t); [now apply write_cells_words|exact IH].
  - unfold words. cbn [concat]. now rewrite map_app, concat_app.
Qed.

(** The extension that a grid of bytes is written as. *)
Lemma write_watermask_grid (rows : list (list Z)) (t : TerrainTile) :
  watermask t = map (map Some) rows -> grid_mask rows ->
  write_watermask t = (Ok tt, set_hasWatermask true t, watermask_bytes rows).
Proof.
  intros Hw [Hlen Hrows]. unfold write_watermask, watermask_bytes.
  apply (W_bind_silent _ _ t t t); [reflexivity|].
  rewrite Hw. destruct rows as [|r0 rows]; [discriminate Hlen|].
  cbn [map]. rewrite <- (map_cons (map Some)).
  apply (W_bind_silent _ _ t tt (set_hasWatermask true t)); [reflexivity|].
  apply (W_bind_out _ _ _ tt (set_hasWatermask true t)).
  { apply (write_entry_Ok _ _ fmt_B); [reflexivity|cbn; lia]. }
  rewrite length_map, Hlen.
  change (1 <? Z.of_nat 256) with true. cbv iota.
  apply (W_bind_out _ _ _ tt (set_hasWatermask true t)).
  { apply (write_entry_Ok _ _ fmt_I);
      [reflexivity|unfold TILEPXS; split; [lia|reflexivity]]. }
  change (negb (Z.of_nat 256 =? 256)) with false. cbv iota.
  now apply write_rows_words.
Qed.

(** The extension that a uniform byte is written as. *)
Lemma write_watermask_uniform (b : Z) (t : TerrainTile) :
  watermask t = [[Some b]] -> fits fmt_B b ->
  write_watermask t
  = (Ok tt, set_hasWatermask true t, watermask_bytes [[b]]).
Proof.
  intros Hw Hb. unfold write_watermask, watermask_bytes.
  apply (W_bind_silent _ _ t t t); [reflexivity|].
  rewrite Hw.
  apply (W_bind_silent _ _ t tt (set_hasWatermask true t)); [reflexivity|].
  apply (W_bind_out _ _ _ tt (set_hasWatermask true t)).
  { apply (write_entry_Ok _ _ fmt_B); [reflexivity|cbn; lia]. }
  change (1 <? Z.of_nat (length [[Some b]])) with false. cbv iota.
  change (1 <? Z.of_nat (length [[b]])) with false. cbv iota.
  apply (W_bind_out _ _ _ tt (set_hasWatermask true t)).
  { apply (write_entry_Ok _ _ fmt_I);
      [reflexivity|unfold TILEPXS; split; [lia|reflexivity]]. }
  apply (W_bind_silent _ _ _ (Some b) (set_hasWatermask true t));
    [reflexivity|].
  apply (W_bind_silent _ _ _ tt (set_hasWatermask true t)); [reflexivity|].
  apply (W_bind_silent _ _ _ (set_hasWatermask true t)
           (set_hasWatermask true t)); [reflexivity|].
  assert (Hw' : watermask (set_hasWatermask true t) = [[Some b]])
    by exact Hw.
  rewrite Hw'.
  apply (W_bind_silent _ _ _ [Some b] (set_hasWatermask true t));
    [reflexivity|].
  apply (W_bind_silent _ _ _ (Some b) (set_hasWatermask true t));
    [reflexivity|].
  apply (W_bind_silent _ _ _ fmt_B (set_hasWatermask true t));
    [reflexivity|].
  apply (W_bind_silent _ _ _ b (set_hasWatermask true t)); [reflexivity|].
  apply (W_bind_silent _ _ _ (le_bytes 1 b) (set_hasWatermask true t)).
  { unfold W_lift. now rewrite (packEntry_Ok fmt_B b Hb). }
  unfold words, W_write. cbn [concat map]. now rewrite !app_nil_r.
Qed.

Lemma words_app fmt (xs ys : list Z) :
  words fmt (xs ++ ys) = words fmt xs ++ words fmt ys.
Proof. unfold words. now rewrite map_app, concat_app. Qed.

(** The cells that complete the row under construction: the row is
    yielded and the next one starts empty. *)
Lemma iterWatermask_row (f : list Z -> TerrainTile -> TerrainTile)
    (r pre : list Z) (m : nat) (t : TerrainTile) (s : list byte) :
  r <> [] -> (length pre + length r = 256)%nat -> Forall (fits fmt_B) r ->
  _iterUnpackWatermaskRow (length r + m) fmt_B (Z.of_nat (length pre)) pre
    (fun row => R_assign (f row)) (t, words fmt_B r ++ s)
  = _iterUnpackWatermaskRow m fmt_B 0 []
      (fun row => R_assign (f row)) (f (pre ++ r) t, s).
Proof.
  intros Hne Hlen Hr. revert pre Hlen Hne.
  induction Hr as [|x r Hx Hr IH]; intros pre Hlen Hne; [congruence|].
  cbn [length Nat.add _iterUnpackWatermaskRow]. rewrite words_cons.
  rewrite (R_bind_Ok _ _ _ _ _ (R_unpack_word fmt_B x t _ Hx)).
  destruct r as [|y r'].
  - cbn [length] in Hlen.
    replace (Z.of_nat (length pre) =? 255) with true
      by (symmetry; apply Z.eqb_eq; lia).
    unfold R_bind at 1, R_assign at 1. cbn [fst snd]. reflexivity.
  - cbn [length] in Hlen.
    replace (Z.of_nat (length pre) =? 255) with false
      by (symmetry; apply Z.eqb_neq; lia).
    replace (Z.of_nat (length pre) + 1)
      with (Z.of_nat (length (pre ++ [x])))
      by (rewrite length_app; cbn [length]; lia).
    rewrite (IH (pre ++ [x])).
    + now rewrite <- app_assoc.
    + rewrite length_app. cbn [length]. lia.
    + discriminate.
Qed.

Lemma iterWatermask_grid (f : list Z -> TerrainTile -> TerrainTile)
    (rows : list (list Z)) (t : TerrainTile) (rest : list byte) :
  Forall (fun r => length r = 256%nat /\ Forall (fits fmt_B) r) rows ->
  _iterUnpackWatermaskRow (length (concat rows)) fmt_B 0 []
    (fun row => R_assign (f row)) (t, words fmt_B (concat rows) ++ rest)
  = (Ok tt, (fold_left (fun t r => f r t) rows t, rest)).
Proof.
  intros Hrows. revert t.
  induction Hrows as [|r rows [Hlen Hr] _ IH]; intros t; [reflexivity|].
  cbn [concat fold_left].
  rewrite length_app, words_app, <- app_assoc.
  rewrite (iterWatermask_row f r [] _ t _); [apply IH| |exact Hlen|exact Hr].
  intros ->. discriminate Hlen.
Qed.

Lemma iterWatermask_uniform (f : list Z -> TerrainTile -> TerrainTile)
    (b : Z) (t : TerrainTile) (rest : list byte) :
  fits fmt_B b ->
  _iterUnpackWatermaskRow 1 fmt_B 0 []
    (fun row => R_assign (f row)) (t, words fmt_B [b] ++ rest)
  = (Ok tt, (f [b] t, rest)).
Proof.
  intros Hb. cbn [_iterUnpackWatermaskRow]. rewrite words_cons.
  rewrite (R_bind_Ok _ _ _ _ _ (R_unpack_word fmt_B b t _ Hb)).
  reflexivity.
Qed.

Lemma length_concat_grid (rows : list (list Z)) :
  grid_mask rows -> length (concat rows) = Z.to_nat TILEPXS.
Proof.
  intros [Hlen Hrows].
  assert (E : length (concat rows) = (256 * length rows)%nat).
  { clear Hlen. induction Hrows as [|r rows [Hr _] _ IH]; [reflexivity|].
    cbn [concat length]. rewrite length_app, IH, Hr. lia. }
  rewrite E, Hlen. unfold TILEPXS. lia.
Qed.

Lemma fold_left_rows (rows : list (list Z)) (t : TerrainTile) :
  fold_left (fun t r => set_watermask (watermask t ++ [map Some r]) t) rows t
  = set_watermask (watermask t ++ map (map Some) rows) t.
Proof.
  revert t. induction rows as [|r rows IH]; intros t; cbn [fold_left map].
  - rewrite app_nil_r. now destruct t.
  - rewrite IH. cbn [watermask set_watermask]. rewrite <- app_assoc.
    reflexivity.
Qed.

(** A declared watermask extension, uniform or full, is read back as the
    rows it was written from. *)
Lemma read_watermask_bytes (rows : list (list Z)) (t : TerrainTile)
    (rest : list byte) :
  hasWatermask t = true -> uniform_mask rows \/ grid_mask rows ->
  read_watermask (t, watermask_bytes rows ++ rest)
  = (Ok tt, (set_watermask (watermask t ++ map (map Some) rows) t, rest)).
Proof.
  intros Hw Hrows. unfold read_watermask, watermask_bytes.
  rewrite (R_bind_Ok _ _ _ t (t, _)) by reflexivity. rewrite Hw.
  rewrite <- !app_assoc.
  rewrite (R_bind_Ok _ _ _ _ _
             (read_entry_word ExtensionHeader "extensionId" fmt_B 2 t _
                eq_refl ltac:(unfold fits; cbn; lia))).
  change (2 =? 2) with true. cbv iota.
  assert (Hfit : fits fmt_I
            (if 1 <? Z.of_nat (length rows) then TILEPXS else 1)).
  { unfold TILEPXS. destruct (1 <? _); split; first [lia|reflexivity]. }
  rewrite (R_bind_Ok _ _ _ _ _
             (read_entry_word ExtensionHeader "extensionLength" fmt_I _ t _
                eq_refl Hfit)).
  rewrite (R_bind_Ok _ _ _ fmt_B (t, _)) by reflexivity.
  rewrite <- fold_left_rows.
  destruct Hrows as [(b & -> & Hb)|Hgrid].
  - change (1 <? Z.of_nat (length [[b]])) with false. cbv iota.
    change (Z.to_nat 1) with 1%nat. change (concat [[b]]) with [b].
    exact (iterWatermask_uniform _ b t rest Hb).
  - rewrite (proj1 Hgrid). change (1 <? Z.of_nat 256) with true. cbv iota.
    rewrite <- (length_concat_grid rows Hgrid).
    exact (iterWatermask_grid _ rows t rest (proj2 Hgrid)).
Qed.

(** ** Vertex coordinates *)

Lemma holds_from_spec (p : Z -> bool) (n : nat) (q k : Z) :
  holds_from p n q = true -> q <= k < q + Z.of_nat n -> p k = true.
Proof.
  revert q. induction n as [|n IH]; intros q Hh Hk; [lia|].
  cbn [holds_from] in Hh. apply andb_true_iff in Hh as [Hq Hh].
  destruct (Z.eq_dec k q) as [->|Hne]; [exact Hq|].
  apply (IH (q + 1) Hh). lia.
Qed.

(** [q / self.MAX] is defined on every quantized value: the conversion of
    the integer to a float cannot overflow and [MAX] is not zero. *)
Lemma over_MAX_quantized (q : Z) :
  quantized q -> exists time, over_MAX q = Ok time.
Proof.
  intros [H0 H1].
  assert (Hall : holds_from (fun k => is_ok (over_MAX k)) (Z.to_nat 32768) 0
                 = true) by (vm_compute; reflexivity).
  pose proof (holds_from_spec _ _ _ q Hall ltac:(lia)) as Hq.
  cbn beta in Hq. destruct (over_MAX q) as [time|e]; [eauto|discriminate].
Qed.

(** On a quantized value, [q / self.MAX] is the float of [q] divided by
    32767. *)
Lemma over_MAX_value (q : Z) :
  quantized q ->
  over_MAX q = Ok (PrimFloat.of_uint63 (Uint63.of_Z q) / 32767)%float.
Proof.
  intros Hq. destruct (over_MAX_quantized q Hq) as [time Ht].
  rewrite Ht. f_equal. unfold over_MAX, int_to_float in Ht.
  destruct (is_SF_infinity _); [discriminate|].
  unfold truediv in Ht. change (MAX =? 0)%float with false in Ht.
  injection Ht as <-. f_equal.
  rewrite <- (SF2Prim_Prim2SF (of_uint63 (Uint63.of_Z q))).
  rewrite of_uint63_spec. f_equal. f_equal.
  rewrite Uint63.of_Z_spec. destruct Hq.
  rewrite Z.mod_small; [reflexivity|].
  change Uint63.wB with 9223372036854775808. lia.
Qed.

Section Collect.
Context {X : Type}.
Variables (get : TerrainTile -> list X)
          (set : list X -> TerrainTile -> TerrainTile)
          (g : TerrainTile -> float -> X).
Hypothesis get_set : forall l t, get (set l t) = l.
Hypothesis set_set : forall l l' t, set l (set l' t) = set l t.
Hypothesis set_get : forall t, set (get t) t = t.
Hypothesis g_set : forall l t time, g (set l t) time = g t time.

(** One of the three loops of [_computeVerticesCoordinates]: the values
    are appended in order. *)
Lemma T_for_collect (qs : list Z) (xs : list X) (t : TerrainTile) :
  Forall2 (fun q x => exists time, over_MAX q = Ok time /\ x = g t time)
          qs xs ->
  T_for qs (fun q =>
    T_bind T_self (fun self =>
    T_bind (T_lift (over_MAX q)) (fun time =>
    T_assign (set (get self ++ [g self time]))))) t
  = (Ok tt, set (get t ++ xs) t).
Proof.
  intros HF. revert xs t HF. induction qs as [|q qs IH]; intros xs t HF.
  - inversion HF; subst. cbn. now rewrite app_nil_r, set_get.
  - inversion HF as [|q' x qs' xs' (time & Ht & Hx) HF']; subst.
    cbn [T_for]. unfold T_bind at 1. unfold T_bind at 1. cbn [T_self].
    unfold T_bind at 1. cbn [T_lift]. rewrite Ht. cbn [T_assign].
    rewrite (IH xs').
    + rewrite get_set, set_set, <- app_assoc. reflexivity.
    + eapply Forall2_impl; [exact HF'|].
      intros q' x' (time' & Ht' & ->). exists time'.
      now rewrite g_set.
Qed.
End Collect.

Lemma Forall2_over_MAX {X} (f : float -> X) (qs : list Z) :
  Forall quantized qs ->
  exists xs,
    Forall2 (fun q x => exists time, over_MAX q = Ok time /\ x = f time)
            qs xs.
Proof.
  induction 1 as [|q qs Hq _ (xs & IH)].
  - exists []. constructor.
  - destruct (over_MAX_quantized q Hq) as [time Ht].
    exists (f time :: xs). constructor; eauto.
Qed.

(** The loop of [getVerticesCoordinates] over [enumerate(self._longs)]. *)
Lemma enumerate_coordinates_Ok (self : TerrainTile) (longs : list float)
    (i : nat) :
  (i + length longs <= length (_lats self))%nat ->
  (i + length longs <= length (_heights self))%nat ->
  exists coordinates,
    enumerate_coordinates self (Z.of_nat i) longs = Ok coordinates /\
    length coordinates = length longs /\
    forall k lon, longs !! k = Some lon ->
      exists lat height,
        _lats self !! (i + k)%nat = Some lat /\
        _heights self !! (i + k)%nat = Some height /\
        coordinates !! k = Some (lon, lat, height).
Proof.
  revert i. induction longs as [|lon longs IH]; intros i Hl Hh.
  - exists []. repeat split. intros k lon Hk. discriminate.
  - cbn [length] in Hl, Hh. cbn [enumerate_coordinates].
    assert (Hgi : forall (l : list float), (i < length l)%nat ->
              exists x, l !! i = Some x /\ getitem l (Z.of_nat i) = Ok x).
    { intros l Hlt. destruct (lookup_lt_is_Some_2 l i Hlt) as [x Hx].
      exists x. split; [exact Hx|]. unfold getitem.
      replace (Z.of_nat i <? 0) with false by (symmetry; apply Z.ltb_ge; lia).
      replace (0 <=? Z.of_nat i) with true by (symmetry; apply Z.leb_le; lia).
      replace (Z.of_nat i <? Z.of_nat (length l)) with true
        by (symmetry; apply Z.ltb_lt; lia).
      cbn. now rewrite Nat2Z.id, Hx. }
    destruct (Hgi (_lats self) ltac:(lia)) as (lat & Hlat & ->).
    destruct (Hgi (_heights self) ltac:(lia)) as (height & Hheight & ->).
    destruct (IH (S i) ltac:(lia) ltac:(lia)) as (coords & Hc & Hlen & Hk).
    replace (Z.of_nat i + 1) with (Z.of_nat (S i)) by lia.
    rewrite Hc. exists ((lon, lat, height) :: coords).
    split; [reflexivity|split; [cbn; now rewrite Hlen|]].
    intros [|k] lon' Hlon.
    + injection Hlon as <-. rewrite Nat.add_0_r. eauto.
    + destruct (Hk k lon' Hlon) as (lat' & height' & H1 & H2 & H3).
      exists lat', height'. replace (i + S k)%nat with (S i + k)%nat by lia.
      auto.
Qed.

(** With empty caches, [_computeVerticesCoordinates] fills them with the
    dequantized values, in vertex order. *)
Lemma computeVerticesCoordinates_fills (t : TerrainTile) (xs ys zs : list float) :
  coordinates_not_computed t ->
  Forall2 (fun q x => exists time, over_MAX q = Ok time /\
                      x = lerp (_west t) (_east t) time) (u t) xs ->
  Forall2 (fun q x => exists time, over_MAX q = Ok time /\
                      x = lerp (_south t) (_north t) time) (v t) ys ->
  Forall2 (fun q x => exists time, over_MAX q = Ok time /\
                      x = lerp (minimumHeight (header t))
                               (maximumHeight (header t)) time) (h t) zs ->
  _computeVerticesCoordinates t
  = (Ok tt, set_heights zs (set_lats ys (set_longs xs t))).
Proof.
  intros (Hlo & Hla & Hhe) Hx Hy Hz.
  unfold _computeVerticesCoordinates, T_bind at 1. cbn [T_self].
  rewrite Hlo. unfold T_bind at 1.
  rewrite (T_for_collect _longs set_longs
             (fun self time => lerp (_west self) (_east self) time)
             ltac:(reflexivity) ltac:(reflexivity)
             ltac:(intros []; reflexivity) ltac:(reflexivity)
             (u t) xs t Hx).
  rewrite Hlo, app_nil_l. unfold T_bind at 1.
  rewrite (T_for_collect _lats set_lats
             (fun self time => lerp (_south self) (_north self) time)
             ltac:(reflexivity) ltac:(reflexivity)
             ltac:(intros []; reflexivity) ltac:(reflexivity)
             (v t) ys (set_longs xs t) Hy).
  cbn [_lats set_longs]. rewrite Hla, app_nil_l.
  rewrite (T_for_collect _heights set_heights
             (fun self time => lerp (minimumHeight (header self))
                                    (maximumHeight (header self)) time)
             ltac:(reflexivity) ltac:(reflexivity)
             ltac:(intros []; reflexivity) ltac:(reflexivity)
             (h t) zs (set_lats ys (set_longs xs t)) Hz).
  cbn [_heights set_lats set_longs]. rewrite Hhe, app_nil_l. reflexivity.
Qed.

(** ** Writing a tile with extensions and reading it back *)

Lemma valid_mesh_set_watermask (w : list (list (option Z))) (t : TerrainTile) :
  valid_mesh t -> valid_mesh (set_watermask w t).
Proof. intros []. constructor; assumption. Qed.

Lemma grid_mask_check (rows : list (list Z)) :
  (length rows =? 256)%nat
  && forallb (fun r => (length r =? 256)%nat
                       && forallb (fun z => (0 <=? z) && (z <? 256)) r) rows
  = true ->
  grid_mask rows.
Proof.
  intros Hb. apply andb_true_iff in Hb as [Hlen Hrows].
  split; [now apply Nat.eqb_eq|].
  apply Forall_forall. intros r Hr. apply list_elem_of_In in Hr.
  pose proof (proj1 (forallb_forall _ rows) Hrows r Hr) as Hb.
  apply andb_true_iff in Hb as [Hr1 Hr2].
  split; [now apply Nat.eqb_eq|].
  apply Forall_forall. intros z Hz. apply list_elem_of_In in Hz.
  pose proof (proj1 (forallb_forall _ r) Hr2 z Hz) as Hb.
  apply andb_true_iff in Hb as [H1 H2].
  apply Z.leb_le in H1. apply Z.ltb_lt in H2.
  unfold fits. change (256 ^ Z.of_nat (isize fmt_B)) with 256. lia.
Qed.

Section ExtRoundTrip.
Context `{Collaborators}.

Lemma write_watermask_mask (rows : list (list Z)) (t : TerrainTile) :
  watermask t = map (map Some) rows ->
  uniform_mask rows \/ grid_mask rows ->
  write_watermask t = (Ok tt, set_hasWatermask true t, watermask_bytes rows).
Proof.
  intros Hw [(b & -> & Hb)|Hgrid].
  - now apply write_watermask_uniform.
  - now apply write_watermask_grid.
Qed.

(** The bytes of a valid tile, when [_writeTo] returns: the mesh, then what
    the two extensions wrote. *)
Lemma writeTo_inv (t t' : TerrainTile) (bytes : list byte) :
  valid_mesh t -> _writeTo t = (Ok tt, t', bytes) ->
  exists hb tl ol ow,
    length hb = 88%nat /\
    write_lighting (Z.of_nat (length (u t))) t = (Ok tt, tl, ol) /\
    write_watermask tl = (Ok tt, t', ow) /\
    bytes = mesh_bytes hb t ++ ol ++ ow.
Proof.
  intros V Hwr.
  destruct (writeTo_valid t V) as (hb & Hlen & _ & Hout).
  rewrite Hwr in Hout. cbv zeta in Hout.
  destruct (W_bind (write_lighting (Z.of_nat (length (u t))))
              (fun _ => write_watermask) t) as [[r tx] ox] eqn:Ex.
  cbn [W_result W_state W_output fst snd] in Hout.
  injection Hout as <- <- ->.
  apply W_bind_Ok_inv in Ex as ([] & tl & ol & ow & Hl & Hw & ->).
  exists hb, tl, ol, ow. auto.
Qed.

(** A valid tile without normals whose watermask is a uniform byte or a
    full grid is written, mesh then watermask extension. *)
Lemma writeTo_mask (rows : list (list Z)) (t : TerrainTile) :
  valid_mesh t -> vLight t = [] ->
  watermask t = map (map Some) rows ->
  uniform_mask rows \/ grid_mask rows ->
  exists hb,
    length hb = 88%nat /\
    _writeTo t
    = (Ok tt, set_hasWatermask true t,
       mesh_bytes hb t ++ watermask_bytes rows).
Proof.
  intros V Hl Hw Hrows.
  destruct (writeTo_valid t V) as (hb & Hlen & _ & Hout).
  exists hb. split; [exact Hlen|]. rewrite Hout. cbv zeta.
  assert (E1 : write_lighting (Z.of_nat (length (u t))) t = (Ok tt, t, [])).
  { unfold write_lighting. rewrite (W_bind_Ok _ _ t t t []) by reflexivity.
    rewrite Hl. reflexivity. }
  rewrite (W_bind_silent _ _ t tt t _ E1 (write_watermask_mask rows t Hw Hrows)).
  reflexivity.
Qed.

(** Up to [BYTESPLIT] vertices, the watermask of a tile that was written
    is read back, when the declarations match what was written. *)
Lemma fromBytesIO_mask (rows : list (list Z)) (t t' t0 : TerrainTile)
    (bytes : list byte) :
  valid_mesh t -> octDecode_total ->
  watermask t = map (map Some) rows ->
  uniform_mask rows \/ grid_mask rows ->
  _writeTo t = (Ok tt, t', bytes) ->
  Z.of_nat (length (u t)) <= BYTESPLIT ->
  exists t1,
    fromBytesIO (has_normals t) true (t0, bytes) = (Ok tt, (t1, [])) /\
    watermask t1 = watermask t0 ++ map (map Some) rows.
Proof.
  intros V Htotal Hw Hrows Hwr Hn.
  destruct (writeTo_inv t t' bytes V Hwr)
    as (hb & tl & ol & ow & Hlen & Hlight & Hmask & ->).
  destruct (read_mesh_narrow (has_normals t) true t t0 hb (ol ++ ow)
              V Hlen Hn) as [hd Hmesh].
  destruct (mesh_read_extensions (has_normals t) true hd t t0)
    as (Fl & Fw & _ & Fm).
  set (tm := mesh_read (has_normals t) true hd t t0) in *.
  unfold fromBytesIO. rewrite (R_bind_Ok _ _ _ _ _ Hmesh).
  assert (Hlit : exists tL,
             read_lighting (tm, ol ++ ow) = (Ok tt, (tL, ow)) /\
             hasWatermask tL = true /\ watermask tL = watermask t0 /\
             watermask tl = watermask t).
  { apply write_lighting_inv in Hlight
      as [(Hno & -> & ->)|(Hyes & -> & Hfit & o' & -> & Hlen')].
    - exists tm. rewrite Hno in Fl. repeat split; auto.
      exact (read_lighting_undeclared (tm, ow) Fl).
    - rewrite Hyes in Fl.
      destruct (read_lighting_bytes (Z.of_nat (length (u t))) o' ow tm
                  Htotal Fl ltac:(lia) Hfit Hlen') as [l Hl].
      exists (set_vLight (vLight tm ++ l) tm). repeat split; auto. }
  destruct Hlit as (tL & HL & FwL & FmL & Hwl).
  rewrite (R_bind_Ok _ _ _ _ _ HL).
  rewrite (write_watermask_mask rows tl ltac:(congruence) Hrows) in Hmask.
  injection Hmask as _ <-.
  exists (set_watermask (watermask tL ++ map (map Some) rows) tL).
  rewrite <- FmL. split; [|reflexivity].
  rewrite <- (app_nil_r (watermask_bytes rows)).
  exact (read_watermask_bytes rows tL [] FwL Hrows).
Qed.

(** Above [BYTESPLIT] vertices the reader does not reach the watermask. *)
Lemma fromBytesIO_mask_wide (hl hw : bool) (t t' t0 : TerrainTile)
    (bytes : list byte) :
  valid_mesh t -> _writeTo t = (Ok tt, t', bytes) ->
  BYTESPLIT < Z.of_nat (length (u t)) ->
  R_result (fromBytesIO hl hw (t0, bytes))
  = Raise (KeyError "westVertexCount").
Proof.
  intros V Hwr Hn.
  destruct (writeTo_inv t t' bytes V Hwr)
    as (hb & tl & ol & ow & Hlen & _ & _ & ->).
  exact (fromBytesIO_wide hl hw t t0 hb _ V Hlen Hn).
Qed.
End ExtRoundTrip.

(** *** The sample tiles *)

Lemma Forall_fits_check fmt (l : list Z) :
  forallb (fun z => (0 <=? z) && (z <? 256 ^ Z.of_nat (isize fmt))) l = true ->
  Forall (fits fmt) l.
Proof.
  intros Hl. apply Forall_forall. intros z Hz. apply list_elem_of_In in Hz.
  pose proof (proj1 (forallb_forall _ l) Hl z Hz) as Hb.
  apply andb_true_iff in Hb as [H1 H2].
  apply Z.leb_le in H1. apply Z.ltb_lt in H2. split; assumption.
Qed.

Lemma Forall_quantized_check (l : list Z) :
  forallb (fun z => (0 <=? z) && (z <=? 32767)) l = true ->
  Forall quantized l.
Proof.
  intros Hl. apply Forall_forall. intros z Hz. apply list_elem_of_In in Hz.
  pose proof (proj1 (forallb_forall _ l) Hl z Hz) as Hb.
  apply andb_true_iff in Hb as [H1 H2].
  apply Z.leb_le in H1. apply Z.leb_le in H2. unfold quantized. lia.
Qed.

Lemma fits_check fmt (z : Z) :
  (0 <=? z) && (z <? 256 ^ Z.of_nat (isize fmt)) = true -> fits fmt z.
Proof.
  intros Hb. apply andb_true_iff in Hb as [H1 H2].
  apply Z.leb_le in H1. apply Z.ltb_lt in H2. split; assumption.
Qed.

Lemma square_tile_valid : valid_mesh square_tile.
Proof.
  constructor.
  - reflexivity.
  - discriminate.
  - apply (fits_check fmt_I). reflexivity.
  - reflexivity.
  - reflexivity.
  - apply Forall_quantized_check. reflexivity.
  - apply Forall_quantized_check. reflexivity.
  - apply Forall_quantized_check. reflexivity.
  - reflexivity.
  - apply (fits_check fmt_I). reflexivity.
  - apply (Forall_fits_check fmt_H). reflexivity.
  - split; [apply (fits_check fmt_I)|apply (Forall_fits_check fmt_H)];
      reflexivity.
  - split; [apply (fits_check fmt_I)|apply (Forall_fits_check fmt_H)];
      reflexivity.
  - split; [apply (fits_check fmt_I)|apply (Forall_fits_check fmt_H)];
      reflexivity.
  - split; [apply (fits_check fmt_I)|apply (Forall_fits_check fmt_H)];
      reflexivity.
Qed.

Lemma sample_octDecode_total : @octDecode_total sample_collaborators.
Proof. intros x y _ _. reflexivity. Qed.

Lemma sample_rows_grid : grid_mask sample_rows.
Proof. apply grid_mask_check. vm_compute. reflexivity. Qed.
(** * The extension flags through the reader *)

Section Flags.
Context `{Collaborators}.

Lemma R_keeps_flags_assign (hl hw : bool) (f : TerrainTile -> TerrainTile) :
  (forall t, hasLighting (f t) = hasLighting t /\
             hasWatermask (f t) = hasWatermask t) ->
  R_keeps (flags_are hl hw) (R_assign f).
Proof.
  intros Hf. apply R_keeps_assign. intros t [H1 H2].
  destruct (Hf t) as [E1 E2]. split; congruence.
Qed.

Lemma R_keeps_light_loop P n structType (yield : vec3 -> R unit) :
  (forall x, R_keeps P (yield x)) -> R_keeps P (light_loop n structType yield).
Proof.
  intros Hy. induction n as [|n IH]; cbn [light_loop].
  - apply R_keeps_ret.
  - apply R_keeps_bind; [apply R_keeps_unpack|intros x].
    apply R_keeps_bind; [apply R_keeps_unpack|intros y].
    apply R_keeps_bind; [apply R_keeps_lift|intros xy].
    apply R_keeps_bind; [apply Hy|intros _; exact IH].
Qed.

Lemma R_keeps_iterWatermask P n structType i row (yield : list Z -> R unit) :
  (forall x, R_keeps P (yield x)) ->
  R_keeps P (_iterUnpackWatermaskRow n structType i row yield).
Proof.
  intros Hy. revert i row.
  induction n as [|n IH]; intros i row; cbn [_iterUnpackWatermaskRow].
  - destruct row; [apply R_keeps_ret|apply Hy].
  - apply R_keeps_bind; [apply R_keeps_unpack|intros x].
    destruct (i =? 255); [|apply IH].
    apply R_keeps_bind; [apply Hy|intros _; apply IH].
Qed.

Lemma R_keeps_flags_read_lighting (hl hw : bool) :
  R_keeps (flags_are hl hw) read_lighting.
Proof.
  unfold read_lighting. apply R_keeps_bind; [apply R_keeps_self|intros self].
  destruct (bool_decide _); [|apply R_keeps_ret].
  apply R_keeps_bind; [apply R_keeps_read_entry|intros extensionId].
  destruct (extensionId =? 1); [|apply R_keeps_ret].
  apply R_keeps_bind; [apply R_keeps_read_entry|intros extensionLength].
  apply R_keeps_bind; [apply R_keeps_lift|intros structType].
  unfold _iterUnpackAndDecodeLight.
  assert (Hy : forall xy : vec3,
             R_keeps (flags_are hl hw)
               (R_assign (fun t => set_vLight (vLight t ++ [xy]) t))).
  { intros xy. apply R_keeps_flags_assign. intros t. split; reflexivity. }
  destruct (Z.even extensionLength); [now apply R_keeps_light_loop|].
  intros st HP.
  pose proof (R_keeps_bind (flags_are hl hw)
                (light_loop (S (length (snd st))) structType
                   (fun xy => R_assign
                      (fun t => set_vLight (vLight t ++ [xy]) t)))
                (fun _ => @R_lift unit (Raise StructError))
                (R_keeps_light_loop _ _ _ _ Hy)
                (fun _ => R_keeps_lift _ _)) as Hk.
  exact (Hk st HP).
Qed.

Lemma R_keeps_flags_read_watermask (hl hw : bool) :
  R_keeps (flags_are hl hw) read_watermask.
Proof.
  unfold read_watermask. apply R_keeps_bind; [apply R_keeps_self|intros self].
  destruct (hasWatermask self); [|apply R_keeps_ret].
  apply R_keeps_bind; [apply R_keeps_read_entry|intros extensionId].
  destruct (extensionId =? 2); [|apply R_keeps_ret].
  apply R_keeps_bind; [apply R_keeps_read_entry|intros extensionLength].
  apply R_keeps_bind; [apply R_keeps_lift|intros structType].
  apply R_keeps_iterWatermask. intros row.
  apply R_keeps_flags_assign. intros t. split; reflexivity.
Qed.

(** The flags are the declared ones after [fromBytesIO], whether it
    returned or raised. *)
Lemma fromBytesIO_flags (hl hw : bool) (st : TerrainTile * list byte) :
  flags_are hl hw (R_tile (fromBytesIO hl hw st)).
Proof.
  unfold fromBytesIO. pose proof (read_mesh_flags hl hw st) as Hm.
  unfold R_bind at 1.
  destruct (read_mesh hl hw st) as [[[]|e] st1]; [|exact Hm].
  apply (R_keeps_bind (flags_are hl hw) read_lighting
           (fun _ => read_watermask));
    [apply R_keeps_flags_read_lighting
    |intros _; apply R_keeps_flags_read_watermask|exact Hm].
Qed.
End Flags.


(** ** Edge detection *)

Lemma contains_elem_of (l : list Z) (x : Z) : contains l x = true <-> x ∈ l.
Proof.
  unfold contains. rewrite existsb_exists. split.
  - intros (y & Hy & Heq). apply Z.eqb_eq in Heq. subst y.
    now apply list_elem_of_In.
  - intros Hx. exists x. split; [now apply list_elem_of_In|apply Z.eqb_refl].
Qed.

Lemma elem_of_first_occurrences (l : list Z) (x : Z) :
  x ∈ first_occurrences l <-> x ∈ l.
Proof.
  induction l as [|y l IH]; cbn [first_occurrences]; [reflexivity|].
  rewrite !elem_of_cons, list_elem_of_filter, IH.
  destruct (decide (x = y)); tauto.
Qed.

Lemma NoDup_first_occurrences (l : list Z) : NoDup (first_occurrences l).
Proof.
  induction l as [|y l IH]; cbn [first_occurrences]; [constructor|].
  constructor; [|now apply NoDup_filter].
  rewrite list_elem_of_filter. tauto.
Qed.

(** The loop over one list computes the first occurrences of the indices
    on the edge that were not listed before. *)
Lemma scan_spec (p : Z -> bool) (l acc : list Z) :
  scan p acc l =
  acc ++ filter (fun y => y ∉ acc)
           (first_occurrences (filter (fun i => p i = true) l)).
Proof.
  revert acc. induction l as [|x l IH]; intros acc.
  - cbn. now rewrite app_nil_r.
  - unfold scan in *. cbn [fold_left]. rewrite IH. unfold scan_step.
    rewrite filter_cons. destruct (p x) eqn:Epx; cbn [andb].
    + rewrite decide_True by reflexivity. cbn [first_occurrences].
      rewrite filter_cons.
      destruct (contains acc x) eqn:Ec; cbn [negb].
      * apply contains_elem_of in Ec.
        rewrite decide_False by (intros Hn; now apply Hn).
        f_equal. rewrite list_filter_filter. apply list_filter_iff.
        intros y. split; [intros Hy; split; [exact Hy|]|tauto].
        intros ->. now apply Hy.
      * assert (Hn : x ∉ acc)
          by (intros Hin; apply contains_elem_of in Hin; congruence).
        rewrite decide_True by exact Hn.
        rewrite <- app_assoc. cbn [app]. f_equal. f_equal.
        rewrite list_filter_filter. apply list_filter_iff.
        intros y. rewrite elem_of_app, list_elem_of_singleton. tauto.
    + rewrite decide_False by discriminate. reflexivity.
Qed.

Lemma scan_nil (p : Z -> bool) (l : list Z) :
  scan p [] l = first_occurrences (filter (fun i => p i = true) l).
Proof.
  rewrite scan_spec. cbn [app].
  induction (first_occurrences _) as [|y l' IH]; [reflexivity|].
  rewrite filter_cons_True by apply not_elem_of_nil. now rewrite IH.
Qed.

Lemma T_bind_Ok_inv {A B} (m : T A) (k : A -> T B) t b t2 :
  T_bind m k t = (Ok b, t2) ->
  exists a t1, m t = (Ok a, t1) /\ k a t1 = (Ok b, t2).
Proof.
  unfold T_bind. destruct (m t) as [[a|e] t1]; [|discriminate]. eauto.
Qed.

Create HintDb tkeeps discriminated.

Section MethodKeeps.
Variable P : TerrainTile -> Prop.

Lemma T_keeps_ret {A} (a : A) : T_keeps P (T_ret a).
Proof. intros t HP. exact HP. Qed.

Lemma T_keeps_lift {A} (r : result A) : T_keeps P (T_lift r).
Proof. intros t HP. exact HP. Qed.

Lemma T_keeps_self : T_keeps P T_self.
Proof. intros t HP. exact HP. Qed.

Lemma T_keeps_assign (f : TerrainTile -> TerrainTile) :
  (forall t, P t -> P (f t)) -> T_keeps P (T_assign f).
Proof. intros Hf t HP. apply Hf, HP. Qed.

Lemma T_keeps_bind {A B} (m : T A) (k : A -> T B) :
  T_keeps P m -> (forall a, T_keeps P (k a)) -> T_keeps P (T_bind m k).
Proof.
  intros Hm Hk t HP. unfold T_bind. specialize (Hm t HP).
  destruct (m t) as [[a|e] t1]; [|exact Hm]. apply Hk. exact Hm.
Qed.

Lemma T_keeps_map {A B} (f : A -> T B) (xs : list A) :
  (forall x, T_keeps P (f x)) -> T_keeps P (T_map f xs).
Proof.
  intros Hf. induction xs as [|x xs IH]; cbn [T_map].
  - apply T_keeps_ret.
  - apply T_keeps_bind; [apply Hf|intros y].
    apply T_keeps_bind; [exact IH|intros ys]. apply T_keeps_ret.
Qed.

Lemma T_keeps_for {A} (xs : list A) (body : A -> T unit) :
  (forall x, T_keeps P (body x)) -> T_keeps P (T_for xs body).
Proof.
  intros Hb. induction xs as [|x xs IH]; cbn [T_for].
  - apply T_keeps_ret.
  - apply T_keeps_bind; [apply Hb|intros _; exact IH].
Qed.
End MethodKeeps.

#[local] Hint Resolve T_keeps_ret T_keeps_lift T_keeps_self : tkeeps.
#[local] Hint Extern 2 (T_keeps _ (T_bind _ _)) =>
  apply T_keeps_bind; [|intros ?] : tkeeps.

Section LoadTopology.
Context `{Collaborators}.

Lemma load_topology_edges (topology : TerrainTopology) bounds w s e n :
  T_keeps (edges_are w s e n) (load_topology topology bounds).
Proof.
  set (P := edges_are w s e n).
  assert (Hassign : forall f : TerrainTile -> TerrainTile,
             (forall t, westI (f t) = westI t /\ southI (f t) = southI t /\
                        eastI (f t) = eastI t /\ northI (f t) = northI t) ->
             T_keeps P (T_assign f)).
  { intros f Hf. apply T_keeps_assign. intros t (H1 & H2 & H3 & H4).
    destruct (Hf t) as (E1 & E2 & E3 & E4). repeat split; congruence. }
  assert (Hset : forall f : TerrainTile -> TerrainTile,
             (forall t, westI (f t) = westI t /\ southI (f t) = southI t /\
                        eastI (f t) = eastI t /\ northI (f t) = northI t) ->
             forall k : T unit, T_keeps P k ->
             T_keeps P (T_bind (T_assign f) (fun _ => k))).
  { intros f Hf k Hk. apply T_keeps_bind; [now apply Hassign|intros _; exact Hk]. }
  assert (Hlon : forall x, T_keeps P (_quantizeLongitude x)).
  { intros x. unfold _quantizeLongitude, _getWorkingUnitLongitude.
    repeat (first
      [ apply T_keeps_bind; [|intros ?]
      | apply Hassign; intros ?; repeat split; reflexivity
      | match goal with |- T_keeps _ (if ?b then _ else _) => destruct b end
      | match goal with |- T_keeps _ (match ?o with Some _ => _ | None => _ end) =>
          destruct o end
      | solve [auto with tkeeps] ]). }
  assert (Hlat : forall x, T_keeps P (_quantizeLatitude x)).
  { intros x. unfold _quantizeLatitude, _getWorkingUnitLatitude.
    repeat (first
      [ apply T_keeps_bind; [|intros ?]
      | apply Hassign; intros ?; repeat split; reflexivity
      | match goal with |- T_keeps _ (if ?b then _ else _) => destruct b end
      | match goal with |- T_keeps _ (match ?o with Some _ => _ | None => _ end) =>
          destruct o end
      | solve [auto with tkeeps] ]). }
  assert (Hhei : forall x, T_keeps P (_quantizeHeight x)).
  { intros x. unfold _quantizeHeight, _getDeltaHeight.
    repeat (first
      [ apply T_keeps_bind; [|intros ?]
      | apply Hassign; intros ?; repeat split; reflexivity
      | match goal with |- T_keeps _ (if ?b then _ else _) => destruct b end
      | match goal with |- T_keeps _ (match ?o with Some _ => _ | None => _ end) =>
          destruct o end
      | solve [auto with tkeeps] ]). }
  unfold load_topology.
  apply T_keeps_bind; [auto with tkeeps|intros self].
  apply T_keeps_bind; [|intros _].
  { destruct bounds as [[[[b0 b1] b2] b3]|].
    - repeat (apply Hset; [intros ?; repeat split; reflexivity|]).
      apply Hassign. intros ?; repeat split; reflexivity.
    - destruct (bounds_defined self); [auto with tkeeps|].
      repeat (apply Hset; [intros ?; repeat split; reflexivity|]).
      apply Hassign. intros ?; repeat split; reflexivity. }
  apply T_keeps_bind; [auto with tkeeps|intros bSphere].
  apply T_keeps_bind; [auto with tkeeps|intros occlusionPCoords].
  apply T_keeps_bind; [|intros _].
  { apply T_keeps_for. intros k.
    destruct (topology_header_value _ _ _ _ _); [|auto with tkeeps].
    apply Hassign. intros ?; repeat split; reflexivity. }
  apply T_keeps_bind; [now apply T_keeps_map|intros us].
  apply Hset; [intros ?; repeat split; reflexivity|].
  apply T_keeps_bind; [now apply T_keeps_map|intros vs].
  apply Hset; [intros ?; repeat split; reflexivity|].
  apply T_keeps_bind; [now apply T_keeps_map|intros hs].
  apply Hset; [intros ?; repeat split; reflexivity|].
  apply Hassign. intros ?; repeat split; reflexivity.
Qed.
End LoadTopology.

(** One iteration of the detection loop, when it raises nothing. *)
Lemma detect_edges_Ok (i : Z) (t t' : TerrainTile) :
  detect_edges i t = (Ok tt, t') ->
  t' = with_edges
         (scan_step (has_coordinate (u t) 0) (westI t) i)
         (scan_step (has_coordinate (v t) 0) (southI t) i)
         (scan_step (has_coordinate (u t) 32767) (eastI t) i)
         (scan_step (has_coordinate (v t) 32767) (northI t) i) t.
Proof.
  unfold detect_edges, scan_step, has_coordinate, with_edges.
  unfold T_bind at 1. cbn [T_self].
  unfold T_bind at 1. cbn [T_lift].
  destruct (getitem (u t) i) as [x|e]; [|discriminate].
  unfold T_bind at 1. cbn [T_lift].
  destruct (getitem (v t) i) as [y|e]; [|discriminate].
  destruct t as [? ? ? ? ? ? ? ? ? ? ? ? ? ? ? us vs hs ind w s e n].
  cbn [westI southI eastI northI u v].
  cbn -[contains Z.eqb].
  destruct (Z.eqb_spec x 0), (Z.eqb_spec x 32767); try lia;
    destruct (Z.eqb_spec y 0), (Z.eqb_spec y 32767); try lia;
    repeat (match goal with
            | |- context [contains ?l i] => destruct (contains l i)
            end; cbn -[contains Z.eqb]);
    intros [= <-]; reflexivity.
Qed.

Lemma with_edges_fields (w s e n : list Z) (t : TerrainTile) :
  u (with_edges w s e n t) = u t /\ v (with_edges w s e n t) = v t /\
  westI (with_edges w s e n t) = w /\ southI (with_edges w s e n t) = s /\
  eastI (with_edges w s e n t) = e /\ northI (with_edges w s e n t) = n.
Proof. repeat split. Qed.

Lemma with_edges_with_edges (w s e n w' s' e' n' : list Z) (t : TerrainTile) :
  with_edges w s e n (with_edges w' s' e' n' t) = with_edges w s e n t.
Proof. reflexivity. Qed.

(** The whole detection loop, when it raises nothing: each list is scanned
    independently of the other three. *)
Lemma detect_edges_loop (l : list Z) (t t' : TerrainTile) :
  T_for l detect_edges t = (Ok tt, t') ->
  t' = with_edges
         (scan (has_coordinate (u t) 0) (westI t) l)
         (scan (has_coordinate (v t) 0) (southI t) l)
         (scan (has_coordinate (u t) 32767) (eastI t) l)
         (scan (has_coordinate (v t) 32767) (northI t) l) t.
Proof.
  revert t. induction l as [|i l IH]; intros t Hrun.
  - cbn in Hrun. injection Hrun as <-. now destruct t.
  - cbn [T_for] in Hrun.
    apply T_bind_Ok_inv in Hrun as ([] & t1 & Hstep & Hrest).
    apply detect_edges_Ok in Hstep. apply IH in Hrest.
    rewrite Hrest, Hstep. unfold scan. cbn [fold_left].
    reflexivity.
Qed.

Lemma has_coordinate_true (coords : list Z) (q i : Z) :
  has_coordinate coords q i = true <-> getitem coords i = Ok q.
Proof.
  unfold has_coordinate. destruct (getitem coords i) as [x|e].
  - rewrite Z.eqb_eq. split; congruence.
  - split; discriminate.
Qed.

Lemma getitem_of_nat {A} (l : list A) (k : nat) (x : A) :
  getitem l (Z.of_nat k) = Ok x <-> l !! k = Some x.
Proof.
  unfold getitem.
  replace (Z.of_nat k <? 0) with false by (symmetry; apply Z.ltb_ge; lia).
  replace (0 <=? Z.of_nat k) with true by (symmetry; apply Z.leb_le; lia).
  cbn [andb]. rewrite Nat2Z.id.
  destruct (Z.ltb_spec (Z.of_nat k) (Z.of_nat (length l))) as [Hlt|Hge].
  - destruct (l !! k) as [y|] eqn:E; split; congruence.
  - rewrite (lookup_ge_None_2 l k) by lia. split; discriminate.
Qed.

(** The scan of a fresh list is an edge list in the sense of the claim. *)
Lemma scan_lists_edge (coords : list Z) (q : Z) (indices : list Z) :
  lists_edge coords q indices (scan (has_coordinate coords q) [] indices).
Proof.
  rewrite scan_nil. fold (edge_list coords q indices).
  assert (Hmem : forall i, i ∈ edge_list coords q indices <->
                           i ∈ indices /\ getitem coords i = Ok q).
  { intros i. unfold edge_list.
    rewrite elem_of_first_occurrences, list_elem_of_filter,
      has_coordinate_true. tauto. }
  split; [reflexivity|split; [apply NoDup_first_occurrences|split]].
  - exact Hmem.
  - intros Hcover k. rewrite Hmem, getitem_of_nat. split; [tauto|].
    intros Hk. split; [|exact Hk]. apply Hcover.
    now apply lookup_lt_Some in Hk.
Qed.

Section FromTopology.
Context `{Collaborators}.

Lemma load_topology_indices (topology : TerrainTopology) bounds t t' :
  load_topology topology bounds t = (Ok tt, t') ->
  indices t' = indexData topology.
Proof.
  unfold load_topology. intros Hrun.
  repeat (apply T_bind_Ok_inv in Hrun as (? & ? & _ & Hrun); cbv beta zeta in Hrun).
  cbn in Hrun. injection Hrun as <-. reflexivity.
Qed.
End FromTopology.

(** * The claims *)

(** ** C5: what serialization does to the tile *)

(** C5, as stated, fails: encoding the tile built by
    [TerrainTile(topology=..., watermask=[[None]])] succeeds and replaces
    the [None] cell of the watermask by 0, so the tile is not left
    unchanged. *)
Lemma writeTo_modifies_watermask :
  W_result (@_writeTo sample_collaborators none_watermask_tile) = Ok tt /\
  watermask none_watermask_tile = [[None]] /\
  watermask (W_state (@_writeTo sample_collaborators none_watermask_tile))
    = [[Some 0]] /\
  W_state (@_writeTo sample_collaborators none_watermask_tile)
    <> none_watermask_tile.
Proof.
  assert (E : watermask
                (W_state (@_writeTo sample_collaborators none_watermask_tile))
              = [[Some 0]]) by (vm_compute; reflexivity).
  repeat split; try (vm_compute; reflexivity).
  intros Heq. rewrite Heq in E. discriminate E.
Qed.

(** C5, amended: whether [_writeTo] returns or raises, it changes no
    attribute of the tile other than [hasLighting], [hasWatermask] and
    [watermask]; [hasLighting] is left as it was or set to [True], the
    latter only when [vLight] is not empty; [hasWatermask] is left as it
    was or set to [True], the latter only when [watermask] is not empty;
    the watermask is left as it was or has the [None] first cell of its
    only row replaced by 0.  When [_writeTo] returns, the flags of the
    extensions that were written are [True]. *)
Theorem writeTo_frame `{Collaborators} (t : TerrainTile) :
  let t' := W_state (_writeTo t) in
  same_mesh t t' /\
  (hasLighting t' = hasLighting t \/
   vLight t <> [] /\ hasLighting t' = Some true) /\
  (hasWatermask t' = hasWatermask t \/
   watermask t <> [] /\ hasWatermask t' = true) /\
  (watermask t' = watermask t \/
   watermask t' = watermask_after (watermask t)) /\
  (W_result (_writeTo t) = Ok tt ->
   (vLight t <> [] -> hasLighting t' = Some true) /\
   (watermask t <> [] ->
    hasWatermask t' = true /\
    watermask t' = watermask_after (watermask t))).
Proof.
  intros t'. subst t'.
  destruct (writeTo_state t) as [Hcases Hok].
  cbv zeta in Hcases, Hok.
  set (n := Z.of_nat (length (u t))) in *.
  assert (Hl := write_lighting_state n t).
  assert (Hw := write_watermask_state (W_state (write_lighting n t))).
  set (tl := W_state (write_lighting n t)) in *.
  set (tw := W_state (write_watermask tl)) in *.
  assert (Hwl : watermask tl = watermask t /\ hasWatermask tl = hasWatermask t
                /\ vLight tl = vLight t).
  { rewrite Hl. destruct t as [? ? ? ? ? ? ? ? ? ? vl ? ? ? ? ? ? ? ? ? ? ? ?].
    cbn. destruct vl; cbn; auto. }
  destruct Hwl as (Hwl1 & Hwl2 & Hwl3).
  rewrite Hwl1 in Hw.
  assert (Ftl : same_mesh t tl /\
                (hasLighting tl = hasLighting t \/
                 vLight t <> [] /\ hasLighting tl = Some true) /\
                (vLight t <> [] -> hasLighting tl = Some true)).
  { rewrite Hl. unfold same_mesh.
    destruct (vLight t) eqn:Ev.
    - repeat split; try (now destruct t); auto; congruence.
    - repeat split; try (now destruct t); auto. }
  destruct Ftl as (Ftl1 & Ftl2 & Ftl3).
  assert (Ftw : same_mesh t tw /\ hasLighting tw = hasLighting tl /\
                (hasWatermask tw = hasWatermask t \/
                 watermask t <> [] /\ hasWatermask tw = true) /\
                (watermask tw = watermask t \/
                 watermask tw = watermask_after (watermask t)) /\
                (watermask t <> [] ->
                 hasWatermask tw = true /\
                 watermask tw = watermask_after (watermask t))).
  { rewrite Hw. unfold same_mesh in *.
    destruct (watermask t) as [|row0 others] eqn:Ew.
    - repeat split; auto; congruence.
    - rewrite Ftl1 at 1.
      destruct tl, t; cbn in *; subst.
      repeat split; auto. }
  destruct Ftw as (Ftw1 & Ftw2 & Ftw3 & Ftw4 & Ftw5).
  assert (Ft : same_mesh t t) by (unfold same_mesh; now destruct t).
  split; [|split; [|split; [|split]]].
  - destruct Hcases as [-> | [-> | ->]]; assumption.
  - destruct Hcases as [-> | [-> | ->]]; auto; try (rewrite Ftw2; exact Ftl2).
  - destruct Hcases as [-> | [-> | ->]]; auto.
  - destruct Hcases as [-> | [-> | ->]]; auto.
  - intros HOk. rewrite (Hok HOk). split.
    + intros Hv. rewrite Ftw2. auto.
    + exact Ftw5.
Qed.


(** ** C10: encoding needs at least one vertex *)

(** C10: a tile whose vertex lists are empty cannot be encoded: [_writeTo]
    raises, and what it raises is the [IndexError] of the read of [u[0]]
    as soon as the header itself can be packed (which holds of every tile
    that the constructor or the decoder produced); when [u], [v] and [h] hold
    the same, positive number of entries the vertex section raises no
    [IndexError]. *)
Theorem writeTo_empty_IndexError `{Collaborators} (t : TerrainTile) :
  (u t = [] -> is_ok (W_result (_writeTo t)) = false) /\
  (u t = [] -> header_packable (header t) = true ->
   W_result (_writeTo t) = Raise IndexError) /\
  (u t <> [] -> length (v t) = length (u t) -> length (h t) = length (u t) ->
   W_result (write_vertices (Z.of_nat (length (u t))) t) <> Raise IndexError).
Proof.
  assert (Hcommon : u t = [] ->
            forall o, write_header quantizedMeshHeader t = (Ok tt, t, o) ->
            W_result (_writeTo t) = Raise IndexError).
  { intros Hu o Ho. unfold _writeTo.
    rewrite W_result_bind, Ho. cbn [W_result W_state fst snd].
    rewrite W_result_bind. cbn [W_self W_result W_state fst snd].
    rewrite W_result_bind, (write_vertices_empty t Hu). reflexivity. }
  split; [|split].
  - intros Hu.
    destruct (write_header quantizedMeshHeader t) as [[[[]|e] t1] o] eqn:E.
    + pose proof (W_pure_write_header quantizedMeshHeader t) as P.
      rewrite E in P. cbn in P. subst t1.
      now rewrite (Hcommon Hu o eq_refl).
    + unfold _writeTo. rewrite W_result_bind, E. reflexivity.
  - intros Hu Hp. destruct (write_header_packable t Hp) as (hb & Hhb & _).
    exact (Hcommon Hu hb Hhb).
  - apply write_vertices_not_IndexError.
Qed.

(** The empty tile of [TerrainTile()] raises [IndexError]; the vertex
    section of the square tile does not. *)
Lemma writeTo_empty_IndexError_witness :
  W_result (@_writeTo sample_collaborators empty_tile) = Raise IndexError /\
  W_result (write_vertices (Z.of_nat (length (u square_tile))) square_tile)
    <> Raise IndexError.
Proof.
  destruct (@writeTo_empty_IndexError sample_collaborators empty_tile)
    as (_ & H2 & _).
  destruct (@writeTo_empty_IndexError sample_collaborators square_tile)
    as (_ & _ & H3).
  split.
  - apply H2; reflexivity.
  - apply H3; [discriminate|reflexivity|reflexivity].
Defined.

(** ** C4: writing to an existing destination *)

(** C4: when the destination is an existing file, [toFile] raises the
    [IOError] of its guard and changes neither the file system nor the tile;
    no call of [toFile], whatever its destination, modifies an existing
    file; [toOurFile] on the same destination replaces the content of the
    file by what [_writeTo] wrote. *)
Theorem toFile_existing_destination `{Collaborators}
    (filePath : string) (gzipped : bool) (self : TerrainTile)
    (fs : gmap string (list byte)) (content : list byte) :
  fs !! filePath = Some content ->
  toFile filePath gzipped self fs = (Raise IOError, self, fs) /\
  (forall p gz t, snd (toFile p gz t fs) !! filePath = Some content) /\
  snd (toOurFile filePath gzipped self fs) !! filePath =
    Some (let out := W_output (_writeTo self) in
          if gzipped then gzip_compress out else out).
Proof.
  intros Hex. split; [|split].
  - unfold toFile. rewrite bool_decide_eq_true_2; [reflexivity|].
    rewrite Hex. eauto.
  - intros p gz t. unfold toFile.
    destruct (bool_decide (is_Some (fs !! p))) eqn:E; [exact Hex|].
    apply bool_decide_eq_false_1 in E.
    assert (p <> filePath) by (intros ->; apply E; rewrite Hex; eauto).
    unfold write_file. destruct (_writeTo t) as [[r t'] out]. cbn [snd].
    rewrite lookup_insert_ne by assumption. exact Hex.
  - unfold toOurFile, write_file.
    destruct (_writeTo self) as [[r t'] out]. cbn [snd W_output].
    apply lookup_insert_eq.
Qed.

(** On a file system that holds [tile.terrain], [toFile] refuses to write
    the square tile there and [toOurFile] overwrites the file. *)
Lemma toFile_existing_destination_witness :
  sample_fs !! "tile.terrain" = Some [x01; x02; x03] /\
  @toFile sample_collaborators "tile.terrain" false square_tile sample_fs
    = (Raise IOError, square_tile, sample_fs) /\
  snd (@toOurFile sample_collaborators "tile.terrain" false square_tile
         sample_fs) !! "tile.terrain"
    = Some (W_output (@_writeTo sample_collaborators square_tile)).
Proof.
  assert (Hex : sample_fs !! "tile.terrain" = Some [x01; x02; x03])
    by reflexivity.
  destruct (@toFile_existing_destination sample_collaborators
              "tile.terrain" false square_tile sample_fs _ Hex)
    as (H1 & _ & H3).
  split; [exact Hex|split; [exact H1|exact H3]].
Defined.

(** ** C3: an extension id that does not match the declaration *)

(** C3, as stated, fails: on the bytes of the square tile followed by a
    byte 7, decoding with [hasLighting=True] reads 7 as the extension id
    and returns normally, with no normal decoded; the same stream decoded
    with [hasWatermask=True] returns normally with no watermask. *)
Lemma fromBytesIO_id_mismatch_returns :
  R_rest (read_mesh true false
            (empty_tile, square_bytes_then_7)) = [x07] /\
  R_result (@fromBytesIO sample_collaborators true false
              (empty_tile, square_bytes_then_7)) = Ok tt /\
  vLight (R_tile (@fromBytesIO sample_collaborators true false
                    (empty_tile, square_bytes_then_7))) = [] /\
  R_result (@fromBytesIO sample_collaborators false true
              (empty_tile, square_bytes_then_7)) = Ok tt /\
  watermask (R_tile (@fromBytesIO sample_collaborators false true
                       (empty_tile, square_bytes_then_7))) = [].
Proof. repeat split; vm_compute; reflexivity. Qed.

(** C3, amended: an extension id that does not match the declaration
    raises nothing.  With lighting declared, an id other than 1 after the
    edge section makes the reader skip the lighting extension: it consumes
    the id byte only, decodes no normal, and [fromBytesIO] goes on as the
    watermask block does from the next byte: it returns there when the
    watermask is not declared, and when it is declared and the stream ends
    there, the read of the watermask id raises [struct.error].  With the
    watermask declared, an id other than 2 where the watermask extension
    is looked for, after the mesh and the lighting block if any, ends the
    decoding: the id byte is consumed, no watermask is decoded and
    [fromBytesIO] returns normally. *)
Theorem fromBytesIO_extension_id_mismatch `{Collaborators}
    (hl hw : bool) (st : TerrainTile * list byte) (t1 : TerrainTile)
    (b : byte) (rest : list byte) :
  (read_mesh true hw st = (Ok tt, (t1, b :: rest)) -> Z_of_byte b <> 1 ->
   read_lighting (t1, b :: rest) = (Ok tt, (t1, rest)) /\
   fromBytesIO true hw st = read_watermask (t1, rest) /\
   (hw = false -> fromBytesIO true hw st = (Ok tt, (t1, rest))) /\
   (hw = true -> rest = [] ->
    fromBytesIO true hw st = (Raise StructError, (t1, [])))) /\
  (R_bind (read_mesh hl true) (fun _ => read_lighting) st
   = (Ok tt, (t1, b :: rest)) ->
   Z_of_byte b <> 2 ->
   fromBytesIO hl true st = (Ok tt, (t1, rest))).
Proof.
  split.
  - intros Hmesh Hb. destruct (read_mesh_flags true hw st) as [Hl Hw].
    rewrite Hmesh in Hl, Hw. cbn [R_tile fst snd] in Hl, Hw.
    pose proof (read_lighting_mismatch t1 b rest Hl Hb) as Hskip.
    assert (Hrun : fromBytesIO true hw st = read_watermask (t1, rest)).
    { unfold fromBytesIO. rewrite (R_bind_Ok _ _ _ _ _ Hmesh).
      now rewrite (R_bind_Ok _ _ _ _ _ Hskip). }
    split; [exact Hskip|]. split; [exact Hrun|]. split.
    + intros ->. rewrite Hrun. now apply read_watermask_undeclared.
    + intros -> ->. rewrite Hrun. unfold read_watermask.
      rewrite (R_bind_Ok _ _ _ t1 (t1, [])) by reflexivity.
      rewrite Hw. reflexivity.
  - intros Hlit Hb.
    assert (Hw : hasWatermask t1 = true).
    { unfold R_bind in Hlit.
      pose proof (read_mesh_flags hl true st) as Hm.
      destruct (read_mesh hl true st) as [[[]|e] stm]; [|discriminate].
      pose proof (R_keeps_flags_read_lighting hl true stm Hm) as Hk.
      rewrite Hlit in Hk. exact (proj2 Hk). }
    unfold fromBytesIO.
    rewrite <- (R_bind_assoc (read_mesh hl true) (fun _ => read_lighting)
                  (fun _ => read_watermask) st).
    rewrite (R_bind_Ok _ _ _ _ _ Hlit).
    now apply read_watermask_mismatch.
Qed.

(** The square tile followed by a byte 7: read with lighting declared, the
    byte is skipped and the decoding returns; read with both extensions
    declared, the stream ends where the watermask id is looked for; read
    with the watermask declared, the byte is skipped and the decoding
    returns. *)
Lemma fromBytesIO_extension_id_mismatch_witness :
  (exists t1,
     read_mesh true false
       (empty_tile, square_bytes_then_7) = (Ok tt, (t1, [x07])) /\
     Z_of_byte x07 <> 1 /\
     @fromBytesIO sample_collaborators true false
       (empty_tile, square_bytes_then_7) = (Ok tt, (t1, []))) /\
  (exists t1,
     read_mesh true true
       (empty_tile, square_bytes_then_7) = (Ok tt, (t1, [x07])) /\
     @fromBytesIO sample_collaborators true true
       (empty_tile, square_bytes_then_7) = (Raise StructError, (t1, []))) /\
  (exists t1,
     Z_of_byte x07 <> 2 /\
     @fromBytesIO sample_collaborators false true
       (empty_tile, square_bytes_then_7) = (Ok tt, (t1, []))).
Proof.
  assert (Hb : Z_of_byte x07 <> 1) by (vm_compute; discriminate).
  assert (Hb2 : Z_of_byte x07 <> 2) by (vm_compute; discriminate).
  split; [|split].
  - eexists.
    assert (Hmesh : read_mesh true false
              (empty_tile, square_bytes_then_7)
            = (Ok tt, (R_tile (read_mesh true false
                                 (empty_tile, square_bytes_then_7)), [x07])))
      by (vm_compute; reflexivity).
    split; [exact Hmesh|split; [exact Hb|]].
    destruct (proj1 (@fromBytesIO_extension_id_mismatch sample_collaborators
                       false false _ _ _ _) Hmesh Hb) as (_ & _ & Hret & _).
    exact (Hret eq_refl).
  - eexists.
    assert (Hmesh : read_mesh true true
              (empty_tile, square_bytes_then_7)
            = (Ok tt, (R_tile (read_mesh true true
                                 (empty_tile, square_bytes_then_7)), [x07])))
      by (vm_compute; reflexivity).
    split; [exact Hmesh|].
    destruct (proj1 (@fromBytesIO_extension_id_mismatch sample_collaborators
                       false true _ _ _ _) Hmesh Hb) as (_ & _ & _ & Hend).
    exact (Hend eq_refl eq_refl).
  - eexists. split; [exact Hb2|].
    assert (Hlit : R_bind (read_mesh false true)
                     (fun _ => @read_lighting sample_collaborators)
                     (empty_tile, square_bytes_then_7)
                   = (Ok tt, (R_tile (read_mesh false true
                                        (empty_tile, square_bytes_then_7)),
                              [x07])))
      by (vm_compute; reflexivity).
    exact (proj2 (@fromBytesIO_extension_id_mismatch sample_collaborators
                    false true _ _ _ _) Hlit Hb2).
Defined.

(** ** C6: the flat tile *)

(** C6, as stated, fails: [_getDeltaHeight] keeps the range it computed
    first.  [TerrainTile(topology=square_topology)] caches the range 10;
    [fromTerrainTopology(flat_topology)] on that tile then writes 3 for both
    heights of the header and leaves the cached range, so that
    [_quantizeHeight(125.5)] on the tile, whose minimum and maximum heights
    are equal, returns 401396 and not 0.  And on a tile whose two heights
    are the same infinity, the range is not a number, the test [deniv == 0]
    fails and the rounding raises [ValueError]. *)
Lemma quantizeHeight_flat_stale_range :
  (@fromTerrainTopology sample_collaborators
     (TopologyObject flat_topology) None square_tile
   = (Ok tt, repopulated_tile) /\
   minimumHeight (header repopulated_tile) = 3%float /\
   maximumHeight (header repopulated_tile) = 3%float /\
   _deltaHeight repopulated_tile = Some 10%float /\
   fst (_quantizeHeight 125.5 repopulated_tile) = Ok 401396 /\
   fst (_quantizeHeight 125.5 repopulated_tile) <> Ok 0) /\
  ((maximumHeight (header unbounded_tile)
    =? minimumHeight (header unbounded_tile))%float = true /\
   fst (_quantizeHeight 125.5 unbounded_tile) = Raise ValueError).
Proof.
  split.
  - repeat split; try (vm_compute; reflexivity).
    vm_compute. discriminate.
  - split; vm_compute; reflexivity.
Qed.

(** C6, amended: on a tile whose header has equal, finite minimum and
    maximum heights, and whose cached height range is unset or is the one
    of the header, [_quantizeHeight] returns 0 for every height; it raises
    nothing, in particular no [ZeroDivisionError], and only caches the zero
    range. *)
Theorem quantizeHeight_flat (t : TerrainTile) (height : float) :
  is_finite (maximumHeight (header t)) = true ->
  (maximumHeight (header t) =? minimumHeight (header t))%float = true ->
  deltaHeight_coherent t ->
  _quantizeHeight height t =
    (Ok 0,
     set_deltaHeight
       (Some (maximumHeight (header t) - minimumHeight (header t))%float) t).
Proof.
  intros Hfin Heq Hcoh. unfold _quantizeHeight, T_bind.
  rewrite (getDeltaHeight_flat t Hfin Heq Hcoh).
  now rewrite (sub_eq_zero _ _ Hfin Heq).
Qed.

(** A tile whose header says 3 for both heights: every height, here 125.5,
    is quantized to 0. *)
Lemma quantizeHeight_flat_witness :
  let t := set_header (header_set (header_set zero_header "minimumHeight" 3)
                         "maximumHeight" 3) empty_tile in
  fst (_quantizeHeight 125.5 t) = Ok 0.
Proof.
  intros t.
  rewrite (quantizeHeight_flat t 125.5 eq_refl eq_refl I). reflexivity.
Defined.

(** ** C9: dequantization of the vertices *)

(** C9, as stated, fails: the coordinates are computed once.  After
    [TerrainTile(topology=square_topology)], [getVerticesCoordinates()] and
    [fromTerrainTopology(flat_topology)], the tile has four vertices, all
    of quantized height 0 under a header whose heights are both 3, and
    [getVerticesCoordinates] returns the five coordinates of the first
    topology: for vertex 1 the height 5.00015..., where the interpolation
    between the heights of the header gives 3.  Outside the data model, a
    tile whose [v] is shorter than its [u] raises [IndexError], and a
    quantized value beyond the doubles raises [OverflowError]. *)
Lemma getVerticesCoordinates_stale :
  (@fromTerrainTopology sample_collaborators
     (TopologyObject flat_topology) None square_computed
   = (Ok tt, repopulated_computed) /\
   length (u repopulated_computed) = 4%nat /\
   getVerticesCoordinates repopulated_computed
   = (Ok square_coordinates, repopulated_computed) /\
   length square_coordinates = 5%nat /\
   h repopulated_computed !! 1%nat = Some 0 /\
   over_MAX 0 = Ok 0%float /\
   lerp (minimumHeight (header repopulated_computed))
        (maximumHeight (header repopulated_computed)) 0 = 3%float /\
   exists lon lat height,
     square_coordinates !! 1%nat = Some (lon, lat, height) /\
     (height =? 3)%float = false /\ (3 <? height)%float = true) /\
  fst (getVerticesCoordinates ragged_tile) = Raise IndexError /\
  fst (getVerticesCoordinates huge_tile) = Raise OverflowError.
Proof.
  split; [|split; vm_compute; reflexivity].
  repeat split; try (vm_compute; reflexivity).
  vm_compute. do 3 eexists. repeat split.
Qed.

(** The dequantization as [over_MAX] and [lerp] compute it. *)
Lemma getVerticesCoordinates_fresh (t : TerrainTile) :
  coordinates_not_computed t ->
  length (v t) = length (u t) ->
  length (h t) = length (u t) ->
  Forall quantized (u t) -> Forall quantized (v t) -> Forall quantized (h t) ->
  exists coordinates t',
    getVerticesCoordinates t = (Ok coordinates, t') /\
    length coordinates = length (u t) /\
    forall i qu qv qh,
      u t !! i = Some qu -> v t !! i = Some qv -> h t !! i = Some qh ->
      exists tu tv th,
        over_MAX qu = Ok tu /\ over_MAX qv = Ok tv /\ over_MAX qh = Ok th /\
        coordinates !! i =
          Some (lerp (_west t) (_east t) tu,
                lerp (_south t) (_north t) tv,
                lerp (minimumHeight (header t)) (maximumHeight (header t)) th).
Proof.
  intros Hfresh Hlv Hlh Hu Hv Hh.
  destruct (Forall2_over_MAX (lerp (_west t) (_east t)) _ Hu) as [xs Hx].
  destruct (Forall2_over_MAX (lerp (_south t) (_north t)) _ Hv) as [ys Hy].
  destruct (Forall2_over_MAX
              (lerp (minimumHeight (header t)) (maximumHeight (header t)))
              _ Hh) as [zs Hz].
  pose proof (Forall2_length _ _ _ Hx) as Lx.
  pose proof (Forall2_length _ _ _ Hy) as Ly.
  pose proof (Forall2_length _ _ _ Hz) as Lz.
  set (t' := set_heights zs (set_lats ys (set_longs xs t))).
  destruct (enumerate_coordinates_Ok t' xs 0) as (coords & Hc & Hlen & Hk).
  { cbn. lia. }
  { cbn. lia. }
  exists coords, t'. split; [|split].
  - unfold getVerticesCoordinates, T_bind at 1.
    rewrite (computeVerticesCoordinates_fills t xs ys zs Hfresh Hx Hy Hz).
    fold t'. unfold T_bind. cbn [T_self T_lift].
    change (_longs t') with xs. change 0 with (Z.of_nat 0). now rewrite Hc.
  - lia.
  - intros i qu qv qh Hiu Hiv Hih.
    destruct (Forall2_lookup_l _ _ _ _ _ Hx Hiu) as (x & Hix & tu & Htu & ->).
    destruct (Forall2_lookup_l _ _ _ _ _ Hy Hiv) as (y & Hiy & tv & Htv & ->).
    destruct (Forall2_lookup_l _ _ _ _ _ Hz Hih) as (z & Hiz & th & Hth & ->).
    exists tu, tv, th. repeat split; try assumption.
    destruct (Hk i _ Hix) as (lat & height & Hlat & Hheight & ->).
    cbn in Hlat, Hheight. congruence.
Qed.

(** C9, amended: on a tile whose coordinates have not been computed yet
    (the three caches of [_computeVerticesCoordinates] are empty), whose
    three vertex lists have the same length and hold quantized values,
    [getVerticesCoordinates] returns one triple per vertex, and the triple
    of vertex [i] is [(1 - a) * west + a * east] with [a = u[i] / 32767],
    [(1 - b) * south + b * north] with [b = v[i] / 32767] and
    [(1 - c) * minimumHeight + c * maximumHeight] with [c = h[i] / 32767],
    in double precision, the bounds and the heights of the header being
    those of the tile at the call. *)
Theorem getVerticesCoordinates_lerp (t : TerrainTile) :
  coordinates_not_computed t ->
  length (v t) = length (u t) ->
  length (h t) = length (u t) ->
  Forall quantized (u t) -> Forall quantized (v t) -> Forall quantized (h t) ->
  exists coordinates t',
    getVerticesCoordinates t = (Ok coordinates, t') /\
    length coordinates = length (u t) /\
    forall i qu qv qh,
      u t !! i = Some qu -> v t !! i = Some qv -> h t !! i = Some qh ->
      let a := (PrimFloat.of_uint63 (Uint63.of_Z qu) / 32767)%float in
      let b := (PrimFloat.of_uint63 (Uint63.of_Z qv) / 32767)%float in
      let c := (PrimFloat.of_uint63 (Uint63.of_Z qh) / 32767)%float in
      coordinates !! i =
        Some (((1 - a) * _west t + a * _east t)%float,
              ((1 - b) * _south t + b * _north t)%float,
              ((1 - c) * minimumHeight (header t)
               + c * maximumHeight (header t))%float).
Proof.
  intros Hfresh Hlv Hlh Hu Hv Hh.
  destruct (getVerticesCoordinates_fresh t Hfresh Hlv Hlh Hu Hv Hh)
    as (coordinates & t' & Hc & Hl & Hk).
  exists coordinates, t'. split; [exact Hc|split; [exact Hl|]].
  intros i qu qv qh Hiu Hiv Hih.
  destruct (Hk i qu qv qh Hiu Hiv Hih)
    as (tu & tv & th & Htu & Htv & Hth & Hci).
  rewrite over_MAX_value in Htu by exact (Forall_lookup_1 _ _ _ _ Hu Hiu).
  rewrite over_MAX_value in Htv by exact (Forall_lookup_1 _ _ _ _ Hv Hiv).
  rewrite over_MAX_value in Hth by exact (Forall_lookup_1 _ _ _ _ Hh Hih).
  injection Htu as <-. injection Htv as <-. injection Hth as <-.
  exact Hci.
Qed.

(** The square tile, as the constructor built it: five coordinates, those
    of [square_coordinates]; vertex 2, quantized to (32767, 32767, 32767),
    is at (1, 1, 10) and vertex 0 at (0, 0, 0), between the bounds 0 and 1
    and the heights 0 and 10. *)
Lemma getVerticesCoordinates_lerp_witness :
  exists coordinates t',
    getVerticesCoordinates square_tile = (Ok coordinates, t') /\
    length coordinates = 5%nat /\
    coordinates !! 0%nat = Some (0, 0, 0)%float /\
    coordinates !! 2%nat = Some (1, 1, 10)%float /\
    coordinates = square_coordinates.
Proof.
  destruct (getVerticesCoordinates_lerp square_tile)
    as (c & t' & Hc & Hl & Hk).
  - repeat split.
  - reflexivity.
  - reflexivity.
  - repeat constructor; discriminate.
  - repeat constructor; discriminate.
  - repeat constructor; discriminate.
  - cbv zeta in Hk. exists c, t'. split; [exact Hc|]. split; [exact Hl|].
    split; [exact (Hk 0%nat 0 0 0 eq_refl eq_refl eq_refl)|].
    split; [exact (Hk 2%nat 32767 32767 32767 eq_refl eq_refl eq_refl)|].
    apply (list_eq_same_length c square_coordinates 5 eq_refl Hl).
    intros i x y Hi Hx Hy.
    destruct i as [|[|[|[|[|i]]]]]; [| | | | |lia].
    + pose proof (eq_trans (eq_sym Hx) (Hk 0%nat 0 0 0 eq_refl eq_refl eq_refl)) as Hxy.
      vm_compute in Hxy, Hy. congruence.
    + pose proof (eq_trans (eq_sym Hx) (Hk 1%nat 32767 0 16384 eq_refl eq_refl eq_refl)) as Hxy.
      vm_compute in Hxy, Hy. congruence.
    + pose proof (eq_trans (eq_sym Hx) (Hk 2%nat 32767 32767 32767 eq_refl eq_refl eq_refl)) as Hxy.
      vm_compute in Hxy, Hy. congruence.
    + pose proof (eq_trans (eq_sym Hx) (Hk 3%nat 0 32767 8192 eq_refl eq_refl eq_refl)) as Hxy.
      vm_compute in Hxy, Hy. congruence.
    + pose proof (eq_trans (eq_sym Hx) (Hk 4%nat 16384 8192 3277 eq_refl eq_refl eq_refl)) as Hxy.
      vm_compute in Hxy, Hy. congruence.
Defined.

(** ** C7: the edge lists *)

(** C7, as stated, fails: the edge lists are only appended to, and only
    the vertices of the triangles are looked at.  After
    [TerrainTile(topology=square_topology)], a call of
    [fromTerrainTopology(mirrored_topology)] leaves the four vertices of
    the corners in both [westI] and [eastI] although west and east differ,
    and [westI] lists vertex 0, whose quantized longitude is 32767.  And
    [TerrainTile(topology=loose_topology)] leaves vertex 5, whose quantized
    longitude is 0 and which no triangle mentions, out of [westI]. *)
Lemma fromTerrainTopology_edges_accumulate :
  (@fromTerrainTopology sample_collaborators
     (TopologyObject mirrored_topology) None square_tile
   = (Ok tt, mirrored_tile) /\
   (_west mirrored_tile =? _east mirrored_tile)%float = false /\
   u mirrored_tile = [32767; 0; 0; 32767; 16384] /\
   westI mirrored_tile = [0; 3; 1; 2] /\
   eastI mirrored_tile = [1; 2; 0; 3] /\
   (0 ∈ westI mirrored_tile /\ 0 ∈ eastI mirrored_tile) /\
   getitem (u mirrored_tile) 0 = Ok 32767) /\
  (@TerrainTile_init sample_collaborators
     (mkKwargs None None None None None None
        (Some (TopologyObject loose_topology))) = Ok loose_tile /\
   getitem (u loose_tile) 5 = Ok 0 /\
   westI loose_tile = [0; 3] /\
   5 ∉ westI loose_tile).
Proof.
  split.
  - repeat split; try (vm_compute; reflexivity);
      apply list_elem_of_In; vm_compute; auto.
  - repeat split; try (vm_compute; reflexivity).
    intros Hin. apply list_elem_of_In in Hin. vm_compute in Hin.
    destruct Hin as [Hin|[Hin|[]]]; discriminate.
Qed.

(** C7, amended: when [fromTerrainTopology] has run on a tile whose edge
    lists were empty, as in [TerrainTile(topology=...)], each of [westI],
    [southI], [eastI], [northI] lists the vertices of the triangles whose
    quantized longitude (respectively latitude) is 0 (respectively 32767),
    in first-encountered order and without repetition; these are all the
    vertices with that coordinate when the triangles mention every vertex;
    and no vertex is in both [westI] and [eastI]. *)
Theorem fromTerrainTopology_edge_lists `{Collaborators}
    (topology : TerrainTopology)
    (bounds : option (float * float * float * float))
    (t0 t1 : TerrainTile) :
  no_edges t0 ->
  fromTerrainTopology (TopologyObject topology) bounds t0 = (Ok tt, t1) ->
  indices t1 = indexData topology /\
  lists_edge (u t1) 0 (indices t1) (westI t1) /\
  lists_edge (u t1) 32767 (indices t1) (eastI t1) /\
  lists_edge (v t1) 0 (indices t1) (southI t1) /\
  lists_edge (v t1) 32767 (indices t1) (northI t1) /\
  (forall i, ~ (i ∈ westI t1 /\ i ∈ eastI t1)).
Proof.
  intros (Hw & Hs & He & Hn) Hrun. unfold fromTerrainTopology in Hrun.
  apply T_bind_Ok_inv in Hrun as ([] & ta & Hload & Hrun).
  apply T_bind_Ok_inv in Hrun as (self & ta' & Hself & Hrun).
  cbn in Hself. injection Hself as <- <-.
  apply T_bind_Ok_inv in Hrun as ([] & tb & Hloop & Hrun).
  apply T_bind_Ok_inv in Hrun as ([] & tc & Hflag & Hrun).
  cbn in Hflag. injection Hflag as <-.
  pose proof (load_topology_indices _ _ _ _ Hload) as Hind.
  pose proof (load_topology_edges topology bounds [] [] [] [] t0
                (conj Hw (conj Hs (conj He Hn)))) as Hedges.
  rewrite Hload in Hedges. cbn [snd] in Hedges.
  destruct Hedges as (Hw' & Hs' & He' & Hn').
  apply detect_edges_loop in Hloop. rewrite Hw', Hs', He', Hn' in Hloop.
  assert (Hfields :
    u t1 = u ta /\ v t1 = v ta /\ indices t1 = indices ta /\
    westI t1 = scan (has_coordinate (u ta) 0) [] (indices ta) /\
    southI t1 = scan (has_coordinate (v ta) 0) [] (indices ta) /\
    eastI t1 = scan (has_coordinate (u ta) 32767) [] (indices ta) /\
    northI t1 = scan (has_coordinate (v ta) 32767) [] (indices ta)).
  { destruct (topo_hasLighting topology); cbn in Hrun;
      injection Hrun as <-; rewrite Hloop; repeat split. }
  destruct Hfields as (Eu & Ev & Ei & Ew & Es & Ee & En).
  rewrite Eu, Ev, Ei, Ew, Es, Ee, En.
  pose proof (scan_lists_edge (u ta) 0 (indices ta)) as Lw.
  pose proof (scan_lists_edge (u ta) 32767 (indices ta)) as Le.
  split; [exact Hind|].
  split; [exact Lw|].
  split; [exact Le|].
  split; [apply scan_lists_edge|].
  split; [apply scan_lists_edge|].
  intros i [Hiw Hie].
  destruct Lw as (_ & _ & Mw & _). destruct Le as (_ & _ & Me & _).
  apply Mw in Hiw as [_ Hiw]. apply Me in Hie as [_ Hie].
  congruence.
Qed.

(** The constructor on the square topology: the west edge holds vertices 0
    and 3, the east edge vertices 1 and 2. *)
Lemma fromTerrainTopology_edge_lists_witness :
  exists t1,
    @fromTerrainTopology sample_collaborators
      (TopologyObject square_topology) None empty_tile = (Ok tt, t1) /\
    lists_edge (u t1) 0 (indices t1) (westI t1) /\
    westI t1 = [0; 3] /\ eastI t1 = [1; 2].
Proof.
  assert (Hrun : @fromTerrainTopology sample_collaborators
                   (TopologyObject square_topology) None empty_tile
                 = (Ok tt, square_tile)) by (vm_compute; reflexivity).
  exists square_tile. split; [exact Hrun|].
  destruct (@fromTerrainTopology_edge_lists sample_collaborators
              square_topology None empty_tile square_tile)
    as (_ & Lw & _).
  - repeat split.
  - exact Hrun.
  - split; [exact Lw|split; reflexivity].
Defined.

(** ** C1: the width of the index words *)

(** C1: the writer selects the word of the triangle block and of the four
    edge blocks from the vertex count alone, 32 bits above [BYTESPLIT] and
    16 bits otherwise, and writes the five blocks with it; the reader
    selects the same word for the triangle block and, up to [BYTESPLIT],
    for the edge blocks; above [BYTESPLIT] it takes the edge keys from the
    table of the triangle block, which lacks them, and raises [KeyError] at
    the first edge block instead of reading it with 32-bit words. *)
Theorem index_width_uniform (t t0 : TerrainTile) (rest : list byte) :
  valid_mesh t ->
  let n := Z.of_nat (length (u t)) in
  let w := if BYTESPLIT <? n then fmt_I else fmt_H in
  write_indices n t
  = (Ok tt, t,
     le_bytes 4 (Z.of_nat (length (indices t)) / 3)
     ++ words w (encodeIndices (indices t))) /\
  write_edges n t
  = (Ok tt, t,
     edge_block w (westI t) ++ edge_block w (southI t)
     ++ edge_block w (eastI t) ++ edge_block w (northI t)) /\
  read_indices n (t0, W_output (write_indices n t) ++ rest)
  = (Ok tt, (set_indices (indices t) t0, rest)) /\
  (n <= BYTESPLIT ->
   read_edges n (t0, W_output (write_edges n t) ++ rest)
   = (Ok tt,
      (set_northI (northI t0 ++ northI t)
         (set_eastI (eastI t0 ++ eastI t)
            (set_southI (southI t0 ++ southI t)
               (set_westI (westI t0 ++ westI t) t0))),
       rest))) /\
  (BYTESPLIT < n ->
   table_get (edge_meta_w n) "westIndices" = Ok fmt_I /\
   edge_meta_r n = indexData32 /\
   read_edges n (t0, W_output (write_edges n t) ++ rest)
   = (Raise (KeyError "westVertexCount"),
      (t0, W_output (write_edges n t) ++ rest))).
Proof.
  intros V n w.
  assert (Hw : w = index_width n) by reflexivity.
  pose proof (write_indices_valid t V) as Hi.
  pose proof (write_edges_valid t V) as He.
  fold n in Hi, He. rewrite Hw.
  split; [exact Hi|]. split; [exact He|].
  rewrite Hi, He. cbn [W_output snd].
  split; [exact (read_indices_valid t t0 rest V)|].
  split.
  - intros Hn. exact (read_edges_narrow t t0 rest V Hn).
  - intros Hn. split; [|split].
    + unfold edge_meta_w.
      replace (BYTESPLIT <? n) with true by (symmetry; apply Z.ltb_lt; lia).
      reflexivity.
    + unfold edge_meta_r.
      replace (BYTESPLIT <? n) with true by (symmetry; apply Z.ltb_lt; lia).
      reflexivity.
    + exact (read_edges_wide n _ Hn).
Qed.

Lemma index_width_uniform_witness :
  valid_mesh wide_tile /\
  read_edges 65637
    (empty_tile, W_output (write_edges 65637 wide_tile) ++ [])
  = (Raise (KeyError "westVertexCount"),
     (empty_tile, W_output (write_edges 65637 wide_tile) ++ [])).
Proof.
  split; [exact wide_tile_valid|].
  pose proof (index_width_uniform wide_tile empty_tile [] wide_tile_valid)
    as Hu.
  cbv zeta in Hu. rewrite wide_tile_count in Hu.
  destruct Hu as (_ & _ & _ & _ & Hwide).
  destruct Hwide as (_ & _ & Hr); [reflexivity|exact Hr].
Defined.

(** ** C2: writing a tile and reading it back *)

(** C2: whenever [_writeTo] returns on a valid tile of more than
    [BYTESPLIT] vertices, [fromBytesIO] raises [KeyError] on the bytes it
    wrote, whatever extensions are declared: nothing is read back.  (Up to
    [BYTESPLIT] vertices the vertices, triangles and edges are read back
    as they were: [fromBytesIO_narrow].) *)
Theorem roundtrip_wide_KeyError `{Collaborators}
    (hl hw : bool) (t t' t0 : TerrainTile) (bytes : list byte) :
  valid_mesh t ->
  BYTESPLIT < Z.of_nat (length (u t)) ->
  _writeTo t = (Ok tt, t', bytes) ->
  R_result (fromBytesIO hl hw (t0, bytes))
  = Raise (KeyError "westVertexCount").
Proof.
  intros V Hn Hwr.
  destruct (writeTo_valid t V) as (hb & Hlen & _ & Hout).
  rewrite Hwr in Hout. cbv zeta in Hout.
  injection Hout as _ _ ->.
  exact (fromBytesIO_wide hl hw t t0 hb _ V Hlen Hn).
Qed.

Lemma roundtrip_wide_KeyError_witness :
  exists bytes,
    @_writeTo sample_collaborators wide_tile = (Ok tt, wide_tile, bytes) /\
    R_result (@fromBytesIO sample_collaborators false false
                (empty_tile, bytes))
    = Raise (KeyError "westVertexCount").
Proof.
  destruct (@writeTo_no_extension sample_collaborators wide_tile
              wide_tile_valid eq_refl eq_refl) as (hb & _ & Hout).
  exists (mesh_bytes hb wide_tile). split; [exact Hout|].
  apply (@roundtrip_wide_KeyError sample_collaborators false false
           wide_tile wide_tile empty_tile _ wide_tile_valid).
  - rewrite wide_tile_count. reflexivity.
  - exact Hout.
Defined.

(** ** C8: the watermask, written and read back *)

(** C8: let [t] be a valid tile whose watermask is a uniform byte or a
    grid of 256 rows of 256 bytes, and let [_writeTo] return on it.  When
    [t] has at most [BYTESPLIT] vertices, [fromBytesIO], with the watermask
    declared and the lighting declared as it was written, returns at the
    end of the bytes and has appended to the watermask of the tile it fills
    the rows of [t], cell by cell and in their order: for a new tile, the
    same byte, or the same grid.  When [t] has more vertices, the reader
    raises [KeyError] at the edge blocks and the watermask is not
    reached. *)
Theorem watermask_roundtrip `{Collaborators} (rows : list (list Z))
    (t t' t0 : TerrainTile) (bytes : list byte) :
  valid_mesh t -> octDecode_total ->
  watermask t = map (map Some) rows ->
  uniform_mask rows \/ grid_mask rows ->
  _writeTo t = (Ok tt, t', bytes) ->
  (Z.of_nat (length (u t)) <= BYTESPLIT ->
   exists t1,
     fromBytesIO (has_normals t) true (t0, bytes) = (Ok tt, (t1, [])) /\
     watermask t1 = watermask t0 ++ map (map Some) rows) /\
  (BYTESPLIT < Z.of_nat (length (u t)) ->
   R_result (fromBytesIO (has_normals t) true (t0, bytes))
   = Raise (KeyError "westVertexCount")).
Proof.
  intros V Htotal Hw Hrows Hwr. split; intros Hn.
  - exact (fromBytesIO_mask rows t t' t0 bytes V Htotal Hw Hrows Hwr Hn).
  - exact (fromBytesIO_mask_wide _ _ t t' t0 bytes V Hwr Hn).
Qed.

Lemma watermask_roundtrip_witness :
  (exists bytes t1,
     @_writeTo sample_collaborators uniform_mask_tile
     = (Ok tt, set_hasWatermask true uniform_mask_tile, bytes) /\
     @fromBytesIO sample_collaborators false true (empty_tile, bytes)
     = (Ok tt, (t1, [])) /\
     watermask t1 = [[Some 1]]) /\
  (exists bytes t1,
     @_writeTo sample_collaborators grid_mask_tile
     = (Ok tt, set_hasWatermask true grid_mask_tile, bytes) /\
     @fromBytesIO sample_collaborators false true (empty_tile, bytes)
     = (Ok tt, (t1, [])) /\
     watermask t1 = map (map Some) sample_rows) /\
  (exists bytes,
     @_writeTo sample_collaborators wide_mask_tile
     = (Ok tt, set_hasWatermask true wide_mask_tile, bytes) /\
     R_result (@fromBytesIO sample_collaborators false true
                 (empty_tile, bytes))
     = Raise (KeyError "westVertexCount")).
Proof.
  assert (Hu : uniform_mask [[1]]).
  { exists 1. split; [reflexivity|]. apply fits_check. reflexivity. }
  split; [|split].
  - pose proof (valid_mesh_set_watermask [[Some 1]] _ square_tile_valid)
      as V.
    destruct (@writeTo_mask sample_collaborators [[1]] uniform_mask_tile
                V eq_refl eq_refl (or_introl Hu)) as (hb & _ & Hwr).
    destruct (@watermask_roundtrip sample_collaborators [[1]]
                uniform_mask_tile _ empty_tile _ V sample_octDecode_total
                eq_refl (or_introl Hu) Hwr) as [Hnarrow _].
    destruct Hnarrow as (t1 & Hr & Hm); [vm_compute; discriminate|].
    eexists. exists t1. split; [exact Hwr|]. split; [exact Hr|exact Hm].
  - pose proof (valid_mesh_set_watermask (map (map Some) sample_rows) _
                  square_tile_valid) as V.
    destruct (@writeTo_mask sample_collaborators sample_rows grid_mask_tile
                V eq_refl eq_refl (or_intror sample_rows_grid))
      as (hb & _ & Hwr).
    destruct (@watermask_roundtrip sample_collaborators sample_rows
                grid_mask_tile _ empty_tile _ V sample_octDecode_total
                eq_refl (or_intror sample_rows_grid) Hwr) as [Hnarrow _].
    destruct Hnarrow as (t1 & Hr & Hm); [vm_compute; discriminate|].
    eexists. exists t1. split; [exact Hwr|]. split; [exact Hr|exact Hm].
  - pose proof (valid_mesh_set_watermask [[Some 1]] _ wide_tile_valid) as V.
    destruct (@writeTo_mask sample_collaborators [[1]] wide_mask_tile
                V eq_refl eq_refl (or_introl Hu)) as (hb & _ & Hwr).
    destruct (@watermask_roundtrip sample_collaborators [[1]]
                wide_mask_tile _ empty_tile _ V sample_octDecode_total
                eq_refl (or_introl Hu) Hwr) as [_ Hwide].
    eexists. split; [exact Hwr|]. apply Hwide.
    change (u wide_mask_tile) with (u wide_tile).
    rewrite wide_tile_count. reflexivity.
Defined.

(** * Further properties *)

(** ** The reader never looks ahead *)

Create HintDb rlocal.

Lemma R_local_ret {A} (a : A) : R_local (R_ret a).
Proof. intros t bs a' t' r s [= <- <- <-]. reflexivity. Qed.

Lemma R_local_lift {A} (x : result A) : R_local (R_lift x).
Proof. intros t bs a t' r s [= -> <- <-]. reflexivity. Qed.

Lemma R_local_self : R_local R_self.
Proof. intros t bs a t' r s [= <- <- <-]. reflexivity. Qed.

Lemma R_local_assign (f : TerrainTile -> TerrainTile) : R_local (R_assign f).
Proof. intros t bs a t' r s [= <- <- <-]. reflexivity. Qed.

Lemma read_bytes_app (n : nat) (bs s : list byte) :
  length (take n bs) = n ->
  read_bytes n (bs ++ s) = (take n bs, drop n bs ++ s).
Proof.
  intros Hlen. rewrite length_take in Hlen. unfold read_bytes.
  rewrite take_app_le, drop_app_le by lia. reflexivity.
Qed.

Lemma R_local_unpack (structType : ifmt) : R_local (R_unpack structType).
Proof.
  intros t bs a t' r s. unfold R_unpack, unpackEntry. cbn [fst snd].
  destruct (length (take (isize structType) bs) =? isize structType)%nat
    eqn:E; unfold read_bytes at 1; rewrite E; [|discriminate].
  apply Nat.eqb_eq in E. intros [= <- <- <-].
  rewrite (read_bytes_app _ _ _ E), E, Nat.eqb_refl. reflexivity.
Qed.

Lemma R_local_unpack_float (structType : ffmt) :
  R_local (R_unpack_float structType).
Proof.
  intros t bs a t' r s. unfold R_unpack_float, unpackEntry_float.
  cbn [fst snd].
  destruct (length (take (fsize structType) bs) =? fsize structType)%nat
    eqn:E; unfold read_bytes at 1; rewrite E; [|discriminate].
  apply Nat.eqb_eq in E.
  rewrite (read_bytes_app _ _ _ E), E, Nat.eqb_refl.
  destruct structType; intros [= <- <- <-]; reflexivity.
Qed.

Lemma R_local_bind {A B} (m : R A) (k : A -> R B) :
  R_local m -> (forall a, R_local (k a)) -> R_local (R_bind m k).
Proof.
  intros Hm Hk t bs b t' r s. unfold R_bind.
  destruct (m (t, bs)) as [[a|e] [t1 r1]] eqn:E; [|discriminate].
  rewrite (Hm _ _ _ _ _ s E). apply Hk.
Qed.

#[export] Hint Resolve R_local_ret R_local_lift R_local_self R_local_assign
  R_local_unpack R_local_unpack_float : rlocal.

Ltac R_local_steps :=
  repeat first
    [ solve [auto with rlocal]
    | apply R_local_bind; [|intros ?] ].

Lemma R_local_read_entry meta key : R_local (read_entry meta key).
Proof. unfold read_entry. R_local_steps. Qed.

#[export] Hint Resolve R_local_read_entry : rlocal.

Lemma R_local_read_header meta : R_local (read_header meta).
Proof.
  induction meta as [|[k v] meta IH]; cbn [read_header]; R_local_steps.
Qed.

Lemma R_local_iterVertices n structType delta (yield : Z -> R unit) :
  (forall x, R_local (yield x)) ->
  R_local (_iterUnpackAndDecodeVertices n structType delta yield).
Proof.
  intros Hy. revert delta.
  induction n as [|n IH]; intros delta; cbn [_iterUnpackAndDecodeVertices];
    R_local_steps; first [apply Hy|apply IH].
Qed.

Lemma R_local_iterIndices n structType (yield : Z -> R unit) :
  (forall x, R_local (yield x)) ->
  R_local (_iterUnpackIndices n structType yield).
Proof.
  intros Hy. induction n as [|n IH]; cbn [_iterUnpackIndices];
    R_local_steps; first [apply Hy|apply IH].
Qed.

Lemma R_local_iterIndices_list n structType :
  R_local (_iterUnpackIndices_list n structType).
Proof.
  induction n as [|n IH]; cbn [_iterUnpackIndices_list]; R_local_steps.
Qed.

Lemma R_local_iterWatermask n structType i row (yield : list Z -> R unit) :
  (forall x, R_local (yield x)) ->
  R_local (_iterUnpackWatermaskRow n structType i row yield).
Proof.
  intros Hy. revert i row.
  induction n as [|n IH]; intros i row; cbn [_iterUnpackWatermaskRow].
  - destruct row; [auto with rlocal|apply Hy].
  - apply R_local_bind; [auto with rlocal|intros x].
    destruct (i =? 255); [|apply IH].
    apply R_local_bind; [apply Hy|intros _; apply IH].
Qed.

Lemma R_local_read_vertices : R_local read_vertices.
Proof.
  unfold read_vertices.
  repeat first
    [ apply R_local_iterVertices; intros ?
    | solve [auto with rlocal]
    | apply R_local_bind; [|intros ?] ].
Qed.

Lemma R_local_read_indices n : R_local (read_indices n).
Proof.
  unfold read_indices. cbv zeta.
  repeat first
    [ apply R_local_iterIndices_list
    | solve [auto with rlocal]
    | apply R_local_bind; [|intros ?] ].
Qed.

Lemma R_local_read_edge meta countKey key append :
  R_local (read_edge meta countKey key append).
Proof.
  unfold read_edge.
  repeat first
    [ apply R_local_iterIndices; intros ?
    | solve [auto with rlocal]
    | apply R_local_bind; [|intros ?] ].
Qed.

Lemma R_local_read_edges n : R_local (read_edges n).
Proof.
  unfold read_edges. cbv zeta.
  repeat first
    [ apply R_local_read_edge
    | apply R_local_bind; [|intros ?] ].
Qed.

Lemma R_local_read_mesh hl hw : R_local (read_mesh hl hw).
Proof.
  unfold read_mesh.
  repeat first
    [ apply R_local_read_header
    | apply R_local_read_vertices
    | apply R_local_read_indices
    | apply R_local_read_edges
    | solve [auto with rlocal]
    | apply R_local_bind; [|intros ?] ].
Qed.

Lemma R_local_read_watermask : R_local read_watermask.
Proof.
  unfold read_watermask. apply R_local_bind; [auto with rlocal|intros self].
  destruct (hasWatermask self); [|auto with rlocal].
  apply R_local_bind; [auto with rlocal|intros extensionId].
  destruct (extensionId =? 2); [|auto with rlocal].
  repeat first
    [ apply R_local_iterWatermask; intros ?
    | solve [auto with rlocal]
    | apply R_local_bind; [|intros ?] ].
Qed.

Section LocalLighting.
Context `{Collaborators}.

Lemma R_local_light_loop n structType (yield : vec3 -> R unit) :
  (forall x, R_local (yield x)) -> R_local (light_loop n structType yield).
Proof.
  intros Hy. induction n as [|n IH]; cbn [light_loop];
    R_local_steps; first [apply Hy|apply IH].
Qed.

Lemma R_local_iterLight extensionLength structType (yield : vec3 -> R unit) :
  (forall x, R_local (yield x)) ->
  R_local (_iterUnpackAndDecodeLight extensionLength structType yield).
Proof.
  intros Hy. unfold _iterUnpackAndDecodeLight.
  destruct (Z.even extensionLength); [now apply R_local_light_loop|].
  intros t bs a t' r s. unfold R_bind, R_lift.
  destruct (light_loop _ _ _ _) as [[[]|e] st1]; discriminate.
Qed.

Lemma R_local_read_lighting : R_local read_lighting.
Proof.
  unfold read_lighting. apply R_local_bind; [auto with rlocal|intros self].
  destruct (bool_decide _); [|auto with rlocal].
  apply R_local_bind; [auto with rlocal|intros extensionId].
  destruct (extensionId =? 1); [|auto with rlocal].
  repeat first
    [ apply R_local_iterLight; intros ?
    | solve [auto with rlocal]
    | apply R_local_bind; [|intros ?] ].
Qed.

Lemma R_local_fromBytesIO hl hw : R_local (fromBytesIO hl hw).
Proof.
  unfold fromBytesIO.
  repeat first
    [ apply R_local_read_mesh
    | apply R_local_read_lighting
    | apply R_local_read_watermask
    | apply R_local_bind; [|intros ?] ].
Qed.
End LocalLighting.

(** ** More on the extensions *)

Section ExtMore.
Context `{Collaborators}.

Lemma write_lighting_none (n : Z) (t : TerrainTile) :
  vLight t = [] -> write_lighting n t = (Ok tt, t, []).
Proof.
  intros Hl. unfold write_lighting.
  apply (W_bind_silent _ _ t t t); [reflexivity|]. now rewrite Hl.
Qed.

(** What a valid tile without normals is written as, whatever the
    watermask block does. *)
Lemma writeTo_watermask_block (t t' : TerrainTile) (r : result unit)
    (o : list byte) :
  valid_mesh t -> vLight t = [] -> write_watermask t = (r, t', o) ->
  exists hb, length hb = 88%nat /\ _writeTo t = (r, t', mesh_bytes hb t ++ o).
Proof.
  intros V Hl Hw.
  destruct (writeTo_valid t V) as (hb & Hlen & _ & Hout).
  exists hb. split; [exact Hlen|]. rewrite Hout. cbv zeta.
  rewrite (W_bind_silent _ _ t tt t _ (write_lighting_none _ t Hl) Hw).
  reflexivity.
Qed.

(** A single row is written as its first cell, whatever its length. *)
Lemma write_watermask_row (b : Z) (cells : list (option Z))
    (t : TerrainTile) :
  watermask t = [Some b :: cells] -> fits fmt_B b ->
  write_watermask t
  = (Ok tt, set_hasWatermask true t, watermask_bytes [[b]]).
Proof.
  intros Hw Hb. unfold write_watermask, watermask_bytes.
  apply (W_bind_silent _ _ t t t); [reflexivity|].
  rewrite Hw.
  apply (W_bind_silent _ _ t tt (set_hasWatermask true t)); [reflexivity|].
  apply (W_bind_out _ _ _ tt (set_hasWatermask true t)).
  { apply (write_entry_Ok _ _ fmt_B); [reflexivity|cbn; lia]. }
  change (1 <? Z.of_nat (length [Some b :: cells])) with false. cbv iota.
  change (1 <? Z.of_nat (length [[b]])) with false. cbv iota.
  apply (W_bind_out _ _ _ tt (set_hasWatermask true t)).
  { apply (write_entry_Ok _ _ fmt_I); [reflexivity|split; [lia|reflexivity]]. }
  apply (W_bind_silent _ _ _ (Some b) (set_hasWatermask true t)).
  { unfold W_lift. now rewrite getitem_0_cons. }
  apply (W_bind_silent _ _ _ tt (set_hasWatermask true t)); [reflexivity|].
  apply (W_bind_silent _ _ _ (set_hasWatermask true t)
           (set_hasWatermask true t)); [reflexivity|].
  assert (Hw' : watermask (set_hasWatermask true t) = [Some b :: cells])
    by exact Hw.
  rewrite Hw'.
  apply (W_bind_silent _ _ _ (Some b :: cells) (set_hasWatermask true t));
    [reflexivity|].
  apply (W_bind_silent _ _ _ (Some b) (set_hasWatermask true t)).
  { unfold W_lift. now rewrite getitem_0_cons. }
  apply (W_bind_silent _ _ _ fmt_B (set_hasWatermask true t));
    [reflexivity|].
  apply (W_bind_silent _ _ _ b (set_hasWatermask true t)); [reflexivity|].
  apply (W_bind_silent _ _ _ (le_bytes 1 b) (set_hasWatermask true t)).
  { unfold W_lift. now rewrite (packEntry_Ok fmt_B b Hb). }
  unfold words, W_write. cbn [concat map]. now rewrite !app_nil_r.
Qed.

(** More than one row, but not 256: the extension header is written, then
    the writer raises. *)
Lemma write_watermask_rows_error (t : TerrainTile) :
  1 < Z.of_nat (length (watermask t)) ->
  Z.of_nat (length (watermask t)) <> 256 ->
  write_watermask t
  = (Raise (Exception "Unexpected number of rows for the watermask"),
     set_hasWatermask true t, le_bytes 1 2 ++ le_bytes 4 TILEPXS).
Proof.
  intros H1 H256. unfold write_watermask.
  apply (W_bind_silent _ _ t t t); [reflexivity|].
  destruct (watermask t) as [|row0 others] eqn:Hw; [cbn in H1; lia|].
  apply (W_bind_silent _ _ t tt (set_hasWatermask true t)); [reflexivity|].
  apply (W_bind_out _ _ _ tt (set_hasWatermask true t)).
  { apply (write_entry_Ok _ _ fmt_B); [reflexivity|cbn; lia]. }
  replace (1 <? Z.of_nat (length (row0 :: others))) with true
    by (symmetry; now apply Z.ltb_lt).
  rewrite <- (app_nil_r (le_bytes 4 TILEPXS)).
  apply (W_bind_out _ _ _ tt (set_hasWatermask true t)).
  { apply (write_entry_Ok _ _ fmt_I);
      [reflexivity|unfold TILEPXS; split; [lia|reflexivity]]. }
  replace (Z.of_nat (length (row0 :: others)) =? 256) with false
    by (symmetry; now apply Z.eqb_neq).
  reflexivity.
Qed.

(** The rows are written up to the first one that does not have 256
    cells. *)
Lemma write_rows_columns_error (good : list (list Z))
    (bad : list (option Z)) (others : list (list (option Z)))
    (t : TerrainTile) :
  Forall (fun r => length r = 256%nat /\ Forall (fits fmt_B) r) good ->
  length bad <> 256%nat ->
  write_rows (map (map Some) good ++ bad :: others) t
  = (Raise (Exception "Unexpected number of columns for the watermask"),
     t, words fmt_B (concat good)).
Proof.
  intros Hgood Hbad. induction Hgood as [|r good [Hlen Hr] _ IH].
  - cbn [map app write_rows].
    replace (length bad =? 256)%nat with false
      by (symmetry; now apply Nat.eqb_neq).
    reflexivity.
  - cbn [map app write_rows]. rewrite length_map, Hlen.
    change (negb (256 =? 256)%nat) with false. cbv iota.
    replace (words fmt_B (concat (r :: good)))
      with (words fmt_B r ++ words fmt_B (concat good))
      by (cbn [concat]; now rewrite words_app).
    apply (W_bind_out _ _ t tt t); [now apply write_cells_words|exact IH].
Qed.

Lemma write_watermask_columns_error (good : list (list Z))
    (bad : list (option Z)) (others : list (list (option Z)))
    (t : TerrainTile) :
  watermask t = map (map Some) good ++ bad :: others ->
  length (watermask t) = 256%nat ->
  Forall (fun r => length r = 256%nat /\ Forall (fits fmt_B) r) good ->
  length bad <> 256%nat ->
  write_watermask t
  = (Raise (Exception "Unexpected number of columns for the watermask"),
     set_hasWatermask true t,
     le_bytes 1 2 ++ le_bytes 4 TILEPXS ++ words fmt_B (concat good)).
Proof.
  intros Hw Hlen Hgood Hbad. unfold write_watermask.
  apply (W_bind_silent _ _ t t t); [reflexivity|].
  destruct (watermask t) as [|row0 rows] eqn:Ew; [discriminate Hlen|].
  apply (W_bind_silent _ _ t tt (set_hasWatermask true t)); [reflexivity|].
  apply (W_bind_out _ _ _ tt (set_hasWatermask true t)).
  { apply (write_entry_Ok _ _ fmt_B); [reflexivity|cbn; lia]. }
  rewrite Hlen. change (1 <? Z.of_nat 256) with true. cbv iota.
  apply (W_bind_out _ _ _ tt (set_hasWatermask true t)).
  { apply (write_entry_Ok _ _ fmt_I);
      [reflexivity|unfold TILEPXS; split; [lia|reflexivity]]. }
  change (negb (Z.of_nat 256 =? 256)) with false. cbv iota.
  rewrite Hw. now apply write_rows_columns_error.
Qed.

(** Reading a valid mesh of at most [BYTESPLIT] vertices followed by a
    watermask extension, with the watermask alone declared. *)
Lemma fromBytesIO_mesh_mask (rows : list (list Z)) (t t0 : TerrainTile)
    (hb : list byte) :
  valid_mesh t -> length hb = 88%nat ->
  Z.of_nat (length (u t)) <= BYTESPLIT ->
  uniform_mask rows \/ grid_mask rows ->
  exists t1,
    fromBytesIO false true (t0, mesh_bytes hb t ++ watermask_bytes rows)
    = (Ok tt, (t1, [])) /\
    watermask t1 = watermask t0 ++ map (map Some) rows.
Proof.
  intros V Hlen Hn Hrows.
  destruct (read_mesh_narrow false true t t0 hb (watermask_bytes rows)
              V Hlen Hn) as [hd Hmesh].
  destruct (mesh_read_extensions false true hd t t0) as (Fl & Fw & _ & Fm).
  set (tm := mesh_read false true hd t t0) in *.
  exists (set_watermask (watermask tm ++ map (map Some) rows) tm).
  split; [|now rewrite <- Fm].
  unfold fromBytesIO. rewrite (R_bind_Ok _ _ _ _ _ Hmesh).
  rewrite (R_bind_Ok _ _ _ _ _ (read_lighting_undeclared (tm, _) Fl)).
  rewrite <- (app_nil_r (watermask_bytes rows)).
  exact (read_watermask_bytes rows tm [] Fw Hrows).
Qed.

(** When the normals are written there is one for every vertex. *)
Lemma write_normals_enough (n : nat) (s : list vec3) (t t' : TerrainTile)
    (o : list byte) :
  write_normals n s t = (Ok tt, t', o) -> (n <= length s)%nat.
Proof.
  revert s t t' o. induction n as [|n IH]; intros s t t' o; [lia|].
  destruct s as [|normal s]; [discriminate|]. cbn [write_normals length].
  intros Hrun.
  apply W_bind_Ok_inv in Hrun as (xy & t1 & o1 & o2 & _ & Hrun & _).
  apply W_bind_Ok_inv in Hrun as ([] & t2 & o2' & o3 & _ & Hrun & _).
  apply W_bind_Ok_inv in Hrun as ([] & t3 & o3' & o4 & _ & Hrun & _).
  apply IH in Hrun. lia.
Qed.

Lemma write_lighting_enough (n : Z) (t t' : TerrainTile) (o : list byte) :
  vLight t <> [] -> write_lighting n t = (Ok tt, t', o) ->
  (Z.to_nat n <= length (vLight t))%nat.
Proof.
  intros Hne. unfold write_lighting. intros Hrun.
  apply W_bind_Ok_inv in Hrun as (self & t1 & o1 & o2 & H1 & Hrun & _).
  unfold W_self in H1. injection H1 as <- <- _.
  destruct (vLight t) as [|x l] eqn:E; [congruence|].
  replace (0 <? Z.of_nat (length (x :: l))) with true in Hrun
    by (symmetry; apply Z.ltb_lt; cbn [length]; lia).
  apply W_bind_Ok_inv in Hrun as ([] & t2 & o2' & o3 & _ & Hrun & _).
  apply W_bind_Ok_inv in Hrun as ([] & t3 & o3' & o4 & _ & Hrun & _).
  apply W_bind_Ok_inv in Hrun as ([] & t4 & o4' & o5 & _ & Hrun & _).
  now apply write_normals_enough in Hrun.
Qed.
End ExtMore.

(** ** What [fromTerrainTopology] assigns *)

Lemma T_map_length {A B} (f : A -> T B) (xs : list A) (ys : list B)
    (t t' : TerrainTile) :
  T_map f xs t = (Ok ys, t') -> length ys = length xs.
Proof.
  revert ys t t'. induction xs as [|x xs IH]; intros ys t t' Hrun.
  - cbn in Hrun. injection Hrun as <- _. reflexivity.
  - cbn [T_map] in Hrun.
    apply T_bind_Ok_inv in Hrun as (y & t1 & _ & Hrun).
    apply T_bind_Ok_inv in Hrun as (ys' & t2 & Hrest & Hrun).
    cbn in Hrun. injection Hrun as <- _. cbn [length].
    now rewrite (IH _ _ _ Hrest).
Qed.

(** The header loop of [fromTerrainTopology] as one assignment. *)
Lemma header_loop (value : string -> option float) (ks : list string)
    (t : TerrainTile) :
  T_for ks (fun k =>
    match value k with
    | Some x => T_assign (fun t => set_header (header_set (header t) k x) t)
    | None => T_ret tt
    end) t
  = (Ok tt,
     set_header
       (fold_left (fun hd k => match value k with
                               | Some x => header_set hd k x
                               | None => hd
                               end) ks (header t)) t).
Proof.
  revert t. induction ks as [|k ks IH]; intros t; cbn [T_for fold_left].
  - now destruct t.
  - unfold T_bind. destruct (value k) as [x|]; cbn [T_assign T_ret].
    + rewrite IH. reflexivity.
    + apply IH.
Qed.

Section QuantizeKeeps.
Context {X : Type} (F : TerrainTile -> X) (x : X).
Hypothesis F_lon : forall w t, F (set_workingUnitLongitude w t) = F t.
Hypothesis F_lat : forall w t, F (set_workingUnitLatitude w t) = F t.
Hypothesis F_delta : forall d t, F (set_deltaHeight d t) = F t.

Let P : TerrainTile -> Prop := fun t => F t = x.

Lemma T_keeps_cache (f : TerrainTile -> TerrainTile) :
  (forall t, F (f t) = F t) -> T_keeps P (T_assign f).
Proof. intros Hf. apply T_keeps_assign. intros t HP. unfold P. now rewrite Hf. Qed.

Lemma T_keeps_quantizeLongitude lon : T_keeps P (_quantizeLongitude lon).
Proof.
  unfold _quantizeLongitude, _getWorkingUnitLongitude.
  repeat first
    [ apply T_keeps_ret | apply T_keeps_lift | apply T_keeps_self
    | apply T_keeps_cache; intros ?; apply F_lon
    | apply T_keeps_bind; [|intros ?]
    | match goal with
      | |- T_keeps _ (if ?b then _ else _) => destruct b
      | |- T_keeps _ (match ?o with _ => _ end) => destruct o
      end ].
Qed.

Lemma T_keeps_quantizeLatitude lat : T_keeps P (_quantizeLatitude lat).
Proof.
  unfold _quantizeLatitude, _getWorkingUnitLatitude.
  repeat first
    [ apply T_keeps_ret | apply T_keeps_lift | apply T_keeps_self
    | apply T_keeps_cache; intros ?; apply F_lat
    | apply T_keeps_bind; [|intros ?]
    | match goal with
      | |- T_keeps _ (if ?b then _ else _) => destruct b
      | |- T_keeps _ (match ?o with _ => _ end) => destruct o
      end ].
Qed.

Lemma T_keeps_quantizeHeight height : T_keeps P (_quantizeHeight height).
Proof.
  unfold _quantizeHeight, _getDeltaHeight.
  repeat first
    [ apply T_keeps_ret | apply T_keeps_lift | apply T_keeps_self
    | apply T_keeps_cache; intros ?; apply F_delta
    | apply T_keeps_bind; [|intros ?]
    | match goal with
      | |- T_keeps _ (if ?b then _ else _) => destruct b
      | |- T_keeps _ (match ?o with _ => _ end) => destruct o
      end ].
Qed.

(** The three list comprehensions of [fromTerrainTopology] leave [F] as it
    is. *)
Lemma quantize_all_keeps {A} (f : A -> T Z) (xs : list A) (ys : list Z)
    (t t' : TerrainTile) :
  (forall a, T_keeps P (f a)) -> F t = x ->
  T_map f xs t = (Ok ys, t') -> F t' = x.
Proof.
  intros Hf HP Hrun.
  pose proof (T_keeps_map P f xs Hf t HP) as Hk.
  rewrite Hrun in Hk. exact Hk.
Qed.
End QuantizeKeeps.

Section TopologyFacts.
Context `{Collaborators}.

(** The first step of [fromTerrainTopology]: the bounds. *)
Lemma bounds_segment (topology : TerrainTopology)
    (given : option (float * float * float * float)) (t0 ta : TerrainTile) :
  match given with
  | Some (b0, b1, b2, b3) =>
      T_bind (T_assign (set_west b0)) (fun _ =>
      T_bind (T_assign (set_east b2)) (fun _ =>
      T_bind (T_assign (set_south b1)) (fun _ => T_assign (set_north b3))))
  | None =>
      if bounds_defined t0 then T_ret tt
      else
        T_bind (T_assign (set_west (minLon topology))) (fun _ =>
        T_bind (T_assign (set_east (maxLon topology))) (fun _ =>
        T_bind (T_assign (set_south (minLat topology))) (fun _ =>
        T_assign (set_north (maxLat topology)))))
  end t0 = (Ok tt, ta) ->
  bounds ta = bounds_after topology given t0 /\
  exists w e s n, ta = set_north n (set_south s (set_east e (set_west w t0))).
Proof.
  assert (Hid : t0 = set_north (_north t0) (set_south (_south t0)
                       (set_east (_east t0) (set_west (_west t0) t0))))
    by now destruct t0.
  unfold bounds_after.
  destruct given as [[[[b0 b1] b2] b3]|]; [|destruct (bounds_defined t0)];
    intros [= <-]; (split; [reflexivity|]); eauto.
Qed.

(** The header loop assigns the two heights of the topology. *)
Lemma header_fold_heights (topology : TerrainTopology)
    (centerCoords : vec3) (bSphere : vec3 * float) (occlusionPCoords : vec3)
    (hd0 : Header) :
  let hd :=
    fold_left (fun hd k =>
                 match topology_header_value k centerCoords topology bSphere
                         occlusionPCoords with
                 | Some x => header_set hd k x
                 | None => hd
                 end) (map fst quantizedMeshHeader) hd0 in
  minimumHeight hd = minHeight topology /\
  maximumHeight hd = maxHeight topology.
Proof.
  destruct centerCoords as [[c0 c1] c2], bSphere as [[[b0 b1] b2] radius],
    occlusionPCoords as [[o0 o1] o2].
  cbv zeta. split; reflexivity.
Qed.

Lemma header_segment (topology : TerrainTopology)
    (centerCoords : vec3) (bSphere : vec3 * float) (occlusionPCoords : vec3)
    (ta tb : TerrainTile) :
  T_for (map fst quantizedMeshHeader) (fun k =>
    match topology_header_value k centerCoords topology bSphere
            occlusionPCoords with
    | Some x => T_assign (fun t => set_header (header_set (header t) k x) t)
    | None => T_ret tt
    end) ta = (Ok tt, tb) ->
  exists hd, tb = set_header hd ta /\
             minimumHeight hd = minHeight topology /\
             maximumHeight hd = maxHeight topology.
Proof.
  rewrite (header_loop
             (fun k => topology_header_value k centerCoords topology bSphere
                         occlusionPCoords)).
  intros [= <-]. eexists. split; [reflexivity|].
  apply header_fold_heights.
Qed.

Lemma load_topology_result (topology : TerrainTopology) given
    (t0 t1 : TerrainTile) :
  load_topology topology given t0 = (Ok tt, t1) ->
  length (u t1) = length (uVertex topology) /\
  length (v t1) = length (vVertex topology) /\
  length (h t1) = length (hVertex topology) /\
  minimumHeight (header t1) = minHeight topology /\
  maximumHeight (header t1) = maxHeight topology /\
  bounds t1 = bounds_after topology given t0 /\
  watermask t1 = watermask t0 /\ hasWatermask t1 = hasWatermask t0 /\
  vLight t1 = vLight t0 /\ hasLighting t1 = hasLighting t0.
Proof.
  unfold load_topology. intros Hrun.
  apply T_bind_Ok_inv in Hrun as (self & ts & Hself & Hrun).
  cbn in Hself. injection Hself as <- <-.
  apply T_bind_Ok_inv in Hrun as ([] & ta & Hseg & Hrun).
  apply bounds_segment in Hseg as (Hbounds & w & e & s & n & Hta).
  apply T_bind_Ok_inv in Hrun as (bSphere & ta' & Hbs & Hrun).
  unfold T_lift in Hbs. injection Hbs as _ <-.
  apply T_bind_Ok_inv in Hrun as (occ & ta' & Hocc & Hrun).
  unfold T_lift in Hocc. injection Hocc as _ <-.
  apply T_bind_Ok_inv in Hrun as ([] & tb & Hhead & Hrun).
  apply header_segment in Hhead as (hd & Htb & Hhd).
  apply T_bind_Ok_inv in Hrun as (us & tc & Hus & Hrun).
  apply T_bind_Ok_inv in Hrun as ([] & tc' & Hsetu & Hrun).
  cbn in Hsetu. injection Hsetu as <-.
  apply T_bind_Ok_inv in Hrun as (vs & td & Hvs & Hrun).
  apply T_bind_Ok_inv in Hrun as ([] & td' & Hsetv & Hrun).
  cbn in Hsetv. injection Hsetv as <-.
  apply T_bind_Ok_inv in Hrun as (hs & te & Hhs & Hrun).
  apply T_bind_Ok_inv in Hrun as ([] & te' & Hseth & Hrun).
  cbn in Hseth. injection Hseth as <-.
  unfold T_assign in Hrun. injection Hrun as Ht1.
  assert (Hlon : forall {X} (F : TerrainTile -> X) t t' xs ys,
             (forall w t, F (set_workingUnitLongitude w t) = F t) ->
             T_map _quantizeLongitude xs t = (Ok ys, t') -> F t' = F t).
  { intros X F t t' xs ys HF Hmap.
    apply (quantize_all_keeps F (F t) _quantizeLongitude xs ys t t');
      [|reflexivity|exact Hmap].
    intros a. now apply T_keeps_quantizeLongitude. }
  assert (Hlat : forall {X} (F : TerrainTile -> X) t t' xs ys,
             (forall w t, F (set_workingUnitLatitude w t) = F t) ->
             T_map _quantizeLatitude xs t = (Ok ys, t') -> F t' = F t).
  { intros X F t t' xs ys HF Hmap.
    apply (quantize_all_keeps F (F t) _quantizeLatitude xs ys t t');
      [|reflexivity|exact Hmap].
    intros a. now apply T_keeps_quantizeLatitude. }
  assert (Hhei : forall {X} (F : TerrainTile -> X) t t' xs ys,
             (forall w t, F (set_deltaHeight w t) = F t) ->
             T_map _quantizeHeight xs t = (Ok ys, t') -> F t' = F t).
  { intros X F t t' xs ys HF Hmap.
    apply (quantize_all_keeps F (F t) _quantizeHeight xs ys t t');
      [|reflexivity|exact Hmap].
    intros a. now apply T_keeps_quantizeHeight. }
  assert (Hall : forall {X} (F : TerrainTile -> X),
             (forall w t, F (set_workingUnitLongitude w t) = F t) ->
             (forall w t, F (set_workingUnitLatitude w t) = F t) ->
             (forall d t, F (set_deltaHeight d t) = F t) ->
             (forall l t, F (set_u l t) = F t) ->
             (forall l t, F (set_v l t) = F t) ->
             (forall l t, F (set_h l t) = F t) ->
             (forall l t, F (set_indices l t) = F t) ->
             F t1 = F tb).
  { intros X F H1 H2 H3 H4 H5 H6 H7.
    rewrite <- Ht1, H7, H6, (Hhei _ F _ _ _ _ H3 Hhs), H5,
      (Hlat _ F _ _ _ _ H2 Hvs), H4, (Hlon _ F _ _ _ _ H1 Hus).
    reflexivity. }
  assert (Hu : u t1 = us).
  { rewrite <- Ht1.
    change (u (set_indices (indexData topology) (set_h hs te))) with (u te).
    rewrite (Hhei _ u _ _ _ _ ltac:(reflexivity) Hhs).
    change (u (set_v vs td)) with (u td).
    now rewrite (Hlat _ u _ _ _ _ ltac:(reflexivity) Hvs). }
  assert (Hv : v t1 = vs).
  { rewrite <- Ht1.
    change (v (set_indices (indexData topology) (set_h hs te))) with (v te).
    now rewrite (Hhei _ v _ _ _ _ ltac:(reflexivity) Hhs). }
  assert (Hh : h t1 = hs) by now rewrite <- Ht1.
  assert (Hpast : forall {X} (F : TerrainTile -> X),
            (forall w t, F (set_workingUnitLongitude w t) = F t) ->
            (forall w t, F (set_workingUnitLatitude w t) = F t) ->
            (forall d t, F (set_deltaHeight d t) = F t) ->
            (forall l t, F (set_u l t) = F t) ->
            (forall l t, F (set_v l t) = F t) ->
            (forall l t, F (set_h l t) = F t) ->
            (forall l t, F (set_indices l t) = F t) ->
            (forall l t, F (set_header l t) = F t) ->
            (forall l t, F (set_west l t) = F t) ->
            (forall l t, F (set_east l t) = F t) ->
            (forall l t, F (set_south l t) = F t) ->
            (forall l t, F (set_north l t) = F t) ->
            F t1 = F t0).
  { intros X F H1 H2 H3 H4 H5 H6 H7 H8 H9 H10 H11 H12.
    rewrite (Hall _ F H1 H2 H3 H4 H5 H6 H7), Htb, H8, Hta.
    now rewrite H12, H11, H10, H9. }
  rewrite Hu, Hv, Hh.
  rewrite (T_map_length _ _ _ _ _ Hus), (T_map_length _ _ _ _ _ Hvs),
    (T_map_length _ _ _ _ _ Hhs).
  repeat (split; [reflexivity|]).
  assert (Hheader : header t1 = hd).
  { rewrite (Hall _ header) by reflexivity. now rewrite Htb. }
  rewrite Hheader. destruct Hhd as [Hmin Hmax].
  split; [exact Hmin|]. split; [exact Hmax|]. split.
  - rewrite <- Hbounds, (Hall _ bounds) by reflexivity. now rewrite Htb.
  - repeat split; apply Hpast; reflexivity.
Qed.
End TopologyFacts.

Section TopologyResult.
Context `{Collaborators}.

Lemma fromTerrainTopology_result (topology : TerrainTopology) given
    (t0 t1 : TerrainTile) :
  fromTerrainTopology (TopologyObject topology) given t0 = (Ok tt, t1) ->
  length (u t1) = length (uVertex topology) /\
  length (v t1) = length (vVertex topology) /\
  length (h t1) = length (hVertex topology) /\
  minimumHeight (header t1) = minHeight topology /\
  maximumHeight (header t1) = maxHeight topology /\
  bounds t1 = bounds_after topology given t0 /\
  watermask t1 = watermask t0 /\ hasWatermask t1 = hasWatermask t0 /\
  hasLighting t1 = Some (topo_hasLighting topology) /\
  vLight t1 = (if topo_hasLighting topology
               then verticesUnitVectors topology else vLight t0).
Proof.
  unfold fromTerrainTopology. intros Hrun.
  apply T_bind_Ok_inv in Hrun as ([] & tl & Hload & Hrun).
  apply T_bind_Ok_inv in Hrun as (self & tl' & Hself & Hrun).
  cbn in Hself. injection Hself as <- <-.
  apply T_bind_Ok_inv in Hrun as ([] & td & Hloop & Hrun).
  apply detect_edges_loop in Hloop.
  apply T_bind_Ok_inv in Hrun as ([] & tf & Hflag & Hrun).
  unfold T_assign in Hflag. injection Hflag as Htf.
  apply load_topology_result in Hload
    as (Lu & Lv & Lh & Hmin & Hmax & Hb & Hwm & Hhw & Hvl & _).
  assert (Hd : u td = u tl /\ v td = v tl /\ h td = h tl /\
               header td = header tl /\ bounds td = bounds tl /\
               watermask td = watermask tl /\
               hasWatermask td = hasWatermask tl /\ vLight td = vLight tl)
    by (rewrite Hloop; repeat split).
  destruct Hd as (Du & Dv & Dh & Dhd & Db & Dwm & Dhw & Dvl).
  assert (Hf : u tf = u td /\ v tf = v td /\ h tf = h td /\
               header tf = header td /\ bounds tf = bounds td /\
               watermask tf = watermask td /\
               hasWatermask tf = hasWatermask td /\ vLight tf = vLight td /\
               hasLighting tf = Some (topo_hasLighting topology))
    by (rewrite <- Htf; repeat split).
  destruct Hf as (Fu & Fv & Fh & Fhd & Fb & Fwm & Fhw & Fvl & Fhl).
  destruct (topo_hasLighting topology).
  - unfold T_assign in Hrun. injection Hrun as <-.
    change (u (set_vLight (verticesUnitVectors topology) tf)) with (u tf).
    change (v (set_vLight (verticesUnitVectors topology) tf)) with (v tf).
    change (h (set_vLight (verticesUnitVectors topology) tf)) with (h tf).
    change (header (set_vLight (verticesUnitVectors topology) tf))
      with (header tf).
    change (bounds (set_vLight (verticesUnitVectors topology) tf))
      with (bounds tf).
    change (watermask (set_vLight (verticesUnitVectors topology) tf))
      with (watermask tf).
    change (hasWatermask (set_vLight (verticesUnitVectors topology) tf))
      with (hasWatermask tf).
    change (hasLighting (set_vLight (verticesUnitVectors topology) tf))
      with (hasLighting tf).
    change (vLight (set_vLight (verticesUnitVectors topology) tf))
      with (verticesUnitVectors topology).
    rewrite Fu, Fv, Fh, Fhd, Fb, Fwm, Fhw, Fhl, Du, Dv, Dh, Dhd, Db, Dwm, Dhw.
    repeat split; assumption.
  - unfold T_ret in Hrun. injection Hrun as <-.
    rewrite Fu, Fv, Fh, Fhd, Fb, Fwm, Fhw, Fhl, Fvl,
      Du, Dv, Dh, Dhd, Db, Dwm, Dhw, Dvl.
    repeat split; assumption.
Qed.
End TopologyResult.
(** ** The quantized values that [fromTerrainTopology] stores *)

Section MapValue.
Context {A : Type} (f : A -> T Z) (val : TerrainTile -> A -> result Z).
Hypothesis f_val : forall a t q t',
  f a t = (Ok q, t') -> val t a = Ok q /\ forall a', val t' a' = val t a'.

(** A list comprehension over a method whose value is [val] and which
    leaves [val] as it is. *)
Lemma T_map_values (xs : list A) (ys : list Z) (t t' : TerrainTile) :
  T_map f xs t = (Ok ys, t') ->
  Forall2 (fun a q => val t a = Ok q) xs ys /\
  forall a', val t' a' = val t a'.
Proof.
  revert ys t t'. induction xs as [|x xs IH]; intros ys t t' Hrun.
  - cbn in Hrun. injection Hrun as <- <-. split; [constructor|reflexivity].
  - cbn [T_map] in Hrun.
    apply T_bind_Ok_inv in Hrun as (y & t1 & Hy & Hrun).
    apply T_bind_Ok_inv in Hrun as (ys' & t2 & Hrest & Hrun).
    cbn in Hrun. injection Hrun as <- <-.
    destruct (f_val _ _ _ _ Hy) as [Hv Hsame].
    destruct (IH _ _ _ Hrest) as [HF Hsame'].
    split.
    + constructor; [exact Hv|].
      eapply Forall2_impl; [exact HF|]. intros a q Ha. now rewrite <- Hsame.
    + intros a'. now rewrite Hsame', Hsame.
Qed.
End MapValue.

(** [_quantizeLongitude] rounds the offset from the west bound times the
    working unit, which it caches when no usable one is cached. *)
Lemma quantizeLongitude_value (longitude : float) (t : TerrainTile) (q : Z)
    (t' : TerrainTile) :
  _quantizeLongitude longitude t = (Ok q, t') ->
  longitude_value t longitude = Ok q /\
  forall a, longitude_value t' a = longitude_value t a.
Proof.
  unfold _quantizeLongitude, _getWorkingUnitLongitude, longitude_value,
    working_unit, truthy, truediv.
  unfold T_bind, T_self, T_lift, T_assign, T_ret.
  destruct (_workingUnitLongitude t) as [w|] eqn:Ew.
  - destruct (w =? 0)%float eqn:Ez; cbn [negb].
    + destruct (_east t - _west t =? 0)%float eqn:Ed; cbv beta iota;
        [discriminate|].
      cbn [_workingUnitLongitude set_workingUnitLongitude _west _east].
      intros [= Hq <-]. split; [exact Hq|]. intros a.
      cbn [_workingUnitLongitude set_workingUnitLongitude _west _east].
      now destruct (MAX / (_east t - _west t) =? 0)%float.
    + cbv beta iota. rewrite Ew. intros [= Hq <-]. split; [exact Hq|].
      intros a. now rewrite Ew, Ez.
  - cbn [negb]. destruct (_east t - _west t =? 0)%float eqn:Ed; cbv beta iota;
      [discriminate|].
    cbn [_workingUnitLongitude set_workingUnitLongitude _west _east].
    intros [= Hq <-]. split; [exact Hq|]. intros a.
    cbn [_workingUnitLongitude set_workingUnitLongitude _west _east].
    now destruct (MAX / (_east t - _west t) =? 0)%float.
Qed.

Lemma quantizeLatitude_value (latitude : float) (t : TerrainTile) (q : Z)
    (t' : TerrainTile) :
  _quantizeLatitude latitude t = (Ok q, t') ->
  latitude_value t latitude = Ok q /\
  forall a, latitude_value t' a = latitude_value t a.
Proof.
  unfold _quantizeLatitude, _getWorkingUnitLatitude, latitude_value,
    working_unit, truthy, truediv.
  unfold T_bind, T_self, T_lift, T_assign, T_ret.
  destruct (_workingUnitLatitude t) as [w|] eqn:Ew.
  - destruct (w =? 0)%float eqn:Ez; cbn [negb].
    + destruct (_north t - _south t =? 0)%float eqn:Ed; cbv beta iota;
        [discriminate|].
      cbn [_workingUnitLatitude set_workingUnitLatitude _south _north].
      intros [= Hq <-]. split; [exact Hq|]. intros a.
      cbn [_workingUnitLatitude set_workingUnitLatitude _south _north].
      now destruct (MAX / (_north t - _south t) =? 0)%float.
    + cbv beta iota. rewrite Ew. intros [= Hq <-]. split; [exact Hq|].
      intros a. now rewrite Ew, Ez.
  - cbn [negb]. destruct (_north t - _south t =? 0)%float eqn:Ed;
      cbv beta iota; [discriminate|].
    cbn [_workingUnitLatitude set_workingUnitLatitude _south _north].
    intros [= Hq <-]. split; [exact Hq|]. intros a.
    cbn [_workingUnitLatitude set_workingUnitLatitude _south _north].
    now destruct (MAX / (_north t - _south t) =? 0)%float.
Qed.

(** [_quantizeHeight] gives 0 when the height range it works with is zero,
    and otherwise rounds the offset from the minimum height of the header
    times [MAX] over that range. *)
Lemma quantizeHeight_value (height : float) (t : TerrainTile) (q : Z)
    (t' : TerrainTile) :
  _quantizeHeight height t = (Ok q, t') ->
  height_value t height = Ok q /\
  forall a, height_value t' a = height_value t a.
Proof.
  unfold _quantizeHeight, _getDeltaHeight, height_value, height_range,
    truthy, truediv.
  unfold T_bind, T_self, T_lift, T_assign, T_ret.
  set (lo := minimumHeight (header t)). set (hi := maximumHeight (header t)).
  destruct (_deltaHeight t) as [d|] eqn:Ed.
  - destruct (d =? 0)%float eqn:Ez; cbn [negb]; cbv beta iota.
    + cbn [_deltaHeight set_deltaHeight header].
      destruct (hi - lo =? 0)%float eqn:Er; cbv beta iota.
      * intros [= <- <-]. split; [reflexivity|]. intros a.
        cbn [_deltaHeight set_deltaHeight header]. fold lo hi.
        repeat (rewrite Er; cbv iota). reflexivity.
      * cbn [header set_deltaHeight]. fold lo.
        intros [= Hq <-]. split; [exact Hq|]. intros a.
        cbn [_deltaHeight set_deltaHeight header]. fold lo hi.
        repeat (rewrite Er; cbv iota). reflexivity.
    + rewrite Ed. cbv beta iota. rewrite !Ez. cbv beta iota. fold lo.
      intros [= Hq <-]. split; [exact Hq|]. intros a.
      fold lo hi. rewrite Ed. cbv iota. now rewrite !Ez.
  - cbn [negb]. cbv beta iota.
    cbn [_deltaHeight set_deltaHeight header].
    destruct (hi - lo =? 0)%float eqn:Er; cbv beta iota.
    + intros [= <- <-]. split; [reflexivity|]. intros a.
      cbn [_deltaHeight set_deltaHeight header]. fold lo hi.
      repeat (rewrite Er; cbv iota). reflexivity.
    + cbn [header set_deltaHeight]. fold lo.
      intros [= Hq <-]. split; [exact Hq|]. intros a.
      cbn [_deltaHeight set_deltaHeight header]. fold lo hi.
      repeat (rewrite Er; cbv iota). reflexivity.
Qed.

Section TopologyValues.
Context `{Collaborators}.

(** The quantized vertices that [load_topology] stores, from the bounds
    and the header it has assigned and the factors cached before the
    call. *)
Lemma load_topology_values (topology : TerrainTopology) given
    (t0 t1 : TerrainTile) :
  load_topology topology given t0 = (Ok tt, t1) ->
  Forall2 (fun longitude q =>
             py_round ((longitude - _west t1)
                       * working_unit (_workingUnitLongitude t0)
                           (_west t1) (_east t1))%float = Ok q)
          (uVertex topology) (u t1) /\
  Forall2 (fun latitude q =>
             py_round ((latitude - _south t1)
                       * working_unit (_workingUnitLatitude t0)
                           (_south t1) (_north t1))%float = Ok q)
          (vVertex topology) (v t1) /\
  Forall2 (fun height q =>
             let deniv := height_range (_deltaHeight t0)
                            (minHeight topology) (maxHeight topology) in
             (if (deniv =? 0)%float then Ok 0
              else py_round ((height - minHeight topology)
                             * (32767 / deniv))%float) = Ok q)
          (hVertex topology) (h t1).
Proof.
  unfold load_topology. intros Hrun.
  apply T_bind_Ok_inv in Hrun as (self & ts & Hself & Hrun).
  cbn in Hself. injection Hself as <- <-.
  apply T_bind_Ok_inv in Hrun as ([] & ta & Hseg & Hrun).
  apply bounds_segment in Hseg as (Hbounds & w & e & s & n & Hta).
  apply T_bind_Ok_inv in Hrun as (bSphere & ta' & Hbs & Hrun).
  unfold T_lift in Hbs. injection Hbs as _ <-.
  apply T_bind_Ok_inv in Hrun as (occ & ta' & Hocc & Hrun).
  unfold T_lift in Hocc. injection Hocc as _ <-.
  apply T_bind_Ok_inv in Hrun as ([] & tb & Hhead & Hrun).
  apply header_segment in Hhead as (hd & Htb & Hmin & Hmax).
  apply T_bind_Ok_inv in Hrun as (us & tc & Hus & Hrun).
  apply T_bind_Ok_inv in Hrun as ([] & tc' & Hsetu & Hrun).
  cbn in Hsetu. injection Hsetu as <-.
  apply T_bind_Ok_inv in Hrun as (vs & td & Hvs & Hrun).
  apply T_bind_Ok_inv in Hrun as ([] & td' & Hsetv & Hrun).
  cbn in Hsetv. injection Hsetv as <-.
  apply T_bind_Ok_inv in Hrun as (hs & te & Hhs & Hrun).
  apply T_bind_Ok_inv in Hrun as ([] & te' & Hseth & Hrun).
  cbn in Hseth. injection Hseth as <-.
  unfold T_assign in Hrun. injection Hrun as Ht1.
  assert (Hlon : forall {X} (F : TerrainTile -> X),
             (forall w t, F (set_workingUnitLongitude w t) = F t) ->
             F tc = F tb).
  { intros X F HF.
    apply (quantize_all_keeps F (F tb) _quantizeLongitude (uVertex topology) us tb tc);
      [|reflexivity|exact Hus].
    intros a. now apply T_keeps_quantizeLongitude. }
  assert (Hlat : forall {X} (F : TerrainTile -> X),
             (forall w t, F (set_workingUnitLatitude w t) = F t) ->
             F td = F (set_u us tc)).
  { intros X F HF.
    apply (quantize_all_keeps F (F (set_u us tc)) _quantizeLatitude (vVertex topology) vs
             (set_u us tc) td); [|reflexivity|exact Hvs].
    intros a. now apply T_keeps_quantizeLatitude. }
  assert (Hhei : forall {X} (F : TerrainTile -> X),
             (forall w t, F (set_deltaHeight w t) = F t) ->
             F te = F (set_v vs td)).
  { intros X F HF.
    apply (quantize_all_keeps F (F (set_v vs td)) _quantizeHeight (hVertex topology) hs
             (set_v vs td) te); [|reflexivity|exact Hhs].
    intros a. now apply T_keeps_quantizeHeight. }
  assert (Hmid1 : forall {X} (F : TerrainTile -> X),
             (forall w t, F (set_workingUnitLongitude w t) = F t) ->
             (forall l t, F (set_u l t) = F t) ->
             F (set_u us tc) = F tb).
  { intros X F H1 H4. now rewrite H4, (Hlon _ F H1). }
  assert (Hmid2 : forall {X} (F : TerrainTile -> X),
             (forall w t, F (set_workingUnitLongitude w t) = F t) ->
             (forall w t, F (set_workingUnitLatitude w t) = F t) ->
             (forall l t, F (set_u l t) = F t) ->
             (forall l t, F (set_v l t) = F t) ->
             F (set_v vs td) = F tb).
  { intros X F H1 H2 H4 H5.
    now rewrite H5, (Hlat _ F H2), (Hmid1 _ F H1 H4). }
  assert (Hall : forall {X} (F : TerrainTile -> X),
             (forall w t, F (set_workingUnitLongitude w t) = F t) ->
             (forall w t, F (set_workingUnitLatitude w t) = F t) ->
             (forall d t, F (set_deltaHeight d t) = F t) ->
             (forall l t, F (set_u l t) = F t) ->
             (forall l t, F (set_v l t) = F t) ->
             (forall l t, F (set_h l t) = F t) ->
             (forall l t, F (set_indices l t) = F t) ->
             F t1 = F tb).
  { intros X F H1 H2 H3 H4 H5 H6 H7.
    rewrite <- Ht1, H7, H6, (Hhei _ F H3).
    exact (Hmid2 _ F H1 H2 H4 H5). }
  assert (Hu : u t1 = us).
  { rewrite <- Ht1.
    change (u (set_indices (indexData topology) (set_h hs te))) with (u te).
    rewrite (Hhei _ u ltac:(reflexivity)).
    change (u (set_v vs td)) with (u td).
    now rewrite (Hlat _ u ltac:(reflexivity)). }
  assert (Hv : v t1 = vs).
  { rewrite <- Ht1.
    change (v (set_indices (indexData topology) (set_h hs te))) with (v te).
    now rewrite (Hhei _ v ltac:(reflexivity)). }
  assert (Hh : h t1 = hs) by now rewrite <- Ht1.
  assert (Hcache : _workingUnitLongitude tb = _workingUnitLongitude t0 /\
                   _workingUnitLatitude tb = _workingUnitLatitude t0 /\
                   _deltaHeight tb = _deltaHeight t0 /\ header tb = hd)
    by (rewrite Htb, Hta; repeat split).
  destruct Hcache as (Cw & Cl & Cd & Chd).
  rewrite Hu, Hv, Hh.
  rewrite (Hall _ _west), (Hall _ _east), (Hall _ _south), (Hall _ _north)
    by reflexivity.
  rewrite <- Cw, <- Cl, <- Cd, <- Hmin, <- Hmax, <- Chd.
  split; [|split].
  - exact (proj1 (T_map_values _ longitude_value quantizeLongitude_value
                    _ _ _ _ Hus)).
  - rewrite <- (Hmid1 _ _south), <- (Hmid1 _ _north),
      <- (Hmid1 _ _workingUnitLatitude) by reflexivity.
    exact (proj1 (T_map_values _ latitude_value quantizeLatitude_value
                    _ _ _ _ Hvs)).
  - rewrite <- (Hmid2 _ header), <- (Hmid2 _ _deltaHeight) by reflexivity.
    exact (proj1 (T_map_values _ height_value quantizeHeight_value
                    _ _ _ _ Hhs)).
Qed.

(** What follows [load_topology] in [fromTerrainTopology] leaves the
    vertices, the triangles and the bounds as they are. *)
Lemma fromTerrainTopology_load (topology : TerrainTopology) given
    (t0 t1 : TerrainTile) :
  fromTerrainTopology (TopologyObject topology) given t0 = (Ok tt, t1) ->
  exists tl,
    load_topology topology given t0 = (Ok tt, tl) /\
    u t1 = u tl /\ v t1 = v tl /\ h t1 = h tl /\ indices t1 = indices tl /\
    _west t1 = _west tl /\ _east t1 = _east tl /\
    _south t1 = _south tl /\ _north t1 = _north tl.
Proof.
  unfold fromTerrainTopology. intros Hrun.
  apply T_bind_Ok_inv in Hrun as ([] & tl & Hload & Hrun).
  apply T_bind_Ok_inv in Hrun as (self & tl' & Hself & Hrun).
  cbn in Hself. injection Hself as <- <-.
  apply T_bind_Ok_inv in Hrun as ([] & td & Hloop & Hrun).
  apply detect_edges_loop in Hloop.
  apply T_bind_Ok_inv in Hrun as ([] & tf & Hflag & Hrun).
  unfold T_assign in Hflag. injection Hflag as Htf.
  exists tl. split; [exact Hload|].
  destruct (topo_hasLighting topology); cbn in Hrun; injection Hrun as <-;
    rewrite <- Htf, Hloop; repeat split.
Qed.
End TopologyValues.

(** ** Coordinates of vertices and triangles *)

(** What the loop of [getVerticesCoordinates] returns, when it returns. *)
Lemma enumerate_coordinates_inv (self : TerrainTile) (longs : list float)
    (i : nat) (coordinates : list vec3) :
  enumerate_coordinates self (Z.of_nat i) longs = Ok coordinates ->
  length coordinates = length longs /\
  forall k p, coordinates !! k = Some p ->
    exists lon lat height,
      p = (lon, lat, height) /\ longs !! k = Some lon /\
      _lats self !! (i + k)%nat = Some lat /\
      _heights self !! (i + k)%nat = Some height.
Proof.
  revert i coordinates.
  induction longs as [|lon longs IH]; intros i coordinates Hrun.
  - cbn in Hrun. injection Hrun as <-. split; [reflexivity|].
    intros k p Hk. discriminate.
  - cbn [enumerate_coordinates] in Hrun.
    destruct (getitem (_lats self) (Z.of_nat i)) as [lat|e] eqn:Elat;
      [|discriminate].
    destruct (getitem (_heights self) (Z.of_nat i)) as [height|e] eqn:Eh;
      [|discriminate].
    replace (Z.of_nat i + 1) with (Z.of_nat (S i)) in Hrun by lia.
    destruct (enumerate_coordinates self (Z.of_nat (S i)) longs)
      as [cs|e] eqn:Ecs; [|discriminate].
    injection Hrun as <-. destruct (IH (S i) cs Ecs) as [Hlen Hcs].
    split; [cbn [length]; now rewrite Hlen|].
    apply getitem_of_nat in Elat. apply getitem_of_nat in Eh.
    intros [|k] p Hp.
    + cbn in Hp. injection Hp as <-. exists lon, lat, height.
      rewrite Nat.add_0_r. auto.
    + cbn in Hp. destruct (Hcs k p Hp) as (lon' & lat' & h' & -> & H1 & H2 & H3).
      exists lon', lat', h'.
      replace (i + S k)%nat with (S i + k)%nat by lia. auto.
Qed.

(** The loop reads the caches only. *)
Lemma enumerate_coordinates_caches (t1 t2 : TerrainTile) (i : Z)
    (longs : list float) :
  _lats t2 = _lats t1 -> _heights t2 = _heights t1 ->
  enumerate_coordinates t2 i longs = enumerate_coordinates t1 i longs.
Proof.
  intros Hlat Hh. revert i.
  induction longs as [|lon longs IH]; intros i; cbn [enumerate_coordinates];
    [reflexivity|].
  now rewrite Hlat, Hh, IH.
Qed.

Lemma computeVerticesCoordinates_cached (t : TerrainTile) :
  _longs t <> [] -> _computeVerticesCoordinates t = (Ok tt, t).
Proof.
  intros Hne. unfold _computeVerticesCoordinates, T_bind. cbn [T_self].
  destruct (_longs t); [congruence|reflexivity].
Qed.

(** [_computeVerticesCoordinates] assigns the three caches only. *)
Lemma computeVerticesCoordinates_indices (t : TerrainTile) :
  indices (snd (_computeVerticesCoordinates t)) = indices t.
Proof.
  assert (Hk : T_keeps (fun s => indices s = indices t)
                 _computeVerticesCoordinates).
  { unfold _computeVerticesCoordinates.
    apply T_keeps_bind; [apply T_keeps_self|intros self].
    destruct (_longs self); [|apply T_keeps_ret].
    repeat first
      [ apply T_keeps_ret | apply T_keeps_lift | apply T_keeps_self
      | apply T_keeps_assign; intros ? HP; exact HP
      | apply T_keeps_for; intros ?
      | apply T_keeps_bind; [|intros ?] ]. }
  exact (Hk t eq_refl).
Qed.

(** A vertex of the list of coordinates, read as [getTrianglesCoordinates]
    reads it. *)
Lemma vertex_at_coordinates (self : TerrainTile) (coordinates : list vec3)
    (i : Z) :
  enumerate_coordinates self 0 (_longs self) = Ok coordinates ->
  0 <= i < Z.of_nat (length coordinates) ->
  exists p, coordinates !! Z.to_nat i = Some p /\ vertex_at self i = Ok p.
Proof.
  intros Hrun Hi.
  destruct (enumerate_coordinates_inv self (_longs self) 0 coordinates Hrun)
    as [Hlen Hcs].
  destruct (lookup_lt_is_Some_2 coordinates (Z.to_nat i) ltac:(lia))
    as [p Hp].
  exists p. split; [exact Hp|].
  destruct (Hcs _ p Hp) as (lon & lat & height & -> & H1 & H2 & H3).
  cbn [Nat.add] in H2, H3.
  apply getitem_of_nat in H1, H2, H3. rewrite Z2Nat.id in H1, H2, H3 by lia.
  unfold vertex_at. now rewrite H1, H2, H3.
Qed.

(** The loop over the triangles, on indices that are in range. *)
Lemma triangles_loop_spec (self : TerrainTile) (coordinates : list vec3)
    (n : nat) (ind : list Z) :
  enumerate_coordinates self 0 (_longs self) = Ok coordinates ->
  length ind = (3 * n)%nat ->
  Forall (fun i => 0 <= i < Z.of_nat (length coordinates)) ind ->
  exists triangles,
    triangles_loop self ind = Ok triangles /\ length triangles = n /\
    forall k i1 i2 i3,
      ind !! (3 * k)%nat = Some i1 -> ind !! (3 * k + 1)%nat = Some i2 ->
      ind !! (3 * k + 2)%nat = Some i3 ->
      exists p1 p2 p3,
        coordinates !! Z.to_nat i1 = Some p1 /\
        coordinates !! Z.to_nat i2 = Some p2 /\
        coordinates !! Z.to_nat i3 = Some p3 /\
        triangles !! k = Some (p1, p2, p3).
Proof.
  intros Hrun. revert ind.
  induction n as [|n IH]; intros ind Hlen Hin.
  - destruct ind; [|discriminate]. exists []. repeat split.
    intros k i1 i2 i3 H1. discriminate.
  - destruct ind as [|vi1 [|vi2 [|vi3 ind]]]; try (cbn in Hlen; lia).
    inversion Hin as [|? ? Hi1 Hin1]; subst.
    inversion Hin1 as [|? ? Hi2 Hin2]; subst.
    inversion Hin2 as [|? ? Hi3 Hin3]; subst.
    destruct (vertex_at_coordinates self coordinates vi1 Hrun Hi1)
      as (p1 & Hp1 & E1).
    destruct (vertex_at_coordinates self coordinates vi2 Hrun Hi2)
      as (p2 & Hp2 & E2).
    destruct (vertex_at_coordinates self coordinates vi3 Hrun Hi3)
      as (p3 & Hp3 & E3).
    destruct (IH ind ltac:(cbn [length] in Hlen; lia) Hin3)
      as (trs & Htrs & Hn & Hk).
    exists ((p1, p2, p3) :: trs). cbn [triangles_loop].
    rewrite E1, E2, E3, Htrs. split; [reflexivity|].
    split; [cbn [length]; now rewrite Hn|].
    intros [|k] i1 i2 i3 H1 H2 H3.
    + cbn in H1, H2, H3. injection H1 as <-. injection H2 as <-.
      injection H3 as <-. exists p1, p2, p3. auto.
    + replace (3 * S k)%nat with (S (S (S (3 * k)))) in H1 by lia.
      replace (3 * S k + 1)%nat with (S (S (S (3 * k + 1)))) in H2 by lia.
      replace (3 * S k + 2)%nat with (S (S (S (3 * k + 2)))) in H3 by lia.
      cbn [lookup list_lookup] in H1, H2, H3.
      destruct (Hk k i1 i2 i3 H1 H2 H3) as (q1 & q2 & q3 & ? & ? & ? & ?).
      exists q1, q2, q3. auto.
Qed.

(** * Further properties of the tile codec *)

(** ** Reading *)

(** X1: [fromBytesIO] does not check that it has reached the end of the
    stream: when it returns on a stream, it returns the same tile on that
    stream followed by any further bytes, and leaves those unread. *)
Theorem fromBytesIO_ignores_trailing_bytes `{Collaborators}
    (hl hw : bool) (t t' : TerrainTile) (bs r extra : list byte) :
  fromBytesIO hl hw (t, bs) = (Ok tt, (t', r)) ->
  fromBytesIO hl hw (t, bs ++ extra) = (Ok tt, (t', r ++ extra)).
Proof.
  intros Hrun.
  pose proof (R_local_fromBytesIO hl hw) as Hlocal.
  exact (Hlocal t bs tt t' r extra Hrun).
Qed.

Lemma fromBytesIO_ignores_trailing_bytes_witness :
  @fromBytesIO sample_collaborators false false
    (empty_tile, square_bytes ++ [x07; x2a])
  = (Ok tt, (square_decoded, [] ++ [x07; x2a])).
Proof.
  apply (@fromBytesIO_ignores_trailing_bytes sample_collaborators).
  vm_compute. reflexivity.
Defined.

(** X2: for a valid tile of at most [BYTESPLIT] vertices without
    extensions, [_writeTo] returns and leaves the tile as it was, and
    [fromBytesIO] on the bytes written returns at their end, having
    appended the vertices and the edge indices to the lists that the tile
    it fills already held and having replaced its triangle indices; a tile
    whose lists were empty receives the mesh as it was written. *)
Theorem fromBytesIO_appends_mesh `{Collaborators} (t t0 : TerrainTile) :
  valid_mesh t -> vLight t = [] -> watermask t = [] ->
  Z.of_nat (length (u t)) <= BYTESPLIT ->
  exists bytes t1,
    _writeTo t = (Ok tt, t, bytes) /\
    fromBytesIO false false (t0, bytes) = (Ok tt, (t1, [])) /\
    u t1 = u t0 ++ u t /\ v t1 = v t0 ++ v t /\ h t1 = h t0 ++ h t /\
    indices t1 = indices t /\
    westI t1 = westI t0 ++ westI t /\ southI t1 = southI t0 ++ southI t /\
    eastI t1 = eastI t0 ++ eastI t /\ northI t1 = northI t0 ++ northI t /\
    (no_mesh t0 ->
     u t1 = u t /\ v t1 = v t /\ h t1 = h t /\
     edges_are (westI t) (southI t) (eastI t) (northI t) t1).
Proof.
  intros V Hl Hw Hn.
  destruct (fromBytesIO_narrow t t0 V Hl Hw Hn) as (bytes & hd & Hwr & Hrd).
  exists bytes, (mesh_read false false hd t t0).
  destruct (mesh_read_mesh false false hd t t0)
    as (Hu & Hv & Hh & Hi & Hwe & Hso & Hea & Hno).
  repeat (split; [assumption|]).
  intros (Eu & Ev & Eh & Ew & Es & Ee & En).
  rewrite Hu, Hv, Hh, Eu, Ev, Eh. repeat (split; [reflexivity|]).
  unfold edges_are. rewrite Hwe, Hso, Hea, Hno, Ew, Es, Ee, En.
  repeat split.
Qed.

Lemma fromBytesIO_appends_mesh_witness :
  exists bytes t1,
    @_writeTo sample_collaborators square_tile = (Ok tt, square_tile, bytes) /\
    @fromBytesIO sample_collaborators false false (empty_tile, bytes)
    = (Ok tt, (t1, [])) /\
    u t1 = u square_tile /\ v t1 = v square_tile /\ h t1 = h square_tile /\
    indices t1 = indices square_tile /\
    edges_are [0; 3] [0; 1] [1; 2] [2; 3] t1.
Proof.
  destruct (@fromBytesIO_appends_mesh sample_collaborators square_tile
              empty_tile square_tile_valid eq_refl eq_refl)
    as (bytes & t1 & Hwr & Hrd & _ & _ & _ & Hi & _ & _ & _ & _ & Hfresh).
  { vm_compute. discriminate. }
  destruct Hfresh as (Hu & Hv & Hh & He).
  { repeat split. }
  exists bytes, t1. repeat (split; [assumption|]). exact He.
Defined.

(** ** Writing to files *)

(** X3: [toFile] on a path that is not a file creates the file whether
    [_writeTo] returns or raises, holding what was written until then, and
    touches no other file; a second [toFile] on that path, of any tile,
    therefore raises [IOError]. *)
Theorem toFile_creates_file `{Collaborators} (filePath : string)
    (gzipped : bool) (self : TerrainTile) (fs : gmap string (list byte)) :
  fs !! filePath = None ->
  let run := toFile filePath gzipped self fs in
  let fs' := snd run in
  fst run = (W_result (_writeTo self), W_state (_writeTo self)) /\
  fs' !! filePath
  = Some (let out := W_output (_writeTo self) in
          if gzipped then gzip_compress out else out) /\
  (forall p, p <> filePath -> fs' !! p = fs !! p) /\
  (forall gz t, toFile filePath gz t fs' = (Raise IOError, t, fs')).
Proof.
  intros Hnew run fs'. subst run fs'. unfold toFile.
  rewrite bool_decide_eq_false_2 by (rewrite Hnew; intros [x Hx]; discriminate).
  unfold write_file. destruct (_writeTo self) as [[r t'] out].
  cbn [fst snd W_result W_state W_output].
  split; [reflexivity|]. split; [apply lookup_insert_eq|]. split.
  - intros p Hp. now apply lookup_insert_ne.
  - intros gz t. rewrite bool_decide_eq_true_2; [reflexivity|].
    rewrite lookup_insert_eq. eauto.
Qed.

Lemma toFile_creates_file_witness :
  fst (@toFile sample_collaborators "new.terrain" false empty_tile sample_fs)
  = (Raise IndexError, empty_tile) /\
  is_Some (snd (@toFile sample_collaborators "new.terrain" false empty_tile
                  sample_fs) !! "new.terrain") /\
  @toFile sample_collaborators "new.terrain" false square_tile
    (snd (@toFile sample_collaborators "new.terrain" false empty_tile
            sample_fs))
  = (Raise IOError, square_tile,
     snd (@toFile sample_collaborators "new.terrain" false empty_tile
            sample_fs)).
Proof.
  destruct (@toFile_creates_file sample_collaborators "new.terrain" false
              empty_tile sample_fs eq_refl) as (H1 & H2 & _ & H4).
  split; [exact H1|]. split; [rewrite H2; eauto|]. apply H4.
Defined.

(** ** The extensions *)

Lemma valid_mesh_set_vLight (l : list vec3) (t : TerrainTile) :
  valid_mesh t -> valid_mesh (set_vLight l t).
Proof. intros []. constructor; assumption. Qed.

(** X4: a watermask of a single row is written as a uniform watermask made
    of the first cell of the row, whatever the row holds after it: read
    back, the watermask is that one cell. *)
Theorem watermask_single_row_first_cell `{Collaborators} (b : Z)
    (cells : list (option Z)) (t t0 : TerrainTile) :
  valid_mesh t -> vLight t = [] ->
  Z.of_nat (length (u t)) <= BYTESPLIT ->
  watermask t = [Some b :: cells] -> fits fmt_B b ->
  exists bytes t1,
    _writeTo t = (Ok tt, set_hasWatermask true t, bytes) /\
    fromBytesIO false true (t0, bytes) = (Ok tt, (t1, [])) /\
    watermask t1 = watermask t0 ++ [[Some b]].
Proof.
  intros V Hl Hn Hw Hb.
  destruct (writeTo_watermask_block t _ _ _ V Hl
              (write_watermask_row b cells t Hw Hb)) as (hb & Hlen & Hwr).
  assert (Hu : uniform_mask [[b]]) by (exists b; auto).
  destruct (fromBytesIO_mesh_mask [[b]] t t0 hb V Hlen Hn (or_introl Hu))
    as (t1 & Hrd & Hm).
  exists (mesh_bytes hb t ++ watermask_bytes [[b]]), t1. auto.
Qed.

Lemma watermask_single_row_first_cell_witness :
  exists bytes t1,
    @_writeTo sample_collaborators row_mask_tile
    = (Ok tt, set_hasWatermask true row_mask_tile, bytes) /\
    @fromBytesIO sample_collaborators false true (empty_tile, bytes)
    = (Ok tt, (t1, [])) /\
    watermask row_mask_tile = [[Some 5; Some 6; Some 7]] /\
    watermask t1 = [[Some 5]].
Proof.
  destruct (@watermask_single_row_first_cell sample_collaborators 5
              [Some 6; Some 7] row_mask_tile empty_tile
              (valid_mesh_set_watermask _ _ square_tile_valid) eq_refl)
    as (bytes & t1 & Hwr & Hrd & Hm).
  - vm_compute. discriminate.
  - reflexivity.
  - apply fits_check. reflexivity.
  - exists bytes, t1. auto.
Defined.

(** X5: on a valid tile without normals whose watermask has more than one
    row, [_writeTo] raises the exception of the row count when there are
    not 256 rows, and the exception of the column count when there are 256
    rows and one of them does not have 256 cells; by then [hasWatermask]
    has been set and the mesh, the extension header and the rows before
    the faulty one have been written. *)
Theorem writeTo_watermask_shape_errors `{Collaborators} (t : TerrainTile) :
  valid_mesh t -> vLight t = [] ->
  1 < Z.of_nat (length (watermask t)) ->
  exists hb, length hb = 88%nat /\
    (Z.of_nat (length (watermask t)) <> 256 ->
     _writeTo t
     = (Raise (Exception "Unexpected number of rows for the watermask"),
        set_hasWatermask true t,
        mesh_bytes hb t ++ le_bytes 1 2 ++ le_bytes 4 TILEPXS)) /\
    (forall good bad others,
       length (watermask t) = 256%nat ->
       watermask t = map (map Some) good ++ bad :: others ->
       Forall (fun r => length r = 256%nat /\ Forall (fits fmt_B) r) good ->
       length bad <> 256%nat ->
       _writeTo t
       = (Raise (Exception "Unexpected number of columns for the watermask"),
          set_hasWatermask true t,
          mesh_bytes hb t ++ le_bytes 1 2 ++ le_bytes 4 TILEPXS
          ++ words fmt_B (concat good))).
Proof.
  intros V Hl Hrows.
  destruct (writeTo_valid t V) as (hb & Hlen & _ & Hout).
  exists hb. split; [exact Hlen|]. split.
  - intros H256. rewrite Hout. cbv zeta.
    rewrite (W_bind_silent _ _ t tt t _ (write_lighting_none _ t Hl)
               (write_watermask_rows_error t Hrows H256)).
    reflexivity.
  - intros good bad others H256 Hw Hgood Hbad. rewrite Hout. cbv zeta.
    rewrite (W_bind_silent _ _ t tt t _ (write_lighting_none _ t Hl)
               (write_watermask_columns_error good bad others t
                  Hw H256 Hgood Hbad)).
    reflexivity.
Qed.

Lemma writeTo_watermask_shape_errors_witness :
  W_result (@_writeTo sample_collaborators three_rows_tile)
  = Raise (Exception "Unexpected number of rows for the watermask") /\
  W_result (@_writeTo sample_collaborators thin_mask_tile)
  = Raise (Exception "Unexpected number of columns for the watermask").
Proof.
  split.
  - destruct (@writeTo_watermask_shape_errors sample_collaborators
                three_rows_tile
                (valid_mesh_set_watermask _ _ square_tile_valid) eq_refl)
      as (hb & _ & Hrows & _); [reflexivity|].
    rewrite Hrows; [reflexivity|]. vm_compute. discriminate.
  - destruct (@writeTo_watermask_shape_errors sample_collaborators
                thin_mask_tile
                (valid_mesh_set_watermask _ _ square_tile_valid) eq_refl)
      as (hb & _ & _ & Hcols); [reflexivity|].
    rewrite (Hcols [] [Some 1] (replicate 255 [Some 1]));
      [reflexivity|reflexivity|reflexivity|constructor|].
    cbn. lia.
Defined.

(** X6: when a valid tile has normals, but fewer than vertices,
    [_writeTo] does not return: the loop over the vertices reads a normal
    that is not there; [hasLighting] has been set to [True] by then. *)
Theorem writeTo_missing_normals `{Collaborators} (t : TerrainTile) :
  valid_mesh t -> vLight t <> [] ->
  (length (vLight t) < length (u t))%nat ->
  is_ok (W_result (_writeTo t)) = false /\
  hasLighting (W_state (_writeTo t)) = Some true.
Proof.
  intros V Hne Hshort.
  destruct (writeTo_valid t V) as (hb & _ & _ & Hout).
  rewrite Hout. cbv zeta. cbn [W_result W_state fst snd].
  set (n := Z.of_nat (length (u t))) in *.
  pose proof (write_lighting_state n t) as Hst.
  destruct (write_lighting n t) as [[[[]|e] tl] ol] eqn:El.
  - apply (write_lighting_enough n t tl ol Hne) in El.
    subst n. rewrite Nat2Z.id in El. lia.
  - rewrite (W_bind_Raise _ _ _ _ _ _ El).
    cbn [W_result W_state fst snd] in *. split; [reflexivity|].
    rewrite Hst. destruct (vLight t); [congruence|reflexivity].
Qed.

Lemma writeTo_missing_normals_witness :
  W_result (@_writeTo sample_collaborators one_normal_tile)
  = Raise IndexError /\
  hasLighting (W_state (@_writeTo sample_collaborators one_normal_tile))
  = Some true.
Proof.
  destruct (@writeTo_missing_normals sample_collaborators one_normal_tile
              (valid_mesh_set_vLight _ _ square_tile_valid))
    as [_ Hflag].
  - discriminate.
  - cbn. lia.
  - split; [vm_compute; reflexivity|exact Hflag].
Defined.

(** X7: the declarations given to [fromBytesIO] must match what the tile
    carries.  When a valid tile of at most [BYTESPLIT] vertices that has
    normals was written, [fromBytesIO] with [hasLighting=False] and
    [hasWatermask=True] returns without a watermask, whatever watermask was
    written: it finds the id of the lighting extension where it looks for
    the watermask, consumes that byte and stops. *)
Theorem fromBytesIO_undeclared_lighting `{Collaborators}
    (t t' t0 : TerrainTile) (bytes : list byte) :
  valid_mesh t -> Z.of_nat (length (u t)) <= BYTESPLIT ->
  vLight t <> [] ->
  _writeTo t = (Ok tt, t', bytes) ->
  exists t1 rest,
    fromBytesIO false true (t0, bytes) = (Ok tt, (t1, rest)) /\
    watermask t1 = watermask t0 /\ vLight t1 = vLight t0 /\
    (length rest >= 4 + 2 * length (u t))%nat.
Proof.
  intros V Hn Hne Hwr.
  destruct (writeTo_inv t t' bytes V Hwr)
    as (hb & tl & ol & ow & Hlen & Hlight & _ & ->).
  apply write_lighting_inv in Hlight
    as [(Hno & _)|(_ & _ & _ & o' & -> & Hlen')].
  { unfold has_normals in Hno. apply Z.ltb_ge in Hno.
    destruct (vLight t); [congruence|cbn [length] in Hno; lia]. }
  rewrite Nat2Z.id in Hlen'.
  destruct (read_mesh_narrow false true t t0 hb
              ((le_bytes 1 1 ++ le_bytes 4 (2 * Z.of_nat (length (u t)))
                ++ o') ++ ow) V Hlen Hn) as [hd Hmesh].
  destruct (mesh_read_extensions false true hd t t0) as (Fl & Fw & Fv & Fm).
  set (tm := mesh_read false true hd t t0) in *.
  exists tm, ((le_bytes 4 (2 * Z.of_nat (length (u t))) ++ o') ++ ow).
  split; [|split; [exact Fm|split; [exact Fv|]]].
  - unfold fromBytesIO. rewrite (R_bind_Ok _ _ _ _ _ Hmesh).
    rewrite (R_bind_Ok _ _ _ _ _ (read_lighting_undeclared (tm, _) Fl)).
    change (le_bytes 1 1) with [byte_of_Z 1]. rewrite <- !app_assoc.
    apply (read_watermask_mismatch tm (byte_of_Z 1) _ Fw).
    vm_compute. discriminate.
  - rewrite !length_app, length_le_bytes, Hlen'. lia.
Qed.

Lemma fromBytesIO_undeclared_lighting_witness :
  exists bytes t1 rest,
    @_writeTo sample_collaborators lit_mask_tile
    = (Ok tt, set_hasWatermask true (set_hasLighting (Some true) lit_mask_tile),
       bytes) /\
    @fromBytesIO sample_collaborators false true (empty_tile, bytes)
    = (Ok tt, (t1, rest)) /\
    watermask lit_mask_tile = [[Some 1]] /\ watermask t1 = [].
Proof.
  assert (Hwr : exists bytes,
             @_writeTo sample_collaborators lit_mask_tile
             = (Ok tt, set_hasWatermask true
                         (set_hasLighting (Some true) lit_mask_tile), bytes)).
  { eexists. vm_compute. reflexivity. }
  destruct Hwr as [bytes Hwr].
  destruct (@fromBytesIO_undeclared_lighting sample_collaborators
              lit_mask_tile
              (set_hasWatermask true
                 (set_hasLighting (Some true) lit_mask_tile))
              empty_tile bytes
              (valid_mesh_set_watermask _ _
                 (valid_mesh_set_vLight _ _ square_tile_valid)))
    as (t1 & rest & Hrd & Hm & _).
  - vm_compute. discriminate.
  - discriminate.
  - exact Hwr.
  - exists bytes, t1, rest. auto.
Defined.

(** ** The size of a tile *)

Lemma length_words fmt (l : list Z) :
  length (words fmt l) = (isize fmt * length l)%nat.
Proof.
  unfold words. induction l as [|x l IH]; cbn [map concat length]; [lia|].
  rewrite length_app, length_le_bytes, IH. lia.
Qed.

Lemma length_zigzag_deltas (prev : Z) (l : list Z) :
  length (zigzag_deltas prev l) = length l.
Proof.
  revert prev. induction l as [|x l IH]; intros prev; cbn; [reflexivity|].
  now rewrite IH.
Qed.

Lemma length_mesh_bytes (hb : list byte) (t : TerrainTile) :
  length hb = 88%nat -> length (v t) = length (u t) ->
  length (h t) = length (u t) ->
  Z.of_nat (length (mesh_bytes hb t))
  = let w := if BYTESPLIT <? Z.of_nat (length (u t)) then 4 else 2 in
    88 + (4 + 6 * Z.of_nat (length (u t)))
    + (4 + w * Z.of_nat (length (indices t)))
    + (16 + w * Z.of_nat (length (westI t) + length (southI t)
                          + length (eastI t) + length (northI t))).
Proof.
  intros Hhb Hv Hh. cbv zeta.
  unfold mesh_bytes, vertex_bytes, index_bytes, edge_bytes, edge_block,
    index_width, encodeIndices.
  rewrite !length_app, !length_words, !length_le_bytes, !length_zigzag_deltas,
    length_encodeIndices_from, Hhb, Hv, Hh.
  destruct (BYTESPLIT <? Z.of_nat (length (u t))); cbn [isize]; lia.
Qed.

(** X8: a valid tile without extensions is written on 88 bytes of header,
    4 + 6n bytes for its n vertices, 4 + w i bytes for its i triangle
    indices and 16 + w e bytes for its e edge indices, where the width w
    of an index is 2 bytes up to [BYTESPLIT] vertices and 4 bytes
    beyond. *)
Theorem writeTo_size `{Collaborators} (t : TerrainTile) :
  valid_mesh t -> vLight t = [] -> watermask t = [] ->
  exists bytes,
    _writeTo t = (Ok tt, t, bytes) /\
    Z.of_nat (length bytes)
    = let w := if BYTESPLIT <? Z.of_nat (length (u t)) then 4 else 2 in
      88 + (4 + 6 * Z.of_nat (length (u t)))
      + (4 + w * Z.of_nat (length (indices t)))
      + (16 + w * Z.of_nat (length (westI t) + length (southI t)
                            + length (eastI t) + length (northI t))).
Proof.
  intros V Hl Hw.
  destruct (writeTo_no_extension t V Hl Hw) as (hb & Hlen & Hwr).
  exists (mesh_bytes hb t). split; [exact Hwr|].
  apply length_mesh_bytes;
    [exact Hlen|exact (vm_v_length t V)|exact (vm_h_length t V)].
Qed.

Lemma writeTo_size_witness :
  (exists bytes,
     @_writeTo sample_collaborators square_tile = (Ok tt, square_tile, bytes) /\
     Z.of_nat (length bytes) = 176) /\
  (exists bytes,
     @_writeTo sample_collaborators wide_tile = (Ok tt, wide_tile, bytes) /\
     Z.of_nat (length bytes) = 394002).
Proof.
  split.
  - destruct (@writeTo_size sample_collaborators square_tile
                square_tile_valid eq_refl eq_refl) as (bytes & Hwr & Hlen).
    exists bytes. split; [exact Hwr|]. rewrite Hlen. reflexivity.
  - destruct (@writeTo_size sample_collaborators wide_tile
                wide_tile_valid eq_refl eq_refl) as (bytes & Hwr & Hlen).
    exists bytes. split; [exact Hwr|]. rewrite Hlen, wide_tile_count.
    reflexivity.
Defined.

(** ** The content type *)

(** X9: [getContentType] reads [hasLighting], which the constructor does
    not assign: on a tile built without topology it raises
    [AttributeError]; after [fromBytesIO], whether that returned or raised,
    it gives the content type of the two declarations. *)
Theorem getContentType_declared `{Collaborators} (hl hw : bool)
    (st : TerrainTile * list byte) (kw : Kwargs) (t : TerrainTile) :
  kw_topology kw = None -> TerrainTile_init kw = Ok t ->
  getContentType t = inl (AttributeError "hasLighting") /\
  getContentType (R_tile (fromBytesIO hl hw st))
  = inr (match hl, hw with
         | true, true =>
             "application/vnd.quantized-mesh;extensions=octvertexnormals-watermask"
         | true, false =>
             "application/vnd.quantized-mesh;extensions=octvertexnormals"
         | false, true => "application/vnd.quantized-mesh;extensions=watermask"
         | false, false => "application/vnd.quantized-mesh"
         end).
Proof.
  intros Hnone Hinit. split.
  - unfold TerrainTile_init in Hinit. rewrite Hnone in Hinit.
    injection Hinit as <-. reflexivity.
  - destruct (fromBytesIO_flags hl hw st) as [Fl Fw].
    unfold getContentType. rewrite Fl, Fw.
    destruct hl, hw; reflexivity.
Qed.

Lemma getContentType_declared_witness :
  getContentType empty_tile = inl (AttributeError "hasLighting") /\
  getContentType
    (R_tile (@fromBytesIO sample_collaborators false true (empty_tile, [])))
  = inr "application/vnd.quantized-mesh;extensions=watermask".
Proof.
  apply (@getContentType_declared sample_collaborators false true
           (empty_tile, []) no_kwargs empty_tile); reflexivity.
Defined.

(** ** Quantization *)

(** X10: unlike [_quantizeHeight], the quantization of longitudes and
    latitudes has no guard for an empty range: on a tile whose east and
    west (respectively north and south) bounds are equal and whose working
    unit is not cached yet, [_quantizeLongitude] (respectively
    [_quantizeLatitude]) raises [ZeroDivisionError] on every input and
    leaves the tile as it was. *)
Theorem quantize_degenerate_bounds (t : TerrainTile) (x : float) :
  (truthy (_workingUnitLongitude t) = false ->
   is_finite (_east t) = true -> (_east t =? _west t)%float = true ->
   _quantizeLongitude x t = (Raise ZeroDivisionError, t)) /\
  (truthy (_workingUnitLatitude t) = false ->
   is_finite (_north t) = true -> (_north t =? _south t)%float = true ->
   _quantizeLatitude x t = (Raise ZeroDivisionError, t)).
Proof.
  split; intros Hcache Hfin Heq; pose proof (sub_eq_zero _ _ Hfin Heq) as Hz.
  - unfold _quantizeLongitude, _getWorkingUnitLongitude.
    unfold T_bind at 1. cbn [T_self].
    unfold T_bind at 1. unfold T_bind at 1. cbn [T_self].
    rewrite Hcache. cbn [negb].
    unfold T_bind at 1. unfold T_bind at 1. cbn [T_lift].
    unfold truediv. rewrite Hz. reflexivity.
  - unfold _quantizeLatitude, _getWorkingUnitLatitude.
    unfold T_bind at 1. cbn [T_self].
    unfold T_bind at 1. unfold T_bind at 1. cbn [T_self].
    rewrite Hcache. cbn [negb].
    unfold T_bind at 1. unfold T_bind at 1. cbn [T_lift].
    unfold truediv. rewrite Hz. reflexivity.
Qed.

Lemma quantize_degenerate_bounds_witness :
  _quantizeLongitude 2.5%float degenerate_tile
  = (Raise ZeroDivisionError, degenerate_tile).
Proof.
  destruct (quantize_degenerate_bounds degenerate_tile 2.5%float) as [Hlon _].
  apply Hlon; reflexivity.
Defined.

(** ** Building a tile from a topology *)

(** X11: [fromTerrainTopology] takes the bounds it is given; without
    them, it keeps the bounds of the tile when one of them is neither -1.0
    nor 1.0 and takes the extent of the topology otherwise, that is also
    for a tile whose bounds were set to values among -1.0 and 1.0. *)
Theorem fromTerrainTopology_bounds `{Collaborators}
    (topology : TerrainTopology)
    (given : option (float * float * float * float))
    (t0 t1 : TerrainTile) :
  fromTerrainTopology (TopologyObject topology) given t0 = (Ok tt, t1) ->
  match given with
  | Some (west, south, east, north) => bounds t1 = [west; south; east; north]
  | None =>
      if bounds_defined t0 then bounds t1 = bounds t0
      else bounds t1 = [minLon topology; minLat topology;
                        maxLon topology; maxLat topology]
  end.
Proof.
  intros Hrun.
  apply fromTerrainTopology_result in Hrun as (_ & _ & _ & _ & _ & Hb & _).
  unfold bounds_after in Hb.
  destruct given as [[[[b0 b1] b2] b3]|]; [exact Hb|].
  destruct (bounds_defined t0); exact Hb.
Qed.

Lemma fromTerrainTopology_bounds_witness :
  bounds empty_tile = [-1; -1; 1; 1]%float /\
  bounds square_tile = [0; 0; 1; 1]%float.
Proof.
  split; [reflexivity|].
  assert (Hrun : @fromTerrainTopology sample_collaborators
                   (TopologyObject square_topology) None empty_tile
                 = (Ok tt, square_tile)) by (vm_compute; reflexivity).
  exact (@fromTerrainTopology_bounds sample_collaborators square_topology
           None empty_tile square_tile Hrun).
Defined.

(** X12: when [fromTerrainTopology] returns, the tile holds one quantized
    longitude, latitude and height for each vertex of the topology, in the
    order of the topology: [u[i]] is the rounding of
    [(uVertex[i] - west) * W], where west and east are the bounds the tile
    has after the call and [W] is the working unit cached before the call
    when there is one that is not zero, and [32767 / (east - west)]
    otherwise; [v[i]] is the same between south and north; [h[i]] is 0 when
    the height range [D] is zero and otherwise the rounding of
    [(hVertex[i] - minHeight) * (32767 / D)], where [D] is the range cached
    before the call when there is one that is not zero, and
    [maxHeight - minHeight] of the topology otherwise.  The triangle
    indices are those of the topology, the header has the height range of
    the topology, [hasLighting] is the flag of the topology and the normals
    are those of the topology when that flag is set and the ones the tile
    already had otherwise; the watermask and its flag are left as they
    were. *)
Theorem fromTerrainTopology_mesh `{Collaborators}
    (topology : TerrainTopology)
    (given : option (float * float * float * float))
    (t0 t1 : TerrainTile) :
  fromTerrainTopology (TopologyObject topology) given t0 = (Ok tt, t1) ->
  Forall2 (fun longitude q =>
             py_round ((longitude - _west t1)
                       * working_unit (_workingUnitLongitude t0)
                           (_west t1) (_east t1))%float = Ok q)
          (uVertex topology) (u t1) /\
  Forall2 (fun latitude q =>
             py_round ((latitude - _south t1)
                       * working_unit (_workingUnitLatitude t0)
                           (_south t1) (_north t1))%float = Ok q)
          (vVertex topology) (v t1) /\
  Forall2 (fun height q =>
             let deniv := height_range (_deltaHeight t0)
                            (minHeight topology) (maxHeight topology) in
             (if (deniv =? 0)%float then Ok 0
              else py_round ((height - minHeight topology)
                             * (32767 / deniv))%float) = Ok q)
          (hVertex topology) (h t1) /\
  indices t1 = indexData topology /\
  length (u t1) = length (uVertex topology) /\
  length (v t1) = length (vVertex topology) /\
  length (h t1) = length (hVertex topology) /\
  minimumHeight (header t1) = minHeight topology /\
  maximumHeight (header t1) = maxHeight topology /\
  hasLighting t1 = Some (topo_hasLighting topology) /\
  vLight t1 = (if topo_hasLighting topology
               then verticesUnitVectors topology else vLight t0) /\
  watermask t1 = watermask t0 /\ hasWatermask t1 = hasWatermask t0.
Proof.
  intros Hrun.
  destruct (fromTerrainTopology_load _ _ _ _ Hrun)
    as (tl & Hload & Eu & Ev & Eh & Ei & Ew & Ee & Es & En).
  destruct (load_topology_values _ _ _ _ Hload) as (Fu & Fv & Fh).
  rewrite Eu, Ev, Eh, Ei, Ew, Ee, Es, En.
  split; [exact Fu|]. split; [exact Fv|]. split; [exact Fh|].
  split; [exact (load_topology_indices _ _ _ _ Hload)|].
  rewrite <- Eu, <- Ev, <- Eh.
  apply fromTerrainTopology_result in Hrun
    as (Hu & Hv & Hh & Hmin & Hmax & _ & Hwm & Hhw & Hhl & Hvl).
  repeat (split; [assumption|]). assumption.
Qed.

(** The constructor on the square topology, on a tile with nothing cached:
    the factors are [32767 / (1 - 0)] and [32767 / (10 - 0)], and the five
    vertices are quantized to the values below. *)
Lemma fromTerrainTopology_mesh_witness :
  working_unit (_workingUnitLongitude empty_tile) 0 1 = 32767%float /\
  Forall2 (fun longitude q =>
             py_round ((longitude - 0) * 32767)%float = Ok q)
          [0; 1; 1; 0; 0.5]%float (u square_tile) /\
  Forall2 (fun latitude q =>
             py_round ((latitude - 0) * 32767)%float = Ok q)
          [0; 0; 1; 1; 0.25]%float (v square_tile) /\
  Forall2 (fun height q =>
             py_round ((height - 0) * (32767 / 10))%float = Ok q)
          [0; 5; 10; 2.5; 1]%float (h square_tile) /\
  u square_tile = [0; 32767; 32767; 0; 16384] /\
  v square_tile = [0; 0; 32767; 32767; 8192] /\
  h square_tile = [0; 16384; 32767; 8192; 3277] /\
  indices square_tile = [0; 1; 2; 0; 2; 3; 0; 4; 1] /\
  minimumHeight (header square_tile) = 0%float /\
  maximumHeight (header square_tile) = 10%float /\
  hasLighting square_tile = Some false.
Proof.
  assert (Hrun : @fromTerrainTopology sample_collaborators
                   (TopologyObject square_topology) None empty_tile
                 = (Ok tt, square_tile)) by (vm_compute; reflexivity).
  destruct (@fromTerrainTopology_mesh sample_collaborators square_topology
              None empty_tile square_tile Hrun)
    as (Fu & Fv & Fh & Hi & _ & _ & _ & Hmin & Hmax & Hhl & _).
  split; [reflexivity|].
  split; [exact Fu|]. split; [exact Fv|]. split; [exact Fh|].
  split; [reflexivity|]. split; [reflexivity|]. split; [reflexivity|].
  split; [exact Hi|]. split; [exact Hmin|]. split; [exact Hmax|]. exact Hhl.
Defined.

(** ** Coordinates *)

(** X13: once [getVerticesCoordinates] has returned a list that is not
    empty, the coordinates are served from the three caches: every tile
    that holds the same caches, whatever its quantized vertices, bounds
    and header have become, returns the same list and is left as it
    is. *)
Theorem getVerticesCoordinates_cached (t t1 t2 : TerrainTile)
    (coordinates : list vec3) :
  getVerticesCoordinates t = (Ok coordinates, t1) ->
  coordinates <> [] ->
  _longs t2 = _longs t1 -> _lats t2 = _lats t1 ->
  _heights t2 = _heights t1 ->
  getVerticesCoordinates t2 = (Ok coordinates, t2).
Proof.
  intros Hrun Hne Hlo Hla Hhe. unfold getVerticesCoordinates in *.
  apply T_bind_Ok_inv in Hrun as ([] & ta & _ & Hrun).
  apply T_bind_Ok_inv in Hrun as (self & ta' & Hself & Hrun).
  cbn in Hself. injection Hself as <- <-.
  unfold T_lift in Hrun. injection Hrun as Hcs <-.
  assert (Hlongs : _longs ta <> []).
  { intros E. rewrite E in Hcs. cbn in Hcs. congruence. }
  rewrite <- Hlo in Hlongs.
  unfold T_bind at 1. rewrite (computeVerticesCoordinates_cached t2 Hlongs).
  unfold T_bind, T_self, T_lift.
  now rewrite Hlo, (enumerate_coordinates_caches ta t2 0 _ Hla Hhe), Hcs.
Qed.

Lemma getVerticesCoordinates_cached_witness :
  getVerticesCoordinates square_tile = (Ok square_coordinates, square_computed)
  /\
  getVerticesCoordinates
    (set_u [] (set_west 100 (set_header zero_header square_computed)))
  = (Ok square_coordinates,
     set_u [] (set_west 100 (set_header zero_header square_computed))).
Proof.
  assert (Hrun : getVerticesCoordinates square_tile
                 = (Ok square_coordinates, square_computed))
    by (vm_compute; reflexivity).
  split; [exact Hrun|].
  apply (getVerticesCoordinates_cached square_tile square_computed _ _ Hrun);
    [discriminate|reflexivity|reflexivity|reflexivity].
Defined.

(** X14: [getTrianglesCoordinates] computes the coordinates as
    [getVerticesCoordinates] does.  When these are computed and the number
    of indices is not a multiple of 3, it raises the exception of the
    corrupted tile; when it is one and every index is that of a vertex, it
    returns one triangle for every three indices, made of the coordinates
    of the three vertices in the order of the indices. *)
Theorem getTrianglesCoordinates_triangles (t t1 : TerrainTile)
    (coordinates : list vec3) :
  getVerticesCoordinates t = (Ok coordinates, t1) ->
  (Z.of_nat (length (indices t)) mod 3 <> 0 ->
   getTrianglesCoordinates t = (Raise (Exception "Corrupted tile"), t1)) /\
  (Z.of_nat (length (indices t)) mod 3 = 0 ->
   Forall (fun i => 0 <= i < Z.of_nat (length coordinates)) (indices t) ->
   exists triangles,
     getTrianglesCoordinates t = (Ok triangles, t1) /\
     (3 * length triangles = length (indices t))%nat /\
     forall k i1 i2 i3,
       indices t !! (3 * k)%nat = Some i1 ->
       indices t !! (3 * k + 1)%nat = Some i2 ->
       indices t !! (3 * k + 2)%nat = Some i3 ->
       exists p1 p2 p3,
         coordinates !! Z.to_nat i1 = Some p1 /\
         coordinates !! Z.to_nat i2 = Some p2 /\
         coordinates !! Z.to_nat i3 = Some p3 /\
         triangles !! k = Some (p1, p2, p3)).
Proof.
  intros Hrun. unfold getVerticesCoordinates in Hrun.
  apply T_bind_Ok_inv in Hrun as ([] & ta & Hcompute & Hrun).
  apply T_bind_Ok_inv in Hrun as (self & ta' & Hself & Hrun).
  cbn in Hself. injection Hself as <- <-.
  unfold T_lift in Hrun. injection Hrun as Hcs <-.
  pose proof (computeVerticesCoordinates_indices t) as Hind.
  rewrite Hcompute in Hind. cbn [snd] in Hind.
  assert (Hg : getTrianglesCoordinates t
               = (if negb (Z.of_nat (length (indices t)) mod 3 =? 0)
                  then T_lift (Raise (Exception "Corrupted tile"))
                  else T_lift (triangles_loop ta (indices t))) ta).
  { unfold getTrianglesCoordinates, T_bind at 1. rewrite Hcompute.
    unfold T_bind, T_self. cbv zeta. now rewrite Hind. }
  rewrite Hg. clear Hg. split.
  - intros Hmod.
    match goal with |- context [negb ?b] => destruct b eqn:E end;
      [apply Z.eqb_eq in E; contradiction|reflexivity].
  - intros Hmod Hin.
    match goal with |- context [negb ?b] => destruct b eqn:E end;
      [|apply Z.eqb_neq in E; contradiction].
    cbn [negb].
    assert (Hlen : length (indices t)
                   = (3 * Z.to_nat (Z.of_nat (length (indices t)) / 3))%nat).
    { pose proof (Z.div_mod (Z.of_nat (length (indices t))) 3 ltac:(lia)).
      lia. }
    destruct (triangles_loop_spec ta coordinates _ (indices t) Hcs Hlen Hin)
      as (trs & Htrs & Hn & Hk).
    exists trs. unfold T_lift. rewrite Htrs.
    split; [reflexivity|]. split; [lia|exact Hk].
Qed.

Lemma getTrianglesCoordinates_triangles_witness :
  (exists triangles,
     getTrianglesCoordinates square_tile = (Ok triangles, square_computed) /\
     length triangles = 3%nat) /\
  fst (getTrianglesCoordinates corrupted_tile)
  = Raise (Exception "Corrupted tile").
Proof.
  split.
  - assert (Hrun : getVerticesCoordinates square_tile
                   = (Ok square_coordinates, square_computed))
      by (vm_compute; reflexivity).
    destruct (getTrianglesCoordinates_triangles square_tile square_computed
                square_coordinates Hrun) as [_ Hok].
    destruct Hok as (trs & Htrs & Hlen & _).
    + reflexivity.
    + apply Forall_forall. intros i Hi.
      apply list_elem_of_In in Hi. cbn in Hi.
      repeat (destruct Hi as [<-|Hi]; [cbn; lia|]). destruct Hi.
    + exists trs. split; [exact Htrs|]. cbn in Hlen. lia.
  - assert (Hrun : exists cs t1,
               getVerticesCoordinates corrupted_tile = (Ok cs, t1)).
    { eexists. eexists. vm_compute. reflexivity. }
    destruct Hrun as (cs & t1 & Hrun).
    destruct (getTrianglesCoordinates_triangles corrupted_tile t1 cs Hrun)
      as [Hbad _].
    rewrite Hbad; [reflexivity|]. vm_compute. discriminate.
Defined.

(** ** Reading a file that was written *)

(** X15: [fromFile] raises [IOError] on a path that is not a file and
    leaves the tile as it was.  After [toFile] on such a path, [fromFile]
    on that path decodes what [_writeTo] wrote, as [fromBytesIO] does on
    these bytes, also when [_writeTo] raised and the file only holds the
    beginning of a tile; with [gzipped] on both sides this holds when
    [ungzipFileObject] undoes the compression. *)
Theorem fromFile_after_toFile `{Collaborators}
    (ungzipFileObject : list byte -> result (list byte))
    (filePath : string) (gzipped hl hw : bool) (t t0 : TerrainTile)
    (fs : gmap string (list byte)) :
  fs !! filePath = None ->
  (forall bs, ungzipFileObject (gzip_compress bs) = Ok bs) ->
  fromFile ungzipFileObject filePath hl hw gzipped t0 fs
  = (Raise IOError, t0) /\
  fromFile ungzipFileObject filePath hl hw gzipped t0
    (snd (toFile filePath gzipped t fs))
  = (R_result (fromBytesIO hl hw (t0, W_output (_writeTo t))),
     R_tile (fromBytesIO hl hw (t0, W_output (_writeTo t)))).
Proof.
  intros Hnew Hgz. split.
  - unfold fromFile. now rewrite Hnew.
  - unfold toFile.
    rewrite bool_decide_eq_false_2
      by (rewrite Hnew; intros [x Hx]; discriminate).
    unfold write_file, fromFile.
    destruct (_writeTo t) as [[r t'] out]. cbn [snd W_output].
    rewrite lookup_insert_eq.
    destruct gzipped; [rewrite Hgz|];
      destruct (fromBytesIO hl hw (t0, out)) as [res [t1 rest]];
      reflexivity.
Qed.

Lemma fromFile_after_toFile_witness :
  @fromFile sample_collaborators Ok "new.terrain" false false false
    empty_tile
    (snd (@toFile sample_collaborators "new.terrain" false square_tile
            sample_fs))
  = (Ok tt, square_decoded).
Proof.
  destruct (@fromFile_after_toFile sample_collaborators Ok "new.terrain"
              false false false square_tile empty_tile sample_fs eq_refl
              (fun bs => eq_refl)) as [_ Hread].
  rewrite Hread. vm_compute. reflexivity.
Defined.
